(** * PowerBI-Manager: the cache-and-consistency core

    A shallow embedding of the client-side consistency layer of the
    Power BI Workspace Manager:

    - [Cache]        js/cache.js   TTL cache, optimistic updates, dirty set
    - [ErrorHandler] js/utils.js   ErrorHandler.mapError
    - [ActionGuard]  js/utils.js   FatalError, Diagnostics, ActionGuard.guard
    - [ApiLegacy]    js/api.js     the first API module (no retry counter)
    - [Api]          the API module with timeout, retry counter and watchdog
    - [AuthLegacy]   js/auth.js    Auth.signOut
    - [Auth]         Auth.signOut of the module with the expiry monitor
    - [Permissions]  js/utils.js   Permissions.checkTokenValidity
    - [Utils]        js/utils.js   Utils.escapeHtml

    JavaScript values are modelled as follows.  A string-or-undefined
    property is an [option string]; a [Map] keyed by strings is a [gmap];
    a [Set] of strings is an insertion-ordered duplicate-free list (the
    order is what [Array.from] returns); arrays are lists, by value;
    timestamps are integers in milliseconds ([Z]); [Date.now()] is an
    explicit argument.  The observable effects of the code (alerts shown,
    requests sent, pacing delays, batches started) are appended to a log
    carried by the state.  Console output is not modelled. *)

From stdpp Require Import gmap strings list fin_maps pretty.
From Equations Require Import Equations.
From Stdlib Require Import ZArith Lia Ascii.

Local Open Scope string_scope.
Local Open Scope Z_scope.

(** ** JavaScript helpers *)

Module Js.

(** A property holding a string or [undefined]/[null]. *)
Definition str := option string.

(** Truthiness of a string-or-undefined: [undefined] and [""] are falsy. *)
Definition truthy (v : str) : bool :=
  match v with
  | None => false
  | Some s => negb (String.eqb s "")
  end.

(** [a || b] on strings. *)
Definition or (a b : str) : str := if truthy a then a else b.

(** Truthiness of a number: [0] is falsy; [NaN] is a [None]. *)
Definition truthyZ (n : Z) : bool := negb (Z.eqb n 0).

Definition truthyNum (n : option Z) : bool :=
  match n with None => false | Some z => truthyZ z end.

(** [a || b] on numbers. *)
Definition orNum (a b : option Z) : option Z :=
  if truthyNum a then a else b.

(** [hay.includes(needle)]. *)
Fixpoint includes (needle hay : string) : bool :=
  String.prefix needle hay
  || match hay with
     | EmptyString => false
     | String _ rest => includes needle rest
     end.

(** [toLowerCase] on the ASCII letters. *)
Definition lowerChar (c : ascii) : ascii :=
  let n := nat_of_ascii c in
  if (Nat.leb 65 n && Nat.leb n 90)%bool
  then ascii_of_nat (n + 32) else c.

Fixpoint toLowerCase (s : string) : string :=
  match s with
  | EmptyString => EmptyString
  | String c rest => String (lowerChar c) (toLowerCase rest)
  end.

(** [s.replace(pattern, replacement)] with a string pattern: the first
    occurrence only. *)
Fixpoint replace (pattern replacement s : string) : string :=
  if String.prefix pattern s
  then replacement ++ String.substring (String.length pattern)
                        (String.length s - String.length pattern) s
  else match s with
       | EmptyString => EmptyString
       | String c rest => String c (replace pattern replacement rest)
       end.

(** [Set.prototype.add] on an insertion-ordered set. *)
Definition set_add (x : string) (s : list string) : list string :=
  if bool_decide (x ∈ s) then s else s ++ [x].

(** A thrown [Error]: its [name] and [message]. *)
Record Error := mkError { error_name : string; error_message : string }.

(** [new Error(message)]. *)
Definition newError (message : string) : Error := mkError "Error" message.

(** How a call completes: it returns a value or throws. *)
Inductive Completion (A : Type) :=
| Return (v : A)
| Throw (e : Error).
Arguments Return {A} v.
Arguments Throw {A} e.

End Js.

(** ** js/config.js *)

Module CONFIG.
Definition BATCH_SIZE : nat := 15.
Definition RATE_LIMIT_DELAY : Z := 100.
Definition CACHE_TTL : Z := 300000.
Definition API_POWER_BI : string := "https://api.powerbi.com/v1.0/myorg".
End CONFIG.

(** ** js/utils.js: the error classifier *)

Module ErrorHandler.

Inductive ErrorType :=
| NETWORK | TIMEOUT | AUTH_EXPIRED | AUTH_INVALID | PERMISSION
| NOT_FOUND | CONFLICT | RATE_LIMIT | SERVER | UNKNOWN | FATAL.


(** The object properties [mapError] looks at, and for a [Response] its
    [Retry-After] header. *)
Record ErrObject := mkErrObject {
  err_name : Js.str;
  err_message : Js.str;
  err_status : option Z;
  err_response_status : option Z;
  err_retryAfter : Js.str
}.

(** The argument of [mapError]: [Error|Response|object], a string, or
    nothing. *)
Inductive ErrArg :=
| ErrNullish
| ErrString (s : string)
| ErrObj (o : ErrObject).

Definition nameOf (err : ErrArg) : Js.str :=
  match err with ErrObj o => err_name o | _ => None end.

Definition messageOf (err : ErrArg) : Js.str :=
  match err with ErrObj o => err_message o | _ => None end.

(** [err?.status || err?.response?.status]. *)
Definition statusOf (err : ErrArg) : option Z :=
  match err with
  | ErrObj o => Js.orNum (err_status o) (err_response_status o)
  | _ => None
  end.

(** The object [mapError] returns. *)
Record MappedError := mkMapped {
  type : ErrorType;
  message : string;
  retryable : bool;
  action : Js.str
}.

(** The [switch (status)]; [None] when no [case] matches and control
    falls out of the [switch]. *)
Definition mapStatus (err : ErrArg) (status : Z) : option MappedError :=
  if Z.eqb status 401 then
    Some (mkMapped AUTH_EXPIRED "Session expired. Please sign in again."
            false (Some "login"))
  else if Z.eqb status 403 then
    Some (mkMapped PERMISSION "You don't have permission for this action."
            false None)
  else if Z.eqb status 404 then
    Some (mkMapped NOT_FOUND "The requested resource was not found."
            false None)
  else if Z.eqb status 409 then
    Some (mkMapped CONFLICT
            (default "This item already exists."
               (Js.or (messageOf err) (Some "This item already exists.")))
            false None)
  else if Z.eqb status 429 then
    Some (mkMapped RATE_LIMIT
            "Too many requests. Please wait a moment and try again."
            true (Some "wait"))
  else if Z.eqb status 500 || Z.eqb status 502 || Z.eqb status 503
          || Z.eqb status 504 then
    Some (mkMapped SERVER
            "Power BI service is temporarily unavailable. Please try again later."
            true (Some "retry"))
  else None.

(** The part of [mapError] after the [switch]. *)
Definition mapMessage (err : ErrArg) : MappedError :=
  match err with
  | ErrString s => mkMapped UNKNOWN s false None
  | _ =>
      match messageOf err with
      | Some m =>
          if Js.truthy (Some m) then
            if Js.includes "expired" m then
              mkMapped AUTH_EXPIRED "Session expired. Please sign in again."
                false (Some "login")
            else if Js.includes "timeout" m then
              mkMapped TIMEOUT "Request timed out. Please try again."
                true (Some "retry")
            else mkMapped UNKNOWN m false None
          else mkMapped UNKNOWN "Something went wrong. Please try again."
                 true (Some "retry")
      | None => mkMapped UNKNOWN "Something went wrong. Please try again."
                  true (Some "retry")
      end
  end.

(** [mapError(err)]; [onLine] is [navigator.onLine]. *)
Definition mapError (onLine : bool) (err : ErrArg) : MappedError :=
  if bool_decide (nameOf err = Some "AbortError") then
    mkMapped TIMEOUT
      "Request timed out. Please check your connection and try again."
      true (Some "retry")
  else if bool_decide (nameOf err = Some "TypeError")
          && match messageOf err with
             | Some m => Js.includes "fetch" m
             | None => false
             end then
    mkMapped NETWORK "Network error. Please check your internet connection."
      true (Some "retry")
  else if negb onLine then
    mkMapped NETWORK "You appear to be offline. Please check your connection."
      true (Some "retry")
  else
    match statusOf err with
    | Some status =>
        if Js.truthyZ status then
          match mapStatus err status with
          | Some r => r
          | None => mapMessage err
          end
        else mapMessage err
    | None => mapMessage err
    end.




End ErrorHandler.

(** A membership record as the remote API returns it and as the cache
    stores it. *)
Record User := mkUser {
  identifier : Js.str;
  displayName : Js.str;
  emailAddress : Js.str;
  groupUserAccessRight : Js.str;
  principalType : Js.str
}.

(** The argument of [optimisticAddUser]: a principal picked in the UI. *)
Record UserInput := mkUserInput {
  in_identifier : Js.str;
  in_displayName : Js.str;
  in_email : Js.str;
  in_principalType : Js.str
}.

(** Observable effects, in the order they happen. *)
Inductive Effect :=
| Alert (message type : string)   (* UI.showAlert(message, type) *)
| Request (url : string)          (* a request handed to API.call *)
| Sleep (ms : Z)                  (* await Utils.sleep(ms) *)
| Batch (size : nat)              (* Promise.allSettled over [size] calls *)
| SignOut                         (* Auth.signOut(): timers, page *)
| SwitchView (view : string)      (* switchView(view) *)
| CancelAllRequests               (* API.cancelAllRequests() *)
| ClearAllTimers                  (* FatalError._clearAllTimers() *).

#[global] Instance Effect_eq_dec : EqDecision Effect.
Proof. solve_decision. Defined.

(** The global [AppState] object (the fields the modelled code reads or
    writes), together with the state of [FatalError] and the effect log.
    [lastError] holds the [mapped] property of [AppState.lastError]; its
    [onRetry] closure repeats the call that failed. *)
Record AppState := mkAppState {
  accessToken : Js.str;
  tokenExpiry : option Z;
  currentView : string;
  currentWorkspaceId : Js.str;
  allUsers : list User;
  allWorkspaces : list string;
  isPowerBIAdmin : bool;
  knownUsers : gmap (option string) User;
  workspaceUserMap : gmap string (list User);
  workspaceCacheTTL : gmap string Z;
  dirtyWorkspaces : list string;
  operationInProgress : bool;
  operationStartTime : option Z;
  lastError : option ErrorHandler.MappedError;
  isFrozen : bool;
  fatalOverlay : option string;
  effects : list Effect
}.

Definition set_accessToken (v : Js.str) (s : AppState) : AppState :=
  mkAppState v (tokenExpiry s) (currentView s) (currentWorkspaceId s)
    (allUsers s) (allWorkspaces s) (isPowerBIAdmin s) (knownUsers s)
    (workspaceUserMap s) (workspaceCacheTTL s) (dirtyWorkspaces s)
    (operationInProgress s) (operationStartTime s) (lastError s) (isFrozen
    s) (fatalOverlay s) (effects s).

Definition set_tokenExpiry (v : option Z) (s : AppState) : AppState :=
  mkAppState (accessToken s) v (currentView s) (currentWorkspaceId s)
    (allUsers s) (allWorkspaces s) (isPowerBIAdmin s) (knownUsers s)
    (workspaceUserMap s) (workspaceCacheTTL s) (dirtyWorkspaces s)
    (operationInProgress s) (operationStartTime s) (lastError s) (isFrozen
    s) (fatalOverlay s) (effects s).

Definition set_currentView (v : string) (s : AppState) : AppState :=
  mkAppState (accessToken s) (tokenExpiry s) v (currentWorkspaceId s)
    (allUsers s) (allWorkspaces s) (isPowerBIAdmin s) (knownUsers s)
    (workspaceUserMap s) (workspaceCacheTTL s) (dirtyWorkspaces s)
    (operationInProgress s) (operationStartTime s) (lastError s) (isFrozen
    s) (fatalOverlay s) (effects s).

Definition set_currentWorkspaceId (v : Js.str) (s : AppState) : AppState :=
  mkAppState (accessToken s) (tokenExpiry s) (currentView s) v (allUsers s)
    (allWorkspaces s) (isPowerBIAdmin s) (knownUsers s) (workspaceUserMap s)
    (workspaceCacheTTL s) (dirtyWorkspaces s) (operationInProgress s)
    (operationStartTime s) (lastError s) (isFrozen s) (fatalOverlay s)
    (effects s).

Definition set_allUsers (v : list User) (s : AppState) : AppState :=
  mkAppState (accessToken s) (tokenExpiry s) (currentView s)
    (currentWorkspaceId s) v (allWorkspaces s) (isPowerBIAdmin s)
    (knownUsers s) (workspaceUserMap s) (workspaceCacheTTL s)
    (dirtyWorkspaces s) (operationInProgress s) (operationStartTime s)
    (lastError s) (isFrozen s) (fatalOverlay s) (effects s).

Definition set_allWorkspaces (v : list string) (s : AppState) : AppState :=
  mkAppState (accessToken s) (tokenExpiry s) (currentView s)
    (currentWorkspaceId s) (allUsers s) v (isPowerBIAdmin s) (knownUsers s)
    (workspaceUserMap s) (workspaceCacheTTL s) (dirtyWorkspaces s)
    (operationInProgress s) (operationStartTime s) (lastError s) (isFrozen
    s) (fatalOverlay s) (effects s).

Definition set_isPowerBIAdmin (v : bool) (s : AppState) : AppState :=
  mkAppState (accessToken s) (tokenExpiry s) (currentView s)
    (currentWorkspaceId s) (allUsers s) (allWorkspaces s) v (knownUsers s)
    (workspaceUserMap s) (workspaceCacheTTL s) (dirtyWorkspaces s)
    (operationInProgress s) (operationStartTime s) (lastError s) (isFrozen
    s) (fatalOverlay s) (effects s).

Definition set_knownUsers (v : gmap (option string) User) (s : AppState)
  : AppState :=
  mkAppState (accessToken s) (tokenExpiry s) (currentView s)
    (currentWorkspaceId s) (allUsers s) (allWorkspaces s) (isPowerBIAdmin s)
    v (workspaceUserMap s) (workspaceCacheTTL s) (dirtyWorkspaces s)
    (operationInProgress s) (operationStartTime s) (lastError s) (isFrozen
    s) (fatalOverlay s) (effects s).

Definition set_workspaceUserMap (v : gmap string (list User)) (s : AppState)
  : AppState :=
  mkAppState (accessToken s) (tokenExpiry s) (currentView s)
    (currentWorkspaceId s) (allUsers s) (allWorkspaces s) (isPowerBIAdmin s)
    (knownUsers s) v (workspaceCacheTTL s) (dirtyWorkspaces s)
    (operationInProgress s) (operationStartTime s) (lastError s) (isFrozen
    s) (fatalOverlay s) (effects s).

Definition set_workspaceCacheTTL (v : gmap string Z) (s : AppState)
  : AppState :=
  mkAppState (accessToken s) (tokenExpiry s) (currentView s)
    (currentWorkspaceId s) (allUsers s) (allWorkspaces s) (isPowerBIAdmin s)
    (knownUsers s) (workspaceUserMap s) v (dirtyWorkspaces s)
    (operationInProgress s) (operationStartTime s) (lastError s) (isFrozen
    s) (fatalOverlay s) (effects s).

Definition set_dirtyWorkspaces (v : list string) (s : AppState) : AppState :=
  mkAppState (accessToken s) (tokenExpiry s) (currentView s)
    (currentWorkspaceId s) (allUsers s) (allWorkspaces s) (isPowerBIAdmin s)
    (knownUsers s) (workspaceUserMap s) (workspaceCacheTTL s) v
    (operationInProgress s) (operationStartTime s) (lastError s) (isFrozen
    s) (fatalOverlay s) (effects s).

Definition set_operationInProgress (v : bool) (s : AppState) : AppState :=
  mkAppState (accessToken s) (tokenExpiry s) (currentView s)
    (currentWorkspaceId s) (allUsers s) (allWorkspaces s) (isPowerBIAdmin s)
    (knownUsers s) (workspaceUserMap s) (workspaceCacheTTL s)
    (dirtyWorkspaces s) v (operationStartTime s) (lastError s) (isFrozen s)
    (fatalOverlay s) (effects s).

Definition set_operationStartTime (v : option Z) (s : AppState) : AppState :=
  mkAppState (accessToken s) (tokenExpiry s) (currentView s)
    (currentWorkspaceId s) (allUsers s) (allWorkspaces s) (isPowerBIAdmin s)
    (knownUsers s) (workspaceUserMap s) (workspaceCacheTTL s)
    (dirtyWorkspaces s) (operationInProgress s) v (lastError s) (isFrozen s)
    (fatalOverlay s) (effects s).

Definition set_lastError (v : option ErrorHandler.MappedError) (s : AppState)
  : AppState :=
  mkAppState (accessToken s) (tokenExpiry s) (currentView s)
    (currentWorkspaceId s) (allUsers s) (allWorkspaces s) (isPowerBIAdmin s)
    (knownUsers s) (workspaceUserMap s) (workspaceCacheTTL s)
    (dirtyWorkspaces s) (operationInProgress s) (operationStartTime s) v
    (isFrozen s) (fatalOverlay s) (effects s).

Definition set_isFrozen (v : bool) (s : AppState) : AppState :=
  mkAppState (accessToken s) (tokenExpiry s) (currentView s)
    (currentWorkspaceId s) (allUsers s) (allWorkspaces s) (isPowerBIAdmin s)
    (knownUsers s) (workspaceUserMap s) (workspaceCacheTTL s)
    (dirtyWorkspaces s) (operationInProgress s) (operationStartTime s)
    (lastError s) v (fatalOverlay s) (effects s).

Definition set_fatalOverlay (v : option string) (s : AppState) : AppState :=
  mkAppState (accessToken s) (tokenExpiry s) (currentView s)
    (currentWorkspaceId s) (allUsers s) (allWorkspaces s) (isPowerBIAdmin s)
    (knownUsers s) (workspaceUserMap s) (workspaceCacheTTL s)
    (dirtyWorkspaces s) (operationInProgress s) (operationStartTime s)
    (lastError s) (isFrozen s) v (effects s).

Definition set_effects (v : list Effect) (s : AppState) : AppState :=
  mkAppState (accessToken s) (tokenExpiry s) (currentView s)
    (currentWorkspaceId s) (allUsers s) (allWorkspaces s) (isPowerBIAdmin s)
    (knownUsers s) (workspaceUserMap s) (workspaceCacheTTL s)
    (dirtyWorkspaces s) (operationInProgress s) (operationStartTime s)
    (lastError s) (isFrozen s) (fatalOverlay s) v.

(** [UI.showAlert(message, type)]: the alert is appended to the effect
    log; the DOM element and its hide timer are presentation. *)
Definition showAlert (message type : string) (s : AppState) : AppState :=
  set_effects (effects s ++ [Alert message type]) s.

(** Append any effect to the log. *)
Definition emit (e : Effect) (s : AppState) : AppState :=
  set_effects (effects s ++ [e]) s.

(** The initial [AppState] of js/config.js. *)
Definition initialState : AppState :=
  mkAppState None None "workspace" None [] [] false ∅ ∅ ∅ [] false None
    None false None [].

(** ** Sign-out *)

Module Workspace.

(** [clearWorkspaceSelection()]: the selection and the displayed list
    are dropped.  The sets of selected users and of pending role
    changes, the sync timer and the page are outside the modelled
    state. *)
Definition clearWorkspaceSelection (s : AppState) : AppState :=
  let s := set_currentWorkspaceId None s in
  set_allUsers [] s.

End Workspace.

(** js/auth.js. *)
Module AuthLegacy.

(** [signOut()].  The [SignOut] effect stands for the timers it clears
    and the page it resets; [Workspace] is loaded, so the selection is
    cleared.  The dirty set and the deadlines of the cache are not
    among the fields it resets. *)
Definition signOut (s : AppState) : AppState :=
  let s := set_accessToken None s in
  let s := set_tokenExpiry None s in
  let s := emit SignOut s in
  let s := set_workspaceUserMap ∅ s in
  let s := set_knownUsers ∅ s in
  let s := set_allWorkspaces [] s in
  let s := set_isPowerBIAdmin false s in
  let s := Workspace.clearWorkspaceSelection s in
  showAlert "Signed out" "info" s.

End AuthLegacy.

(** The authentication module with the expiry monitor. *)
Module Auth.

(** [signOut()]: as in js/auth.js, and the requests in flight are
    cancelled ([API.cancelAllRequests] exists in the API module this
    one is loaded with). *)
Definition signOut (s : AppState) : AppState :=
  let s := set_accessToken None s in
  let s := set_tokenExpiry None s in
  let s := emit SignOut s in
  let s := emit CancelAllRequests s in
  let s := set_workspaceUserMap ∅ s in
  let s := set_knownUsers ∅ s in
  let s := set_allWorkspaces [] s in
  let s := set_isPowerBIAdmin false s in
  let s := Workspace.clearWorkspaceSelection s in
  showAlert "Signed out" "info" s.

End Auth.

(** ** js/utils.js: fatal-error boundary, diagnostics and action guard *)

Module FatalError.

(** [trigger(reason, diagnostics)]: a no-op once frozen. *)
Definition trigger (reason : string) (s : AppState) : AppState :=
  if isFrozen s then s
  else
    set_fatalOverlay (Some reason)
      (emit ClearAllTimers (emit CancelAllRequests (set_isFrozen true s))).

End FatalError.

Module Diagnostics.

(** [checkStateConsistency()]: the list of issues; [valid] is
    [issues.length === 0]. *)
Definition checkStateConsistency (s : AppState) : list string :=
  (if Js.truthyNum (tokenExpiry s) && negb (Js.truthy (accessToken s))
   then ["Token expiry set but no access token"] else [])
  ++ (match currentWorkspaceId s with
      | Some id =>
          if Js.truthy (Some id)
             && negb (bool_decide (allWorkspaces s = []))
             && negb (bool_decide (id ∈ allWorkspaces s))
          then ["Selected workspace not in workspace list"] else []
      | None => []
      end)
  ++ (if bool_decide (currentView s ∈ ["workspace"; "user"; "admin"])
      then [] else ["Invalid current view: " ++ currentView s])
  ++ (if bool_decide (currentView s = "admin") && negb (isPowerBIAdmin s)
      then ["Admin view active but user is not admin"] else [])
  ++ (if operationInProgress s && negb (Js.truthy (accessToken s))
      then ["Operation in progress without authentication"] else []).

(** [assertValidState(context)]. *)
Definition assertValidState (s : AppState) : bool * AppState :=
  if isFrozen s then (false, s)
  else
    let issues := checkStateConsistency s in
    let criticalIssues :=
      filter (λ issue, Js.includes "AppState is undefined" issue = true
                       ∨ Js.includes "Invalid current view" issue = true)
        issues in
    if negb (bool_decide (issues = []))
       && negb (bool_decide (criticalIssues = []))
    then (false,
          FatalError.trigger
            "The application entered an invalid state and cannot continue."
            s)
    else (true, s).

End Diagnostics.

Module ActionGuard.

(** [{ requireAuth = true, requireWorkspace = false, requireAdmin = false }]. *)
Record Options := mkOptions {
  requireAuth : bool;
  requireWorkspace : bool;
  requireAdmin : bool
}.

Definition defaultOptions : Options := mkOptions true false false.

(** [_isFatalError(error)]. *)
Definition _isFatalError (error : Js.Error) : bool :=
  let fatalPatterns :=
    [ "Maximum call stack size exceeded"; "out of memory"; "Script error";
      "Internal error"; "too much recursion" ] in
  let message := Js.toLowerCase (Js.error_message error) in
  existsb (λ pattern, Js.includes (Js.toLowerCase pattern) message)
    fatalPatterns.

(** A wrapped action: it runs on the state and returns a value ([None]
    is [null]/[undefined]) or throws. *)
Definition Action (A : Type) : Type :=
  AppState -> Js.Completion (option A) * AppState.

(** [guard(actionName, action, options)].  A blocked call returns
    [null]. *)
Definition guard {A : Type} (actionName : string) (action : Action A)
    (options : Options) (s : AppState)
  : Js.Completion (option A) * AppState :=
  if isFrozen s then (Js.Return None, s)
  else if operationInProgress s then
    (Js.Return None,
     showAlert "Please wait for the current operation to complete"
       "warning" s)
  else if requireAuth options && negb (Js.truthy (accessToken s)) then
    (Js.Return None, showAlert "Please sign in to continue" "error" s)
  else if requireWorkspace options
          && negb (Js.truthy (currentWorkspaceId s)) then
    (Js.Return None,
     showAlert "Please select a workspace first" "warning" s)
  else if requireAdmin options && negb (isPowerBIAdmin s) then
    (Js.Return None,
     showAlert "This action requires administrator privileges" "error" s)
  else
    let '(valid, s1) := Diagnostics.assertValidState s in
    if negb valid then (Js.Return None, s1)
    else
      match action s1 with
      | (Js.Return v, s2) => (Js.Return v, s2)
      | (Js.Throw error, s2) =>
          if _isFatalError error then
            (Js.Return None,
             FatalError.trigger
               "A critical error occurred while performing an action." s2)
          else (Js.Throw error, s2)
      end.

End ActionGuard.

(** ** HTTP responses, shared by both API modules *)

Record Response := mkResponse {
  status : Z;
  statusText : string;
  (** [parseInt(response.headers.get('Retry-After'))]; [None] is [NaN]
      (header absent or not a number). *)
  retryAfter : option Z;
  (** [error?.message] of the JSON body; [None] when the body is not JSON
      or has no such field. *)
  bodyErrorMessage : Js.str;
  (** [await response.text()]. *)
  bodyText : string
}.

(** [response.ok]: the status is in the range 200-299. *)
Definition ok (r : Response) : bool :=
  Z.leb 200 (status r) && Z.leb (status r) 299.

(** What [await this.call(url, options)] does: it throws, or returns a
    response. *)
Inductive CallOutcome :=
| CallThrows (e : Js.Error)
| CallReturns (r : Response).

(** The [case] labels of the [switch (response.status)]. *)
Inductive StatusCase :=
| Case401 | Case403 | Case404 | Case409 | Case429 | Case5xx | Case2xx
| CaseDefault.

(** How a settled promise of [Promise.allSettled] looks: fulfilled with a
    value ([None]: a falsy value such as [undefined]) or rejected with a
    reason whose [message] may be missing. *)
Inductive Settled :=
| Fulfilled (value : option Response)
| Rejected (reasonMessage : Js.str).

(** The object a bulk operation returns. *)
Record BulkResult := mkBulkResult {
  successCount : nat;
  failureCount : nat;
  errors : list string
}.

(** The [items] of a bulk operation: a [Set] or an array. *)
Inductive Items (Item : Type) :=
| ItemSet (members : list Item)
| ItemArray (elements : list Item).
Arguments ItemSet {Item} members.
Arguments ItemArray {Item} elements.

(** [items instanceof Set ? Array.from(items) : items]. *)
Definition itemArray {Item : Type} (items : Items Item) : list Item :=
  match items with ItemSet l => l | ItemArray l => l end.

(** [items.size] and [items.length]; [None] is [undefined]. *)
Definition itemsSize {Item : Type} (items : Items Item) : option nat :=
  match items with ItemSet l => Some (length l) | ItemArray _ => None end.

Definition itemsLength {Item : Type} (items : Items Item) : option nat :=
  match items with ItemSet _ => None | ItemArray l => Some (length l) end.

(** The [config] object of [executeBulkOperation].  The callbacks are
    state transformers: they are taken to return normally, and the
    promise of each call to settle. *)
Record BulkConfig (Item Payload : Type) := mkBulkConfig {
  items : Items Item;
  permissionCheck : option (AppState -> bool);
  confirmMessage : Js.str;
  (** [None]: a falsy payload, the item is skipped. *)
  buildPayload : Item -> option Payload;
  (** [apiCall]: how the promise of the call for the payload at a given
      position settles. *)
  makeCall : nat -> Payload -> Settled;
  onSuccess : option (Item -> Response -> AppState -> AppState);
  onComplete : option (nat -> nat -> AppState -> AppState);
  successMessage : string;
  errorMessage : string;
  partialMessage : string;
  updateCache : option (nat -> nat -> AppState -> AppState)
}.
Arguments items {Item Payload} _.
Arguments permissionCheck {Item Payload} _.
Arguments confirmMessage {Item Payload} _.
Arguments buildPayload {Item Payload} _.
Arguments makeCall {Item Payload} _.
Arguments onSuccess {Item Payload} _.
Arguments onComplete {Item Payload} _.
Arguments successMessage {Item Payload} _.
Arguments errorMessage {Item Payload} _.
Arguments partialMessage {Item Payload} _.
Arguments updateCache {Item Payload} _.

(** The running totals of the batch loop, with the state. *)
Record Tally := mkTally {
  t_success : nat;
  t_failure : nat;
  t_errors : list string;
  t_state : AppState
}.

(** [for (const item of itemArray) { const payload = buildPayload(item);
    if (payload) payloads.push({ item, payload }); }] *)
Definition buildPayloads {Item Payload : Type}
    (build : Item -> option Payload) (itemArray : list Item)
  : list (Item * Payload) :=
  omap (λ item, (λ payload, (item, payload)) <$> build item) itemArray.

(** [Math.ceil(total / size)] for [size > 0]. *)
Definition ceilDiv (total size : nat) : nat :=
  ((total + size - 1) / size)%nat.

(** The final feedback of a bulk operation; [partialType] is the alert
    type of the partial-success message. *)
Definition showFeedback {Item Payload : Type} (config : BulkConfig Item Payload)
    (partialType : string) (t : Tally) : AppState :=
  if bool_decide (t_failure t = O) then
    showAlert (Js.replace "{count}" (pretty (t_success t))
                 (successMessage config)) "success" (t_state t)
  else if bool_decide (t_success t = O) then
    showAlert (errorMessage config) "error" (t_state t)
  else
    showAlert
      (Js.replace "{failure}" (pretty (t_failure t))
         (Js.replace "{success}" (pretty (t_success t))
            (partialMessage config)))
      partialType (t_state t).

(** Run an optional callback taking the two counts. *)
Definition callWithCounts
    (callback : option (nat -> nat -> AppState -> AppState)) (t : Tally)
  : Tally :=
  match callback with
  | Some f => mkTally (t_success t) (t_failure t) (t_errors t)
                (f (t_success t) (t_failure t) (t_state t))
  | None => t
  end.

(** ** js/api.js: the first API module *)

Module ApiLegacy.

(** [call(url, options)]: [now] is [Date.now()], and [fetched] is what
    [fetch(url, ...)] settles to when the call gets that far. *)
Definition call {A : Type} (now : Z) (fetched : Js.Completion A)
    (s : AppState) : Js.Completion A * AppState :=
  if negb (Js.truthy (accessToken s)) then
    (Js.Throw (Js.newError "Not authenticated"), s)
  else if Js.truthyNum (tokenExpiry s)
          && Z.ltb (default 0 (tokenExpiry s)) now then
    (Js.Throw (Js.newError "Session expired. Please sign in again."),
     AuthLegacy.signOut s)
  else (fetched, s).

(** The [switch (response.status)] of this module. *)
Definition statusCase (st : Z) : StatusCase :=
  if Z.eqb st 401 then Case401
  else if Z.eqb st 403 then Case403
  else if Z.eqb st 429 then Case429
  else if Z.eqb st 500 || Z.eqb st 502 || Z.eqb st 503 || Z.eqb st 504
  then Case5xx
  else if Z.eqb st 200 || Z.eqb st 201 || Z.eqb st 202 || Z.eqb st 204
  then Case2xx
  else CaseDefault.

(** The [catch (error)] block: alerts for network errors, then the
    error is thrown again. *)
Definition onCatch (onLine : bool) (error : Js.Error) (s : AppState)
  : AppState :=
  if negb onLine then
    showAlert "No internet connection. Check your network." "error" s
  else if bool_decide (Js.error_name error = "TypeError")
          && Js.includes "fetch" (Js.error_message error) then
    showAlert "Network error. Please check your connection." "error" s
  else s.

(** A call that may still be retrying when the observation ends. *)
Inductive Progress :=
| Finished (c : Js.Completion Response)
| StillRetrying.

(** [callWithErrorHandling(url, options)].  The function calls itself
    on every 429 without counting, so the model takes the number of
    attempts it is observed for ([fuel]); [server n] is the outcome of
    the n-th attempt.  A promise returned from inside [try] without
    [await] is not covered by the [catch], so [onCatch] applies to the
    errors of the attempt that throws. *)
Fixpoint callWithErrorHandling (fuel : nat) (server : nat -> CallOutcome)
    (onLine : bool) (url : string) (attempt : nat) (s : AppState)
  : Progress * AppState :=
  match fuel with
  | O => (StillRetrying, s)
  | S fuel' =>
      let s := emit (Request url) s in
      match server attempt with
      | CallThrows e => (Finished (Js.Throw e), onCatch onLine e s)
      | CallReturns response =>
          match statusCase (status response) with
          | Case401 =>
              let s := showAlert "Session expired. Please sign in again."
                         "error" s in
              let s := AuthLegacy.signOut s in
              let e := Js.newError "Authentication failed" in
              (Finished (Js.Throw e), onCatch onLine e s)
          | Case403 =>
              let s :=
                if isPowerBIAdmin s && Js.includes "/admin/" url then
                  emit (SwitchView "workspace")
                    (showAlert
                       "Admin access revoked. Switching to user view."
                       "warning" (set_isPowerBIAdmin false s))
                else s in
              let e := Js.newError "Permission denied" in
              (Finished (Js.Throw e), onCatch onLine e s)
          | Case429 =>
              let retryAfter :=
                default 5 (Js.orNum (retryAfter response) (Some 5)) in
              let s := showAlert ("Rate limited. Retrying in "
                                    ++ pretty retryAfter ++ "s...")
                         "warning" s in
              let s := emit (Sleep (retryAfter * 1000)) s in
              callWithErrorHandling fuel' server onLine url (S attempt) s
          | Case5xx =>
              let s := showAlert
                         "Power BI service error. Please try again later."
                         "error" s in
              let e := Js.newError
                         ("Server error: " ++ pretty (status response)) in
              (Finished (Js.Throw e), onCatch onLine e s)
          | Case2xx => (Finished (Js.Return response), s)
          | Case404 | Case409 | CaseDefault =>
              if negb (ok response) then
                let e := Js.newError
                           ("HTTP " ++ pretty (status response) ++ ": "
                              ++ bodyText response) in
                (Finished (Js.Throw e), onCatch onLine e s)
              else (Finished (Js.Return response), s)
          end
      end
  end.

Section Bulk.
Context {Item Payload : Type}.
Variable config : BulkConfig Item Payload.
(** [confirm(message)]: the answer of the user. *)
Variable confirm : string -> bool.

(** One step of [results.forEach]; reading [.ok] of a missing value
    throws a [TypeError]. *)
Definition recordResult (item : Item) (result : Settled) (t : Tally)
  : Js.Completion Tally :=
  match result with
  | Fulfilled (Some value) =>
      if ok value then
        Js.Return
          (mkTally (S (t_success t)) (t_failure t) (t_errors t)
             (match onSuccess config with
              | Some f => f item value (t_state t)
              | None => t_state t
              end))
      else
        Js.Return
          (mkTally (t_success t) (S (t_failure t))
             (t_errors t
              ++ [default "Unknown error"
                    (Js.or (Some (statusText value))
                       (Some "Unknown error"))])
             (t_state t))
  | Fulfilled None =>
      Js.Throw (Js.mkError "TypeError"
                  "Cannot read properties of undefined (reading 'ok')")
  | Rejected reasonMessage =>
      Js.Return
        (mkTally (t_success t) (S (t_failure t))
           (t_errors t
            ++ [default "Network error"
                  (Js.or reasonMessage (Some "Network error"))])
           (t_state t))
  end.

(** [results.forEach((result, idx) => ...)] over one batch; [pos] is
    the position of the batch's first payload.  The result is the
    tally reached and the error that ended the loop early, if any. *)
Fixpoint forEachResult (batch : list (Item * Payload)) (pos : nat)
    (t : Tally) : option Js.Error * Tally :=
  match batch with
  | [] => (None, t)
  | (item, payload) :: rest =>
      match recordResult item (makeCall config pos payload) t with
      | Js.Return t' => forEachResult rest (S pos) t'
      | Js.Throw e => (Some e, t)
      end
  end.

(** [for (let i = 0; i < payloads.length; i += CONFIG.BATCH_SIZE)]. *)
Equations? batchLoop (payloads : list (Item * Payload)) (i : nat)
    (t : Tally) : option Js.Error * Tally
    by wf (length payloads - i)%nat lt :=
  batchLoop payloads i t with decide (i < length payloads)%nat := {
    | right _ => (None, t)
    | left _ =>
        let batch := take CONFIG.BATCH_SIZE (drop i payloads) in
        let t0 := mkTally (t_success t) (t_failure t) (t_errors t)
                    (emit (Batch (length batch)) (t_state t)) in
        match forEachResult batch i t0 with
        | (Some e, t') => (Some e, t')
        | (None, t') =>
            let t'' :=
              if decide (i + CONFIG.BATCH_SIZE < length payloads)%nat
              then mkTally (t_success t') (t_failure t') (t_errors t')
                     (emit (Sleep CONFIG.RATE_LIMIT_DELAY) (t_state t'))
              else t' in
            batchLoop payloads (i + CONFIG.BATCH_SIZE) t''
        end }.
Proof. unfold CONFIG.BATCH_SIZE. lia. Qed.

(** [executeBulkOperation(config)].  [Return None] is the bare
    [return;] of the early exits. *)
Definition executeBulkOperation (s : AppState)
  : Js.Completion (option BulkResult) * AppState :=
  if match permissionCheck config with
     | Some check => negb (check s)
     | None => false
     end then
    (Js.Return None,
     showAlert "You need Admin or Member role for this operation"
       "error" s)
  else if bool_decide (itemsSize (items config) = Some O)
          && bool_decide (itemsLength (items config) = Some O) then
    (Js.Return None, s)
  else if Js.truthy (confirmMessage config)
          && negb (confirm (default "" (confirmMessage config))) then
    (Js.Return None, s)
  else if operationInProgress s then
    (Js.Return None,
     showAlert "Please wait for the current operation to complete"
       "warning" s)
  else
    let s := set_operationInProgress true s in
    let payloads :=
      buildPayloads (buildPayload config) (itemArray (items config)) in
    match batchLoop payloads O (mkTally O O [] s) with
    | (Some e, t) =>
        (Js.Throw e, set_operationInProgress false (t_state t))
    | (None, t) =>
        let t := callWithCounts (updateCache config) t in
        let s' := showFeedback config "error" t in
        (Js.Return
           (Some (mkBulkResult (t_success t) (t_failure t) (t_errors t))),
         set_operationInProgress false s')
    end.

End Bulk.

End ApiLegacy.

(** ** The API module with retry counter and watchdog *)

Module Api.

(** [call(url, options, timeout)]: [now] is [Date.now()], [fetched] is
    what [fetch(url, ...)] settles to when the call gets that far (a
    request that runs into the timeout is aborted and rejects), and
    [onLine] is [navigator.onLine] when a rejection is classified.  The
    abort controllers and [activeRequests] are outside the modelled
    state. *)
Definition call {A : Type} (onLine : bool) (now : Z)
    (fetched : Js.Completion A) (s : AppState)
  : Js.Completion A * AppState :=
  if negb (Js.truthy (accessToken s)) then
    (Js.Throw (Js.newError "Not authenticated"),
     showAlert "Please sign in to continue" "error" s)
  else
    let expiring :=
      Js.truthyNum (tokenExpiry s)
      && Z.ltb (default 0 (tokenExpiry s) - 60000) now in
    if expiring && Z.ltb (default 0 (tokenExpiry s)) now then
      (Js.Throw (Js.newError "Session expired"),
       Auth.signOut
         (showAlert "Session expired. Please sign in again." "error" s))
    else
      let s :=
        if expiring then
          showAlert "Session expiring soon. Please refresh your token."
            "warning" s
        else s in
      match fetched with
      | Js.Return response => (Js.Return response, s)
      | Js.Throw error =>
          let mapped :=
            ErrorHandler.mapError onLine
              (ErrorHandler.ErrObj
                 (ErrorHandler.mkErrObject (Some (Js.error_name error))
                    (Some (Js.error_message error)) None None None)) in
          let s :=
            if ErrorHandler.retryable mapped
            then set_lastError (Some mapped) s
            else s in
          (Js.Throw (Js.newError (ErrorHandler.message mapped)),
           showAlert (ErrorHandler.message mapped)
             (if ErrorHandler.retryable mapped then "warning" else "error")
             s)
      end.

Definition MAX_RETRIES : nat := 3.

(** The [switch (response.status)] of this module. *)
Definition statusCase (st : Z) : StatusCase :=
  if Z.eqb st 401 then Case401
  else if Z.eqb st 403 then Case403
  else if Z.eqb st 404 then Case404
  else if Z.eqb st 409 then Case409
  else if Z.eqb st 429 then Case429
  else if Z.eqb st 500 || Z.eqb st 502 || Z.eqb st 503 || Z.eqb st 504
  then Case5xx
  else if Z.eqb st 200 || Z.eqb st 201 || Z.eqb st 202 || Z.eqb st 204
  then Case2xx
  else CaseDefault.

(** [parseInt(response.headers.get('Retry-After'))
     || (5 * Math.pow(2, retryCount))]. *)
Definition retryDelay (response : Response) (retryCount : nat) : Z :=
  default (5 * 2 ^ Z.of_nat retryCount)
    (Js.orNum (retryAfter response) (Some (5 * 2 ^ Z.of_nat retryCount))).

(** [callWithErrorHandling(url, options, retryCount = 0)]; [server n] is
    the outcome of [this.call] at retry count [n].  The [catch] block
    only logs to the console and throws the error again. *)
Equations? callWithErrorHandling (server : nat -> CallOutcome)
    (url : string) (retryCount : nat) (s : AppState)
  : Js.Completion Response * AppState
  by wf (MAX_RETRIES - retryCount)%nat lt :=
  callWithErrorHandling server url retryCount s with server retryCount := {
    | CallThrows e => (Js.Throw e, emit (Request url) s)
    | CallReturns response
        with statusCase (status response),
             decide (retryCount < MAX_RETRIES)%nat := {
        | Case401, _ =>
            (Js.Throw (Js.newError "Authentication failed"),
             Auth.signOut
               (showAlert "Session expired. Please sign in again." "error"
                  (emit (Request url) s)))
        | Case403, _ =>
            (Js.Throw (Js.newError "Permission denied"),
             if isPowerBIAdmin s && Js.includes "/admin/" url then
               emit (SwitchView "workspace")
                 (showAlert "Admin access revoked. Switching to user view."
                    "warning"
                    (set_isPowerBIAdmin false (emit (Request url) s)))
             else
               showAlert
                 "Permission denied. You may not have access to this resource."
                 "error" (emit (Request url) s))
        | Case404, _ =>
            (Js.Throw (Js.newError "Resource not found"),
             emit (Request url) s)
        | Case409, _ =>
            let conflictMsg :=
              default "Conflict: Resource already exists"
                (Js.or (bodyErrorMessage response)
                   (Some "Conflict: Resource already exists")) in
            (Js.Throw (Js.newError conflictMsg),
             showAlert conflictMsg "warning" (emit (Request url) s))
        | Case429, right _ =>
            (Js.Throw (Js.newError "Rate limit exceeded"),
             showAlert
               "Rate limit exceeded. Please wait a moment and try again."
               "error" (emit (Request url) s))
        | Case429, left _ =>
            callWithErrorHandling server url (retryCount + 1)
              (emit (Sleep (retryDelay response retryCount * 1000))
                 (showAlert
                    ("Rate limited. Retrying in "
                       ++ pretty (retryDelay response retryCount)
                       ++ "s... (" ++ pretty (retryCount + 1)%nat ++ "/"
                       ++ pretty MAX_RETRIES ++ ")")
                    "warning" (emit (Request url) s)))
        | Case5xx, left _ =>
            callWithErrorHandling server url (retryCount + 1)
              (emit (Sleep (2 ^ Z.of_nat retryCount * 1000))
                 (showAlert
                    ("Server error. Retrying in "
                       ++ pretty (2 ^ Z.of_nat retryCount) ++ "s...")
                    "warning" (emit (Request url) s)))
        | Case5xx, right _ =>
            (Js.Throw
               (Js.newError ("Server error: " ++ pretty (status response))),
             showAlert
               "Power BI service unavailable. Please try again later."
               "error" (emit (Request url) s))
        | Case2xx, _ => (Js.Return response, emit (Request url) s)
        | CaseDefault, _ =>
            if negb (ok response) then
              let errorMsg :=
                default ""
                  (Js.or (bodyErrorMessage response)
                     (Some ("Request failed ("
                              ++ pretty (status response) ++ ")"))) in
              (Js.Throw (Js.newError errorMsg),
               showAlert errorMsg "error" (emit (Request url) s))
            else (Js.Return response, emit (Request url) s) } }.
Proof. all: unfold MAX_RETRIES in *; lia. Qed.

(** *** The watchdog of a bulk operation *)

(** The state and the run's own timer: [watchdogTimer] holds the time
    at which the one-shot [setTimeout] is due, and is [None] once the
    timer has fired or has been cleared. *)
Record Run := mkRun {
  app : AppState;
  watchdogTimer : option Z
}.

Definition WATCHDOG_DELAY : Z := 5 * 60 * 1000.

Definition watchdogMessage : string :=
  "⚠️ Operation timed out and was reset. Please try again.".

(** [AppState.operationInProgress = true;
     AppState.operationStartTime = Date.now();
     const watchdogTimer = setTimeout(..., 5 * 60 * 1000);] *)
Definition beginOperation (now : Z) (s : AppState) : Run :=
  mkRun (set_operationStartTime (Some now) (set_operationInProgress true s))
    (Some (now + WATCHDOG_DELAY)).

(** The callback of the watchdog timer. *)
Definition watchdogCallback (s : AppState) : AppState :=
  if operationInProgress s then
    showAlert watchdogMessage "warning" (set_operationInProgress false s)
  else s.

(** The event loop reaches time [now]: a due timer fires, once. *)
Definition timerTick (now : Z) (r : Run) : Run :=
  match watchdogTimer r with
  | Some due =>
      if Z.leb due now then mkRun (watchdogCallback (app r)) None else r
  | None => r
  end.

(** The [finally] block:
    [clearTimeout(watchdogTimer); AppState.operationInProgress = false;] *)
Definition finallyBlock (r : Run) : Run :=
  mkRun (set_operationInProgress false (app r)) None.

(** What can happen to a started run: time passes, or the body of the
    operation completes (normally or by an error) and [finally] runs. *)
Inductive RunEvent :=
| Tick (now : Z)
| Complete.

Definition runEvent (r : Run) (e : RunEvent) : Run :=
  match e with
  | Tick now => timerTick now r
  | Complete => finallyBlock r
  end.

Definition runEvents (events : list RunEvent) (r : Run) : Run :=
  fold_left runEvent events r.

(** How often the watchdog warning appears in an effect log. *)
Definition watchdogWarnings (log : list Effect) : nat :=
  length (filter (λ e, e = Alert watchdogMessage "warning") log).

Section Bulk.
Context {Item Payload : Type}.
Variable config : BulkConfig Item Payload.
(** [confirm(message)]: the answer of the user. *)
Variable confirm : string -> bool.

(** One step of [results.forEach]. *)
Definition recordResult (item : Item) (result : Settled) (t : Tally)
  : Tally :=
  match result with
  | Fulfilled (Some value) =>
      if ok value then
        mkTally (S (t_success t)) (t_failure t) (t_errors t)
          (match onSuccess config with
           | Some f => f item value (t_state t)
           | None => t_state t
           end)
      else
        mkTally (t_success t) (S (t_failure t))
          (t_errors t
           ++ [default ""
                 (Js.or (Some (statusText value))
                    (Some ("HTTP " ++ pretty (status value))))])
          (t_state t)
  | Fulfilled None =>
      mkTally (t_success t) (S (t_failure t))
        (t_errors t ++ ["Unknown error"]) (t_state t)
  | Rejected reasonMessage =>
      mkTally (t_success t) (S (t_failure t))
        (t_errors t
         ++ [default "Request failed"
               (Js.or reasonMessage (Some "Request failed"))])
        (t_state t)
  end.

(** [results.forEach((result, idx) => ...)] over one batch; [pos] is
    the position of the batch's first payload. *)
Fixpoint forEachResult (batch : list (Item * Payload)) (pos : nat)
    (t : Tally) : Tally :=
  match batch with
  | [] => t
  | (item, payload) :: rest =>
      forEachResult rest (S pos)
        (recordResult item (makeCall config pos payload) t)
  end.

(** The progress alert of large operations. *)
Definition showProgress (total i : nat) (s : AppState) : AppState :=
  if decide (CONFIG.BATCH_SIZE < total)%nat then
    showAlert
      ("Processing batch " ++ pretty (i / CONFIG.BATCH_SIZE + 1)%nat
         ++ "/" ++ pretty (ceilDiv total CONFIG.BATCH_SIZE) ++ "...")
      "info" s
  else s.

(** [for (let i = 0; i < total; i += CONFIG.BATCH_SIZE)]. *)
Equations? batchLoop (payloads : list (Item * Payload)) (i : nat)
    (t : Tally) : Tally by wf (length payloads - i)%nat lt :=
  batchLoop payloads i t with decide (i < length payloads)%nat := {
    | right _ => t
    | left _ =>
        let batch := take CONFIG.BATCH_SIZE (drop i payloads) in
        let t0 := mkTally (t_success t) (t_failure t) (t_errors t)
                    (emit (Batch (length batch))
                       (showProgress (length payloads) i (t_state t))) in
        let t' := forEachResult batch i t0 in
        let t'' :=
          if decide (i + CONFIG.BATCH_SIZE < length payloads)%nat
          then mkTally (t_success t') (t_failure t') (t_errors t')
                 (emit (Sleep CONFIG.RATE_LIMIT_DELAY) (t_state t'))
          else t' in
        batchLoop payloads (i + CONFIG.BATCH_SIZE) t'' }.
Proof. unfold CONFIG.BATCH_SIZE. lia. Qed.

(** [items.size || items.length || 0]. *)
Definition itemCount : nat :=
  match itemsSize (items config) with
  | Some (S n) => S n
  | _ => default O (itemsLength (items config))
  end.

(** The [try] body of [executeBulkOperation], from the payloads to the
    returned object. *)
Definition tryBody (s : AppState) : BulkResult * AppState :=
  let payloads :=
    buildPayloads (buildPayload config) (itemArray (items config)) in
  let t := batchLoop payloads O (mkTally O O [] s) in
  let t := callWithCounts (updateCache config) t in
  let t := mkTally (t_success t) (t_failure t) (t_errors t)
             (showFeedback config "warning" t) in
  let t := callWithCounts (onComplete config) t in
  (mkBulkResult (t_success t) (t_failure t) (t_errors t), t_state t).

(** [executeBulkOperation(config)], for a run whose body completes
    without a timer firing in between; [now] is [Date.now()] at the
    start. *)
Definition executeBulkOperation (now : Z) (s : AppState)
  : BulkResult * Run :=
  if match permissionCheck config with
     | Some check => negb (check s)
     | None => false
     end then
    (mkBulkResult O O ["Permission denied"],
     mkRun (showAlert "You need Admin or Member role for this operation"
              "error" s) None)
  else if bool_decide (itemCount = O) then
    (mkBulkResult O O [], mkRun s None)
  else if Js.truthy (confirmMessage config)
          && negb (confirm (default "" (confirmMessage config))) then
    (mkBulkResult O O ["Cancelled by user"], mkRun s None)
  else if operationInProgress s then
    (mkBulkResult O O ["Operation in progress"],
     mkRun (showAlert "Please wait for the current operation to complete"
              "warning" s) None)
  else
    let r := beginOperation now s in
    let '(result, s') := tryBody (app r) in
    (result, finallyBlock (mkRun s' (watchdogTimer r))).

End Bulk.

End Api.

(** ** js/cache.js *)

Module Cache.

(** [isCacheExpired(workspaceId)]:
    [const expiry = AppState.workspaceCacheTTL.get(workspaceId);
     return !expiry || expiry < Date.now();] *)
Definition isCacheExpired (workspaceId : string) (now : Z) (s : AppState)
  : bool :=
  match workspaceCacheTTL s !! workspaceId with
  | None => true
  | Some expiry => negb (Js.truthyZ expiry) || Z.ltb expiry now
  end.

(** The cache read of [Workspace.loadWorkspaceUsers]:
    [AppState.workspaceUserMap.has(id) && !Cache.isCacheExpired(id)];
    on [true] the cached list is displayed, otherwise a fetch is made. *)
Definition cacheHit (workspaceId : string) (now : Z) (s : AppState)
  : bool :=
  bool_decide (is_Some (workspaceUserMap s !! workspaceId))
  && negb (isCacheExpired workspaceId now s).

(** [setCacheWithTTL(workspaceId, users)]. *)
Definition setCacheWithTTL (workspaceId : string) (users : list User)
    (now : Z) (s : AppState) : AppState :=
  set_workspaceCacheTTL
    (<[workspaceId := now + CONFIG.CACHE_TTL]> (workspaceCacheTTL s))
    (set_workspaceUserMap
       (<[workspaceId := users]> (workspaceUserMap s)) s).

(** The record built by [optimisticAddUser]. *)
Definition newUser (user : UserInput) (role : Js.str) : User :=
  {| identifier := Js.or (in_identifier user) (in_email user);
     displayName := Js.or (in_displayName user) (in_email user);
     emailAddress := Js.or (in_email user) (in_identifier user);
     groupUserAccessRight := role;
     principalType := Js.or (in_principalType user) (Some "User") |}.

(** [AppState.workspaceUserMap.get(workspaceId) || []]; an array, even
    an empty one, is truthy. *)
Definition cachedUsers (workspaceId : string) (s : AppState) : list User :=
  default [] (workspaceUserMap s !! workspaceId).

(** [optimisticAddUser(workspaceId, user, role)]. *)
Definition optimisticAddUser (workspaceId : string) (user : UserInput)
    (role : Js.str) (now : Z) (s : AppState) : AppState :=
  let users := cachedUsers workspaceId s in
  let nu := newUser user role in
  let s1 := setCacheWithTTL workspaceId (users ++ [nu]) now s in
  set_knownUsers (<[identifier nu := nu]> (knownUsers s1)) s1.

(** [optimisticRemoveUser(workspaceId, userIdentifier)]. *)
Definition optimisticRemoveUser (workspaceId : string)
    (userIdentifier : string) (now : Z) (s : AppState) : AppState :=
  let users := cachedUsers workspaceId s in
  let filtered :=
    filter (λ u, identifier u ≠ Some userIdentifier) users in
  setCacheWithTTL workspaceId filtered now s.

(** [user.groupUserAccessRight = newRole] on the first record found by
    [users.find(u => u.identifier === userIdentifier)]; [None] when
    [find] returns [undefined]. *)
Fixpoint changeFirst (userIdentifier : string) (newRole : Js.str)
    (users : list User) : option (list User) :=
  match users with
  | [] => None
  | u :: rest =>
      if bool_decide (identifier u = Some userIdentifier)
      then Some (mkUser (identifier u) (displayName u) (emailAddress u)
                   newRole (principalType u) :: rest)
      else (u ::.) <$> changeFirst userIdentifier newRole rest
  end.

(** [optimisticChangeRole(workspaceId, userIdentifier, newRole)]. *)
Definition optimisticChangeRole (workspaceId : string)
    (userIdentifier : string) (newRole : Js.str) (now : Z) (s : AppState)
  : AppState :=
  match changeFirst userIdentifier newRole (cachedUsers workspaceId s) with
  | Some users => setCacheWithTTL workspaceId users now s
  | None => s
  end.

(** [markWorkspaceDirty(workspaceId)]. *)
Definition markWorkspaceDirty (workspaceId : string) (s : AppState)
  : AppState :=
  set_dirtyWorkspaces (Js.set_add workspaceId (dirtyWorkspaces s)) s.

(** What the response to a membership request holds, as far as
    [refreshSingleWorkspace] reads it: [response.ok] and, when that is
    true, what [await response.json()] gives. *)
Inductive MembershipResponse :=
| RespNotOk (status : Z)              (* response.ok is false *)
| RespJsonThrows                      (* response.json() rejects *)
| RespOk (value : option (list User)) (* data.value, possibly undefined *).

(** The API module the page has loaded: the global [apiCall(url, options)]
    is [API.call(url, options)] of that module. *)
Inductive ApiModule :=
| JsApi        (* js/api.js *)
| WatchdogApi  (* the module with timeout, retry counter and watchdog *).

(** The surroundings of a request.  What they do may depend on the
    moment the request is made, identified by the length of the effect
    log: [fetch] is what [fetch(url, ...)] settles to, [callTime] is
    [Date.now()] when [API.call] checks the token, [onLine] is
    [navigator.onLine] when a rejection is classified, and [dateNow] is
    [Date.now()] when the answer arrives. *)
Record Remote := mkRemote {
  fetch : nat -> string -> Js.Completion MembershipResponse;
  callTime : nat -> Z;
  onLine : nat -> bool;
  dateNow : nat -> Z
}.

(** [`${CONFIG.API.POWER_BI}/groups/${workspaceId}/users`]. *)
Definition membershipUrl (workspaceId : string) : string :=
  CONFIG.API_POWER_BI ++ "/groups/" ++ workspaceId ++ "/users".

(** [users.forEach(user => AppState.knownUsers.set(user.identifier, user))]. *)
Definition rememberUsers (users : list User)
    (known : gmap (option string) User) : gmap (option string) User :=
  fold_left (λ m u, <[identifier u := u]> m) users known.

(** [apiCall(url)] at moment [n]. *)
Definition apiCall (api : ApiModule) (R : Remote) (n : nat) (url : string)
    (s : AppState) : Js.Completion MembershipResponse * AppState :=
  match api with
  | JsApi => ApiLegacy.call (callTime R n) (fetch R n url) s
  | WatchdogApi =>
      Api.call (onLine R n) (callTime R n) (fetch R n url) s
  end.

(** [refreshSingleWorkspace(workspaceId)].  Every path returns normally:
    the body is inside [try { } catch { console.error }], so a call that
    throws leaves what [API.call] did before throwing.  The three
    [Workspace] rendering calls only touch the view. *)
Definition refreshSingleWorkspace (api : ApiModule) (R : Remote)
    (workspaceId : string) (s : AppState) : AppState :=
  let n := length (effects s) in
  let url := membershipUrl workspaceId in
  match apiCall api R n url (emit (Request url) s) with
  | (Js.Return (RespOk value), s1) =>
      let users := default [] value in
      let s2 := setCacheWithTTL workspaceId users (dateNow R n) s1 in
      let s3 := set_knownUsers (rememberUsers users (knownUsers s2)) s2 in
      if bool_decide (currentWorkspaceId s3 = Some workspaceId)
      then set_allUsers users s3
      else s3
  | (_, s1) => s1
  end.

(** The [for (const wsId of workspacesToRefresh)] loop. *)
Fixpoint refreshEach (api : ApiModule) (R : Remote)
    (workspacesToRefresh : list string) (s : AppState) : AppState :=
  match workspacesToRefresh with
  | [] => s
  | wsId :: rest =>
      refreshEach api R rest (refreshSingleWorkspace api R wsId s)
  end.

(** [refreshDirtyWorkspaces()]: the flush run by the debounce timer. *)
Definition refreshDirtyWorkspaces (api : ApiModule) (R : Remote)
    (s : AppState) : AppState :=
  if bool_decide (dirtyWorkspaces s = []) then s
  else
    let workspacesToRefresh := dirtyWorkspaces s in
    refreshEach api R workspacesToRefresh (set_dirtyWorkspaces [] s).



(** The [updates] object of [updateUserInCache]: for each property of a
    record, [Some v] when [updates] has the property ([v] may be
    [undefined]) and [None] when it has not. *)
Record UserUpdates := mkUserUpdates {
  up_identifier : option Js.str;
  up_displayName : option Js.str;
  up_emailAddress : option Js.str;
  up_groupUserAccessRight : option Js.str;
  up_principalType : option Js.str
}.

(** [Object.assign(user, updates)]. *)
Definition assign (user : User) (updates : UserUpdates) : User :=
  mkUser (default (identifier user) (up_identifier updates))
    (default (displayName user) (up_displayName updates))
    (default (emailAddress user) (up_emailAddress updates))
    (default (groupUserAccessRight user) (up_groupUserAccessRight updates))
    (default (principalType user) (up_principalType updates)).

(** [Object.assign] on the record found by
    [users.find(u => u.identifier === identifier)]; [None] when there is
    none. *)
Fixpoint assignFirst (userIdentifier : string) (updates : UserUpdates)
    (users : list User) : option (list User) :=
  match users with
  | [] => None
  | u :: rest =>
      if bool_decide (identifier u = Some userIdentifier)
      then Some (assign u updates :: rest)
      else (u ::.) <$> assignFirst userIdentifier updates rest
  end.

(** [updateUserInCache(workspaceId, identifier, updates)]. *)
Definition updateUserInCache (workspaceId userIdentifier : string)
    (updates : UserUpdates) (s : AppState) : bool * AppState :=
  match workspaceUserMap s !! workspaceId with
  | None => (false, s)
  | Some users =>
      match assignFirst userIdentifier updates users with
      | Some users' =>
          (true,
           set_workspaceUserMap
             (<[workspaceId := users']> (workspaceUserMap s)) s)
      | None => (false, s)
      end
  end.

(** [users.splice(index, 1)] at the index found by
    [users.findIndex(u => u.identifier === identifier)]; [None] when the
    index is [-1]. *)
Fixpoint spliceFirst (userIdentifier : string) (users : list User)
  : option (list User) :=
  match users with
  | [] => None
  | u :: rest =>
      if bool_decide (identifier u = Some userIdentifier)
      then Some rest
      else (u ::.) <$> spliceFirst userIdentifier rest
  end.

(** [removeUserFromCache(workspaceId, identifier)]. *)
Definition removeUserFromCache (workspaceId userIdentifier : string)
    (s : AppState) : bool * AppState :=
  match workspaceUserMap s !! workspaceId with
  | None => (false, s)
  | Some users =>
      match spliceFirst userIdentifier users with
      | Some users' =>
          (true,
           set_workspaceUserMap
             (<[workspaceId := users']> (workspaceUserMap s)) s)
      | None => (false, s)
      end
  end.

(** [addUserToCache(workspaceId, user)]. *)
Definition addUserToCache (workspaceId : string) (user : User)
    (s : AppState) : AppState :=
  match workspaceUserMap s !! workspaceId with
  | Some users =>
      set_workspaceUserMap
        (<[workspaceId := (users ++ [user])%list]> (workspaceUserMap s)) s
  | None => s
  end.

(** [backgroundSync()].  [pendingRoleChanges] is the size of
    [AppState.pendingRoleChanges] and [cacheBuildingPaused] the flag of
    that name, two fields outside the modelled state. *)
Definition backgroundSync (api : ApiModule) (R : Remote)
    (pendingRoleChanges : nat) (cacheBuildingPaused : bool) (now : Z)
    (s : AppState) : AppState :=
  if bool_decide (0 < pendingRoleChanges)%nat then s
  else if match currentWorkspaceId s with
          | Some id => bool_decide (id ∈ dirtyWorkspaces s)
          | None => false
          end then s
  else if cacheBuildingPaused || operationInProgress s then s
  else
    match currentWorkspaceId s with
    | Some id =>
        if negb (Js.truthy (Some id)) then s
        else if isCacheExpired id now s
        then refreshSingleWorkspace api R id s
        else s
    | None => s
    end.

End Cache.

(** ** js/utils.js: token validity and HTML escaping *)

Module Permissions.

(** The object [checkTokenValidity] returns. *)
Record TokenCheck := mkTokenCheck {
  valid : bool;
  message : string;
  minutesRemaining : Z
}.

(** [checkTokenValidity(minMinutes = 2)]; [now] is [Date.now()].
    [Math.floor(remaining / 60000)] is the integer quotient rounded
    down. *)
Definition checkTokenValidity (minMinutes : Z) (now : Z) (s : AppState)
  : TokenCheck :=
  if negb (Js.truthy (accessToken s)) then
    mkTokenCheck false "Please sign in to continue" 0
  else if negb (Js.truthyNum (tokenExpiry s)) then
    mkTokenCheck true "Token valid" 60
  else
    let remaining := default 0 (tokenExpiry s) - now in
    let minutes := remaining / 60000 in
    if Z.leb remaining 0 then
      mkTokenCheck false "Session expired. Please sign in again." 0
    else if Z.ltb minutes minMinutes then
      mkTokenCheck false
        ("Session expires in " ++ pretty minutes
           ++ " minute(s). Please refresh your token before starting this operation.")
        minutes
    else mkTokenCheck true "Token valid" minutes.

End Permissions.

Module Utils.

(** The replacement of one character by the global [replace] of
    [escapeHtml]: ampersand, less-than, greater-than, double quote and
    single quote are replaced by the entity of the [map].  Strings are
    sequences of bytes here; the five characters are ASCII (034 is the
    double quote). *)
Definition escapeChar (c : ascii) : string :=
  if Ascii.eqb c "&" then "&amp;"
  else if Ascii.eqb c "<" then "&lt;"
  else if Ascii.eqb c ">" then "&gt;"
  else if Ascii.eqb c "034" then "&quot;"
  else if Ascii.eqb c "'" then "&#039;"
  else String c EmptyString.

(** [escapeHtml(text)]. *)
Fixpoint escapeHtml (text : string) : string :=
  match text with
  | EmptyString => EmptyString
  | String c rest => (escapeChar c ++ escapeHtml rest)%string
  end.

End Utils.

(** ** Vocabulary of the statements *)

(** The pacing-relevant part of an effect log: the batches started and
    the delays slept, in order. *)
Definition isPacing (e : Effect) : bool :=
  match e with
  | Batch _ | Sleep _ => true
  | _ => false
  end.

Definition pacing (log : list Effect) : list Effect :=
  filter (λ e, isPacing e = true) log.

(** The requests in an effect log. *)
Definition isRequest (e : Effect) : bool :=
  match e with
  | Request _ => true
  | _ => false
  end.

Definition requestCount (log : list Effect) : nat :=
  length (filter (λ e, isRequest e = true) log).

(** A callback that neither starts batches nor sleeps. *)
Definition quiet (f : AppState -> AppState) : Prop :=
  ∀ s, pacing (effects (f s)) = pacing (effects s).

Definition quietCallbacks {Item Payload : Type}
    (config : BulkConfig Item Payload) : Prop :=
  (∀ f, onSuccess config = Some f -> ∀ item value, quiet (f item value))
  ∧ (∀ f, updateCache config = Some f -> ∀ n m, quiet (f n m))
  ∧ (∀ f, onComplete config = Some f -> ∀ n m, quiet (f n m)).

(** The preconditions under which [executeBulkOperation] starts a run:
    the permission check passes, the user confirms, and no operation is
    in progress. *)
Definition accepted {Item Payload : Type} (config : BulkConfig Item Payload)
    (confirm : string -> bool) (s : AppState) : Prop :=
  (∀ check, permissionCheck config = Some check -> check s = true)
  ∧ (Js.truthy (confirmMessage config) = true ->
     confirm (default "" (confirmMessage config)) = true)
  ∧ operationInProgress s = false.

(** The batches and delays of a run over [total] payloads, from
    position [i] on. *)
Equations? schedule (total i : nat) : list Effect
    by wf (total - i)%nat lt :=
  schedule total i with decide (i < total)%nat := {
    | right _ => []
    | left _ =>
        Batch (Nat.min CONFIG.BATCH_SIZE (total - i))
        :: (if decide (i + CONFIG.BATCH_SIZE < total)%nat
            then [Sleep CONFIG.RATE_LIMIT_DELAY] else [])
        ++ schedule total (i + CONFIG.BATCH_SIZE) }.
Proof. unfold CONFIG.BATCH_SIZE. lia. Qed.

(** A server that answers every attempt with status 429. *)
Definition always429 (server : nat -> CallOutcome) : Prop :=
  ∀ n, ∃ r, server n = CallReturns r ∧ status r = 429.

(** A fetch that did not produce a membership list: it was rejected,
    or the response was not ok, or its body was not JSON. *)
Definition fetchFailed (o : Js.Completion Cache.MembershipResponse)
  : Prop :=
  match o with
  | Js.Return (Cache.RespOk _) => False
  | _ => True
  end.

(** An effect log that holds no request. *)
Definition noRequest (log : list Effect) : Prop :=
  Forall (λ e, ∀ url, e ≠ Request url) log.

(** *** Example states *)

Definition alice : User :=
  mkUser (Some "alice@contoso.com") (Some "Alice")
    (Some "alice@contoso.com") (Some "Viewer") (Some "User").

(** A signed-in session on the workspace view, with workspace W1
    selected; the token expires at time 3600000. *)
Definition signedIn : AppState :=
  mkAppState (Some "eyJ0eXAi") (Some 3600000) "workspace" (Some "W1")
    [alice] ["W1"; "W2"] false ∅ ∅ ∅ [] false None None false None [].

(** Workspace W1 fetched at time 1000: one member, deadline 301000. *)
Definition cachedW1 : AppState :=
  Cache.setCacheWithTTL "W1" [alice] 1000 signedIn.

(** W1 marked dirty after a local change. *)
Definition dirtyW1 : AppState := Cache.markWorkspaceDirty "W1" cachedW1.

(** A remote side whose requests all fail, at time 2000 and online. *)
Definition remoteDown : Cache.Remote :=
  Cache.mkRemote (λ _ _, Js.Throw (Js.mkError "TypeError" "Failed to fetch"))
    (λ _, 2000) (λ _, true) (λ _, 2000).

(** A 429 response with [Retry-After: n]. *)
Definition tooManyRequests (n : Z) : Response :=
  mkResponse 429 "Too Many Requests" (Some n) None "".


(** A bulk operation over 37 numbered items whose calls all reject. *)
Definition allFail37 : BulkConfig nat nat :=
  mkBulkConfig nat nat (ItemSet (seq 0 37)) None None (λ item, Some item)
    (λ _ _, Rejected (Some "Request failed")) None None
    "Updated {count} user(s)" "Failed to update users"
    "Updated {success}, {failure} failed" None.

(** An action that fails with a permission error. *)
Definition deniedAction : ActionGuard.Action unit :=
  λ s, (Js.Throw (Js.newError "Permission denied"), s).

(** The characters [escapeHtml] replaces. *)
Definition isSpecial (c : ascii) : bool :=
  Ascii.eqb c "&" || Ascii.eqb c "<" || Ascii.eqb c ">"
  || Ascii.eqb c "034" || Ascii.eqb c "'".

(** The characters that must not reach markup unescaped: the ones that
    open or close a tag or an attribute value. *)
Definition isMarkup (c : ascii) : bool :=
  Ascii.eqb c "<" || Ascii.eqb c ">" || Ascii.eqb c "034"
  || Ascii.eqb c "'".




(** A server that answers every attempt with one of the server-error
    statuses. *)
Definition always5xx (server : nat -> CallOutcome) : Prop :=
  ∀ n, ∃ r, server n = CallReturns r
            ∧ (status r = 500 ∨ status r = 502 ∨ status r = 503
               ∨ status r = 504).

(** A response without a usable [Retry-After]: the header is absent, not
    a number, or zero. *)
Definition noRetryAfter (server : nat -> CallOutcome) : Prop :=
  ∀ n r, server n = CallReturns r -> Js.truthyNum (retryAfter r) = false.

(** An attempt that is not answered with status 429. *)
Definition not429 (o : CallOutcome) : Prop :=
  match o with
  | CallThrows _ => True
  | CallReturns r => status r ≠ 429
  end.

(** The issues that make [assertValidState] escalate. *)
Definition critical (issue : string) : Prop :=
  Js.includes "AppState is undefined" issue = true
  ∨ Js.includes "Invalid current view" issue = true.

(** What the batch loop keeps true of its totals from [t] to [t']:
    [n] more calls are counted, and every failure has its message. *)
Definition tallied (n : nat) (t t' : Tally) : Prop :=
  (t_success t' + t_failure t' = t_success t + t_failure t + n)%nat
  ∧ (length (t_errors t') + t_failure t
     = length (t_errors t) + t_failure t')%nat.

(** A session [API.call] lets through at time [now]: there is a token,
    and it has no expiry time or one that is not yet behind. *)
Definition sessionValid (now : Z) (s : AppState) : Prop :=
  Js.truthy (accessToken s) = true
  ∧ Js.truthyNum (tokenExpiry s) && Z.ltb (default 0 (tokenExpiry s)) now
    = false.

(** A session whose token has expired at time [now]. *)
Definition sessionExpired (now : Z) (s : AppState) : Prop :=
  Js.truthy (accessToken s) = true
  ∧ Js.truthyNum (tokenExpiry s) = true
  ∧ default 0 (tokenExpiry s) < now.

(** The requests of an effect log, in order. *)
Definition requests (log : list Effect) : list Effect :=
  filter (λ e, isRequest e = true) log.

(** ** Properties of the membership cache *)

Section CacheFacts.

Implicit Types (s : AppState) (ws : string) (now : Z).

Lemma setCacheWithTTL_ttl ws users now s :
  workspaceCacheTTL (Cache.setCacheWithTTL ws users now s)
  = <[ws := now + CONFIG.CACHE_TTL]> (workspaceCacheTTL s).
Proof. reflexivity. Qed.

Lemma setCacheWithTTL_users ws users now s :
  workspaceUserMap (Cache.setCacheWithTTL ws users now s)
  = <[ws := users]> (workspaceUserMap s).
Proof. reflexivity. Qed.

Lemma isCacheExpired_false ws now s :
  Cache.isCacheExpired ws now s = false
  ↔ ∃ e, workspaceCacheTTL s !! ws = Some e ∧ e ≠ 0 ∧ now ≤ e.
Proof.
  unfold Cache.isCacheExpired, Js.truthyZ.
  destruct (workspaceCacheTTL s !! ws) as [e|]; split.
  - intros H. apply orb_false_iff in H as [H1 H2].
    apply negb_false_iff, negb_true_iff, Z.eqb_neq in H1.
    apply Z.ltb_ge in H2. eauto.
  - intros (e' & [= <-] & Hne & Hle).
    apply orb_false_iff. split.
    + apply negb_false_iff, negb_true_iff, Z.eqb_neq. exact Hne.
    + apply Z.ltb_ge. exact Hle.
  - discriminate.
  - intros (e' & [=] & _).
Qed.

(** A write through [setCacheWithTTL] at a non-negative time is a hit
    for every read up to and including the deadline. *)
Lemma setCacheWithTTL_hit ws users now now' s :
  0 ≤ now -> now' ≤ now + CONFIG.CACHE_TTL ->
  Cache.cacheHit ws now' (Cache.setCacheWithTTL ws users now s) = true.
Proof.
  intros Hnow Hread. unfold Cache.cacheHit.
  apply andb_true_iff. split.
  - apply bool_decide_eq_true. rewrite setCacheWithTTL_users.
    rewrite lookup_insert_eq. eauto.
  - apply negb_true_iff, isCacheExpired_false.
    exists (now + CONFIG.CACHE_TTL). rewrite setCacheWithTTL_ttl.
    rewrite lookup_insert_eq. unfold CONFIG.CACHE_TTL in *.
    repeat split; lia.
Qed.

End CacheFacts.

(** C1, the claim as stated fails: workspace W1 is cached with
    [expiresAt = 301000]; a read at [now = 301000] is a hit, although
    [expiresAt > now] does not hold. *)
Lemma cacheHit_at_deadline :
  ¬ (Cache.cacheHit "W1" 301000 cachedW1 = true
     ↔ is_Some (workspaceUserMap cachedW1 !! "W1")
       ∧ ∃ e, workspaceCacheTTL cachedW1 !! "W1" = Some e ∧ e > 301000).
Proof.
  intros [Hhit _].
  destruct (Hhit eq_refl) as (_ & e & He & Hgt).
  vm_compute in He. injection He as <-. lia.
Qed.

(** C1 (amended): a cache read is a hit if and only if the workspace has
    a stored record list and a stored, non-zero [expiresAt] with
    [expiresAt >= now]; the read at [expiresAt = now] is still a hit, and
    the entry is a miss from [expiresAt < now] on. *)
Theorem cacheHit_iff (ws : string) (now : Z) (s : AppState) :
  Cache.cacheHit ws now s = true
  ↔ is_Some (workspaceUserMap s !! ws)
    ∧ ∃ e, workspaceCacheTTL s !! ws = Some e ∧ e ≠ 0 ∧ now ≤ e.
Proof.
  unfold Cache.cacheHit.
  rewrite andb_true_iff, bool_decide_eq_true, negb_true_iff.
  rewrite isCacheExpired_false. reflexivity.
Qed.

(** C5, the claim as stated fails: W1 is cached with deadline 301000;
    each of the three optimistic writes at time 5000 moves the deadline
    to 305000. *)
Lemma optimistic_write_moves_deadline :
  workspaceCacheTTL cachedW1 !! "W1" = Some 301000
  ∧ workspaceCacheTTL
      (Cache.optimisticAddUser "W1"
         (mkUserInput (Some "bob@contoso.com") None None None)
         (Some "Member") 5000 cachedW1) !! "W1" = Some 305000
  ∧ workspaceCacheTTL
      (Cache.optimisticRemoveUser "W1" "alice@contoso.com" 5000 cachedW1)
      !! "W1" = Some 305000
  ∧ workspaceCacheTTL
      (Cache.optimisticChangeRole "W1" "alice@contoso.com" (Some "Admin")
         5000 cachedW1) !! "W1" = Some 305000.
Proof. vm_compute. repeat split. Qed.

(** C5 (amended): [optimisticAddUser] and [optimisticRemoveUser] always
    store the new record list together with a fresh deadline
    [now + CACHE_TTL]; [optimisticChangeRole] does so when the identifier
    is in the list and otherwise leaves the state as it is.  No other
    workspace's list or deadline changes. *)
Theorem optimistic_write_resets_deadline (ws : string) (user : UserInput)
    (role : Js.str) (userIdentifier : string) (now : Z) (s : AppState) :
  let added := Cache.optimisticAddUser ws user role now s in
  let removed := Cache.optimisticRemoveUser ws userIdentifier now s in
  let changed := Cache.optimisticChangeRole ws userIdentifier role now s in
  (workspaceCacheTTL added
   = <[ws := now + CONFIG.CACHE_TTL]> (workspaceCacheTTL s)
   ∧ workspaceUserMap added
     = <[ws := (Cache.cachedUsers ws s ++ [Cache.newUser user role])%list]>
         (workspaceUserMap s))
  ∧ (workspaceCacheTTL removed
     = <[ws := now + CONFIG.CACHE_TTL]> (workspaceCacheTTL s)
     ∧ workspaceUserMap removed
       = <[ws := filter (λ u, identifier u ≠ Some userIdentifier)
                   (Cache.cachedUsers ws s)]> (workspaceUserMap s))
  ∧ match Cache.changeFirst userIdentifier role (Cache.cachedUsers ws s) with
    | Some users =>
        workspaceCacheTTL changed
        = <[ws := now + CONFIG.CACHE_TTL]> (workspaceCacheTTL s)
        ∧ workspaceUserMap changed = <[ws := users]> (workspaceUserMap s)
    | None => changed = s
    end.
Proof.
  cbn zeta. split; [|split].
  - split; reflexivity.
  - split; reflexivity.
  - unfold Cache.optimisticChangeRole.
    destruct (Cache.changeFirst userIdentifier role (Cache.cachedUsers ws s));
      [split|]; reflexivity.
Qed.

(** C10: for a workspace without a cache entry, [optimisticRemoveUser]
    stores an empty record list and [optimisticAddUser] a list holding
    only the new record, both with the deadline [now + CACHE_TTL], and a
    read that follows at any time up to that deadline is a hit. *)
Theorem optimistic_write_creates_entry (ws : string) (user : UserInput)
    (role : Js.str) (userIdentifier : string) (now now' : Z) (s : AppState) :
  workspaceUserMap s !! ws = None ->
  0 ≤ now -> now ≤ now' -> now' ≤ now + CONFIG.CACHE_TTL ->
  let removed := Cache.optimisticRemoveUser ws userIdentifier now s in
  let added := Cache.optimisticAddUser ws user role now s in
  (workspaceUserMap removed !! ws = Some []
   ∧ workspaceCacheTTL removed !! ws = Some (now + CONFIG.CACHE_TTL)
   ∧ Cache.cacheHit ws now' removed = true)
  ∧ (workspaceUserMap added !! ws = Some [Cache.newUser user role]
     ∧ workspaceCacheTTL added !! ws = Some (now + CONFIG.CACHE_TTL)
     ∧ Cache.cacheHit ws now' added = true).
Proof.
  intros Hnone Hnow Hafter Hbefore removed added.
  assert (Hcached : Cache.cachedUsers ws s = [])
    by (unfold Cache.cachedUsers; rewrite Hnone; reflexivity).
  split; (split; [|split]).
  - subst removed. unfold Cache.optimisticRemoveUser. rewrite Hcached.
    rewrite setCacheWithTTL_users, lookup_insert_eq. reflexivity.
  - subst removed. unfold Cache.optimisticRemoveUser.
    rewrite setCacheWithTTL_ttl, lookup_insert_eq. reflexivity.
  - apply setCacheWithTTL_hit; assumption.
  - subst added. unfold Cache.optimisticAddUser. rewrite Hcached. cbn.
    rewrite lookup_insert_eq. reflexivity.
  - subst added. unfold Cache.optimisticAddUser. cbn.
    rewrite lookup_insert_eq. reflexivity.
  - subst added. unfold Cache.optimisticAddUser.
    apply (setCacheWithTTL_hit ws _ now now'); assumption.
Qed.

Lemma optimistic_write_creates_entry_witness :
  let user := mkUserInput (Some "bob@contoso.com") None None None in
  let removed :=
    Cache.optimisticRemoveUser "W2" "bob@contoso.com" 5000 cachedW1 in
  let added := Cache.optimisticAddUser "W2" user (Some "Member") 5000
                 cachedW1 in
  (workspaceUserMap removed !! "W2" = Some []
   ∧ workspaceCacheTTL removed !! "W2" = Some 305000
   ∧ Cache.cacheHit "W2" 5000 removed = true)
  ∧ (workspaceUserMap added !! "W2"
     = Some [Cache.newUser user (Some "Member")]
     ∧ workspaceCacheTTL added !! "W2" = Some 305000
     ∧ Cache.cacheHit "W2" 5000 added = true).
Proof.
  apply (optimistic_write_creates_entry "W2"
           (mkUserInput (Some "bob@contoso.com") None None None)
           (Some "Member") "bob@contoso.com" 5000 5000 cachedW1).
  - reflexivity.
  - lia.
  - lia.
  - unfold CONFIG.CACHE_TTL. lia.
Defined.

(** ** Properties of the dirty-set reconciler *)

Section ReconcilerFacts.

Implicit Types (s : AppState) (ws : string) (R : Cache.Remote).

Lemma string_length_app (a b : string) :
  String.length (a ++ b)%string = (String.length a + String.length b)%nat.
Proof.
  induction a as [|c a IH]; simpl; [reflexivity|]. f_equal. exact IH.
Qed.








Lemma effects_legacy_signOut s :
  effects (AuthLegacy.signOut s)
  = (effects s ++ [SignOut; Alert "Signed out" "info"])%list.
Proof. cbn. rewrite <- app_assoc. reflexivity. Qed.

Lemma effects_signOut s :
  effects (Auth.signOut s)
  = (effects s
     ++ [SignOut; CancelAllRequests; Alert "Signed out" "info"])%list.
Proof. cbn. rewrite <- !app_assoc. reflexivity. Qed.

Lemma noRequest_nil : noRequest [].
Proof. apply Forall_nil. exact I. Qed.

Lemma noRequest_alert m t (log : list Effect) :
  noRequest log -> noRequest (Alert m t :: log).
Proof. intros H. apply Forall_cons. split; [discriminate | exact H]. Qed.

(** [API.call] of js/api.js adds no request of its own to the log and
    leaves the dirty set. *)
Lemma legacy_call_frame {A : Type} (now : Z) (fetched : Js.Completion A) s :
  ∃ extra,
    effects (snd (ApiLegacy.call now fetched s))
    = (effects s ++ extra)%list
    ∧ noRequest extra
    ∧ dirtyWorkspaces (snd (ApiLegacy.call now fetched s))
      = dirtyWorkspaces s.
Proof.
  unfold ApiLegacy.call.
  destruct (negb (Js.truthy (accessToken s)));
    [exists []; rewrite app_nil_r; auto using noRequest_nil|].
  destruct (Js.truthyNum (tokenExpiry s)
            && Z.ltb (default 0 (tokenExpiry s)) now).
  - exists [SignOut; Alert "Signed out" "info"]. cbn [snd].
    rewrite effects_legacy_signOut. repeat split.
    apply Forall_cons. split; [discriminate|].
    apply noRequest_alert, noRequest_nil.
  - exists []. rewrite app_nil_r. auto using noRequest_nil.
Qed.

(** The same for [API.call] of the module with the watchdog. *)
Lemma call_frame {A : Type} (online : bool) (now : Z)
    (fetched : Js.Completion A) s :
  ∃ extra,
    effects (snd (Api.call online now fetched s))
    = (effects s ++ extra)%list
    ∧ noRequest extra
    ∧ dirtyWorkspaces (snd (Api.call online now fetched s))
      = dirtyWorkspaces s.
Proof.
  unfold Api.call.
  destruct (negb (Js.truthy (accessToken s)));
    [eexists; repeat split; apply noRequest_alert, noRequest_nil|].
  cbn zeta.
  destruct (Js.truthyNum (tokenExpiry s)
            && Z.ltb (default 0 (tokenExpiry s) - 60000) now);
    cbn [andb].
  - destruct (Z.ltb (default 0 (tokenExpiry s)) now).
    + eexists. cbn [snd]. rewrite effects_signOut. cbn [effects showAlert
        set_effects]. rewrite <- app_assoc. repeat split.
      apply noRequest_alert. apply Forall_cons. split; [discriminate|].
      apply Forall_cons. split; [discriminate|].
      apply noRequest_alert, noRequest_nil.
    + destruct fetched as [response|error].
      * eexists. repeat split. apply noRequest_alert, noRequest_nil.
      * destruct (ErrorHandler.retryable _);
          (eexists; cbn; rewrite <- app_assoc; repeat split;
           apply noRequest_alert, noRequest_alert, noRequest_nil).
  - destruct fetched as [response|error].
    + exists []. rewrite app_nil_r. auto using noRequest_nil.
    + destruct (ErrorHandler.retryable _);
        (eexists; repeat split; apply noRequest_alert, noRequest_nil).
Qed.

Lemma apiCall_frame api R (n : nat) (url : string) s :
  ∃ extra,
    effects (snd (Cache.apiCall api R n url s)) = (effects s ++ extra)%list
    ∧ noRequest extra
    ∧ dirtyWorkspaces (snd (Cache.apiCall api R n url s))
      = dirtyWorkspaces s.
Proof.
  destruct api; [apply legacy_call_frame | apply call_frame].
Qed.

(** A refresh hands one request to [API.call]; what else it logs is no
    request.  It leaves the dirty set. *)
Lemma refreshSingleWorkspace_frame api R ws s :
  ∃ extra,
    effects (Cache.refreshSingleWorkspace api R ws s)
    = (effects s ++ Request (Cache.membershipUrl ws) :: extra)%list
    ∧ noRequest extra
    ∧ dirtyWorkspaces (Cache.refreshSingleWorkspace api R ws s)
      = dirtyWorkspaces s.
Proof.
  unfold Cache.refreshSingleWorkspace. cbn zeta.
  destruct (apiCall_frame api R (length (effects s))
              (Cache.membershipUrl ws)
              (emit (Request (Cache.membershipUrl ws)) s))
    as (extra & Hlog & Hextra & Hdirty).
  exists extra.
  destruct (Cache.apiCall api R _ _ _) as [[[status| |value]|e] s1];
    cbn [snd] in Hlog, Hdirty;
    try case_bool_decide; cbn; rewrite Hlog, Hdirty; cbn;
    rewrite <- app_assoc; repeat split; exact Hextra.
Qed.







End ReconcilerFacts.






(** ** Properties of the error classifier *)




(** ** Properties of the operation serializer *)

(** C3: while [operationInProgress] is true, [ActionGuard.guard] returns
    [null] without running the wrapped action (its result is the same
    for every action) and leaves the flag true; the only change it may
    make is the "please wait" alert.  The bulk engine entered in that
    state starts no batch, reports zero successes and failures, and
    leaves the flag true as well. *)
Theorem guard_blocks_while_in_progress (actionName : string)
    (options : ActionGuard.Options) (s : AppState) :
  operationInProgress s = true ->
  (∃ s',
      (∀ (A : Type) (action : ActionGuard.Action A),
          ActionGuard.guard actionName action options s
          = (Js.Return None, s'))
      ∧ operationInProgress s' = true
      ∧ (s' = s
         ∨ s' = showAlert "Please wait for the current operation to complete"
                  "warning" s))
  ∧ ∀ (Item Payload : Type) (config : BulkConfig Item Payload)
      (confirm : string -> bool) (now : Z),
      let '(result, run) := Api.executeBulkOperation config confirm now s in
      successCount result = O ∧ failureCount result = O
      ∧ operationInProgress (Api.app run) = true
      ∧ pacing (effects (Api.app run)) = pacing (effects s).
Proof.
  intros Hbusy. split.
  - destruct (isFrozen s) eqn:Hfrozen.
    + exists s. repeat split; [|assumption|left; reflexivity].
      intros A action. unfold ActionGuard.guard. rewrite Hfrozen.
      reflexivity.
    + exists (showAlert "Please wait for the current operation to complete"
                "warning" s).
      repeat split; [|assumption|right; reflexivity].
      intros A action. unfold ActionGuard.guard.
      rewrite Hfrozen, Hbusy. reflexivity.
  - intros Item Payload config confirm now.
    unfold Api.executeBulkOperation.
    assert (Halert : ∀ m t, pacing (effects (showAlert m t s))
                            = pacing (effects s)).
    { intros m t. unfold pacing, showAlert. cbn.
      rewrite filter_app, filter_cons_False, filter_nil, app_nil_r
        by (cbn; discriminate).
      reflexivity. }
    destruct (match permissionCheck config with
              | Some check => negb (check s)
              | None => false
              end).
    { cbn beta iota zeta. repeat split; [exact Hbusy | apply Halert]. }
    destruct (bool_decide (Api.itemCount config = O)).
    { cbn beta iota zeta. repeat split. exact Hbusy. }
    destruct (Js.truthy (confirmMessage config)
              && negb (confirm (default "" (confirmMessage config)))).
    { cbn beta iota zeta. repeat split. exact Hbusy. }
    rewrite Hbusy. cbn beta iota zeta.
    repeat split; [exact Hbusy | apply Halert].
Qed.

Lemma guard_blocks_while_in_progress_witness :
  let busy := set_operationInProgress true cachedW1 in
  (∃ s',
      (∀ (A : Type) (action : ActionGuard.Action A),
          ActionGuard.guard "removeUser" action ActionGuard.defaultOptions
            busy
          = (Js.Return None, s'))
      ∧ operationInProgress s' = true
      ∧ (s' = busy
         ∨ s' = showAlert "Please wait for the current operation to complete"
                  "warning" busy))
  ∧ ∀ (Item Payload : Type) (config : BulkConfig Item Payload)
      (confirm : string -> bool) (now : Z),
      let '(result, run) := Api.executeBulkOperation config confirm now busy
      in
      successCount result = O ∧ failureCount result = O
      ∧ operationInProgress (Api.app run) = true
      ∧ pacing (effects (Api.app run)) = pacing (effects busy).
Proof.
  apply (guard_blocks_while_in_progress "removeUser"
           ActionGuard.defaultOptions
           (set_operationInProgress true cachedW1)).
  reflexivity.
Defined.

(** ** Properties of the watchdog *)

Section WatchdogFacts.

Implicit Types (r : Api.Run) (s : AppState).

Lemma watchdogWarnings_app (l1 l2 : list Effect) :
  Api.watchdogWarnings (l1 ++ l2)
  = (Api.watchdogWarnings l1 + Api.watchdogWarnings l2)%nat.
Proof.
  unfold Api.watchdogWarnings. rewrite filter_app, length_app. reflexivity.
Qed.

(** The callback on a run still in progress adds one warning. *)
Lemma watchdogCallback_warns s :
  operationInProgress s = true ->
  Api.watchdogWarnings (effects (Api.watchdogCallback s))
  = S (Api.watchdogWarnings (effects s)).
Proof.
  intros Hbusy. unfold Api.watchdogCallback. rewrite Hbusy.
  unfold showAlert.
  change (effects (set_effects ?l _)) with l.
  change (effects (set_operationInProgress false s)) with (effects s).
  rewrite watchdogWarnings_app.
  change (Api.watchdogWarnings [Alert Api.watchdogMessage "warning"])
    with 1%nat.
  lia.
Qed.

(** Ticks before the deadline leave an armed run as it is. *)
Lemma ticks_before_deadline s (due : Z) (early : list Z) :
  Forall (λ t, t < due) early ->
  Api.runEvents (map Api.Tick early) (Api.mkRun s (Some due))
  = Api.mkRun s (Some due).
Proof.
  induction 1 as [|t early Ht _ IH]; [reflexivity|].
  cbn. unfold Api.timerTick. cbn.
  rewrite (proj2 (Z.leb_gt due t)) by exact Ht. exact IH.
Qed.

(** Once the timer is gone and the flag is down, nothing the run goes
    through shows a warning or raises the flag. *)
Lemma disarmed_run_is_silent s (events : list Api.RunEvent) :
  operationInProgress s = false ->
  let r := Api.runEvents events (Api.mkRun s None) in
  operationInProgress (Api.app r) = false
  ∧ effects (Api.app r) = effects s
  ∧ Api.watchdogTimer r = None.
Proof.
  revert s. induction events as [|e events IH]; intros s Hidle.
  - repeat split. exact Hidle.
  - destruct e as [now|]; cbn.
    + apply IH. exact Hidle.
    + unfold Api.finallyBlock. cbn [Api.app].
      apply (IH (set_operationInProgress false s) eq_refl).
Qed.

End WatchdogFacts.

(** C8: a run started at [t0] arms the watchdog for [t0] plus five
    minutes.  If the run does not complete, the flag is still true after
    every tick before that deadline, the first tick at or after it resets
    the flag and shows the warning, and later ticks show no second
    warning.  If the run completes before any such tick, the timer is
    cleared and the warning is never shown, whatever happens later. *)
Theorem watchdog_fires_exactly_once (s : AppState) (t0 late : Z)
    (early more : list Z) (later : list Api.RunEvent) :
  Forall (λ t, t < t0 + Api.WATCHDOG_DELAY) early ->
  t0 + Api.WATCHDOG_DELAY ≤ late ->
  let started := Api.beginOperation t0 s in
  let waiting := Api.runEvents (map Api.Tick early) started in
  let stuck := Api.runEvents (map Api.Tick (early ++ late :: more)) started in
  let completed :=
    Api.runEvents (map Api.Tick early ++ Api.Complete :: later) started in
  (operationInProgress (Api.app waiting) = true
   ∧ operationInProgress (Api.app stuck) = false
   ∧ Api.watchdogWarnings (effects (Api.app stuck))
     = S (Api.watchdogWarnings (effects s)))
  ∧ (operationInProgress (Api.app completed) = false
     ∧ Api.watchdogWarnings (effects (Api.app completed))
       = Api.watchdogWarnings (effects s)
     ∧ Api.watchdogTimer completed = None).
Proof.
  intros Hearly Hlate started waiting stuck completed.
  subst started waiting stuck completed. unfold Api.beginOperation.
  set (s1 := set_operationStartTime (Some t0)
               (set_operationInProgress true s)).
  split; [split; [|split]|].
  - rewrite ticks_before_deadline by exact Hearly. reflexivity.
  - rewrite map_app. unfold Api.runEvents. rewrite fold_left_app.
    fold (Api.runEvents (map Api.Tick early)
            (Api.mkRun s1 (Some (t0 + Api.WATCHDOG_DELAY)))).
    rewrite ticks_before_deadline by exact Hearly.
    cbn [map fold_left Api.runEvent]. unfold Api.timerTick.
    cbn [Api.watchdogTimer Api.app].
    rewrite (proj2 (Z.leb_le _ _)) by exact Hlate.
    apply (disarmed_run_is_silent (Api.watchdogCallback s1)
             (map Api.Tick more)).
    reflexivity.
  - rewrite map_app. unfold Api.runEvents. rewrite fold_left_app.
    fold (Api.runEvents (map Api.Tick early)
            (Api.mkRun s1 (Some (t0 + Api.WATCHDOG_DELAY)))).
    rewrite ticks_before_deadline by exact Hearly.
    cbn [map fold_left Api.runEvent]. unfold Api.timerTick.
    cbn [Api.watchdogTimer Api.app].
    rewrite (proj2 (Z.leb_le _ _)) by exact Hlate.
    destruct (disarmed_run_is_silent (Api.watchdogCallback s1)
                (map Api.Tick more) eq_refl) as (_ & Heff & _).
    unfold Api.runEvents in Heff. rewrite Heff.
    rewrite (watchdogCallback_warns s1) by reflexivity. reflexivity.
  - unfold Api.runEvents. rewrite fold_left_app.
    fold (Api.runEvents (map Api.Tick early)
            (Api.mkRun s1 (Some (t0 + Api.WATCHDOG_DELAY)))).
    rewrite ticks_before_deadline by exact Hearly.
    cbn [fold_left Api.runEvent]. unfold Api.finallyBlock.
    cbn [Api.app].
    destruct (disarmed_run_is_silent (set_operationInProgress false s1)
                later eq_refl) as (Hflag & Heff & Htimer).
    unfold Api.runEvents in Hflag, Heff, Htimer.
    rewrite Hflag, Heff, Htimer. repeat split.
Qed.

Lemma watchdog_fires_exactly_once_witness :
  let started := Api.beginOperation 1000 cachedW1 in
  let waiting := Api.runEvents (map Api.Tick [2000; 200000]) started in
  let stuck :=
    Api.runEvents (map Api.Tick ([2000; 200000] ++ 301000 :: [400000]))
      started in
  let completed :=
    Api.runEvents
      (map Api.Tick [2000; 200000] ++ Api.Complete :: [Api.Tick 400000])
      started in
  (operationInProgress (Api.app waiting) = true
   ∧ operationInProgress (Api.app stuck) = false
   ∧ Api.watchdogWarnings (effects (Api.app stuck))
     = S (Api.watchdogWarnings (effects cachedW1)))
  ∧ (operationInProgress (Api.app completed) = false
     ∧ Api.watchdogWarnings (effects (Api.app completed))
       = Api.watchdogWarnings (effects cachedW1)
     ∧ Api.watchdogTimer completed = None).
Proof.
  apply (watchdog_fires_exactly_once cachedW1 1000 301000 [2000; 200000]
           [400000] [Api.Tick 400000]).
  - unfold Api.WATCHDOG_DELAY. repeat constructor; lia.
  - unfold Api.WATCHDOG_DELAY. lia.
Defined.

(** ** Properties of the retry on HTTP 429 *)

Section EffectLogFacts.

Lemma pacing_app (l1 l2 : list Effect) :
  pacing (l1 ++ l2) = (pacing l1 ++ pacing l2)%list.
Proof. unfold pacing. apply filter_app. Qed.

Lemma requestCount_app (l1 l2 : list Effect) :
  requestCount (l1 ++ l2) = (requestCount l1 + requestCount l2)%nat.
Proof. unfold requestCount. rewrite filter_app, length_app. reflexivity. Qed.

Lemma effects_emit (e : Effect) (s : AppState) :
  effects (emit e s) = (effects s ++ [e])%list.
Proof. reflexivity. Qed.

Lemma effects_showAlert (m t : string) (s : AppState) :
  effects (showAlert m t s) = (effects s ++ [Alert m t])%list.
Proof. reflexivity. Qed.

Lemma pacing_showAlert (m t : string) (s : AppState) :
  pacing (effects (showAlert m t s)) = pacing (effects s).
Proof.
  rewrite effects_showAlert, pacing_app. cbn. apply app_nil_r.
Qed.

End EffectLogFacts.

Section RetryFacts.

Variable server : nat -> CallOutcome.
Hypothesis Hserver : always429 server.
Variable url : string.

(** With retries left, a 429 leads to the next attempt. *)
Lemma retry_step (retryCount : nat) (s : AppState) (r : Response) :
  (retryCount < Api.MAX_RETRIES)%nat ->
  server retryCount = CallReturns r -> status r = 429 ->
  Api.callWithErrorHandling server url retryCount s
  = Api.callWithErrorHandling server url (retryCount + 1)
      (emit (Sleep (Api.retryDelay r retryCount * 1000))
         (showAlert
            ("Rate limited. Retrying in "
               ++ pretty (Api.retryDelay r retryCount)
               ++ "s... (" ++ pretty (retryCount + 1)%nat ++ "/"
               ++ pretty Api.MAX_RETRIES ++ ")")
            "warning" (emit (Request url) s))).
Proof.
  intros Hlt Hs Hst. rewrite Api.callWithErrorHandling_equation_1.
  rewrite Hs. cbn. unfold Api.statusCase. rewrite Hst. cbn.
  destruct (decide (retryCount < Api.MAX_RETRIES)%nat); [|lia].
  reflexivity.
Qed.

(** Without retries left, a 429 ends the call with an error. *)
Lemma retry_exhausted (retryCount : nat) (s : AppState) (r : Response) :
  (Api.MAX_RETRIES ≤ retryCount)%nat ->
  server retryCount = CallReturns r -> status r = 429 ->
  Api.callWithErrorHandling server url retryCount s
  = (Js.Throw (Js.newError "Rate limit exceeded"),
     showAlert "Rate limit exceeded. Please wait a moment and try again."
       "error" (emit (Request url) s)).
Proof.
  intros Hge Hs Hst. rewrite Api.callWithErrorHandling_equation_1.
  rewrite Hs. cbn. unfold Api.statusCase. rewrite Hst. cbn.
  destruct (decide (retryCount < Api.MAX_RETRIES)%nat); [lia|].
  reflexivity.
Qed.

(** From retry count [k], the call makes one request per remaining
    retry plus one, sleeps once per remaining retry, and fails. *)
Lemma retry_bounded (d k : nat) (s : AppState) :
  (k + d = Api.MAX_RETRIES)%nat ->
  ∃ s' trace,
    Api.callWithErrorHandling server url k s
    = (Js.Throw (Js.newError "Rate limit exceeded"), s')
    ∧ effects s' = (effects s ++ trace)%list
    ∧ requestCount trace = S d
    ∧ length (pacing trace) = d.
Proof.
  revert k s. induction d as [|d IH]; intros k s Hk.
  - destruct (Hserver k) as (r & Hs & Hst).
    rewrite (retry_exhausted k s r) by (assumption || lia).
    eexists _, [Request url; Alert _ _].
    split; [reflexivity|]. split; [|split; reflexivity].
    rewrite effects_showAlert, effects_emit, <- app_assoc. reflexivity.
  - destruct (Hserver k) as (r & Hs & Hst).
    rewrite (retry_step k s r) by (assumption || lia).
    destruct (IH (k + 1)%nat
                (emit (Sleep (Api.retryDelay r k * 1000))
                   (showAlert
                      ("Rate limited. Retrying in "
                         ++ pretty (Api.retryDelay r k)
                         ++ "s... (" ++ pretty (k + 1)%nat ++ "/"
                         ++ pretty Api.MAX_RETRIES ++ ")")
                      "warning" (emit (Request url) s))))
      as (s' & trace & Hrun & Heff & Hreq & Hpace); [lia|].
    exists s'. eexists ([Request url; Alert _ _; Sleep _] ++ trace)%list.
    split; [exact Hrun|]. split; [|split].
    + rewrite Heff, effects_emit, effects_showAlert, effects_emit.
      rewrite <- !app_assoc. reflexivity.
    + rewrite requestCount_app, Hreq. reflexivity.
    + rewrite pacing_app, length_app, Hpace. reflexivity.
Qed.

(** The first API module is still retrying after any number of
    attempts, having sent one request per attempt. *)
Lemma legacy_retry_unbounded (onLine : bool) (fuel attempt : nat)
    (s : AppState) :
  ∃ s' trace,
    ApiLegacy.callWithErrorHandling fuel server onLine url attempt s
    = (ApiLegacy.StillRetrying, s')
    ∧ effects s' = (effects s ++ trace)%list
    ∧ requestCount trace = fuel.
Proof.
  revert attempt s. induction fuel as [|fuel IH]; intros attempt s.
  - exists s, []. cbn. rewrite app_nil_r. repeat split.
  - destruct (Hserver attempt) as (r & Hs & Hst). cbn.
    rewrite Hs. unfold ApiLegacy.statusCase. rewrite Hst. cbn.
    match goal with
    | |- context [ApiLegacy.callWithErrorHandling fuel _ _ _ _ ?s1] =>
        destruct (IH (S attempt) s1) as (s' & trace & Hrun & Heff & Hreq)
    end.
    exists s'. eexists ([Request url; Alert _ _; Sleep _] ++ trace)%list.
    split; [exact Hrun|]. split.
    + rewrite Heff, effects_emit, effects_showAlert, effects_emit.
      rewrite <- !app_assoc. reflexivity.
    + rewrite requestCount_app, Hreq. reflexivity.
Qed.

End RetryFacts.

(** C6: against a server that always answers 429, the API module with
    the retry counter gives up with the error "Rate limit exceeded" after
    [MAX_RETRIES = 3] retries, having sent 4 requests and slept 3 times.
    The first API module (js/api.js) has no counter: however many
    attempts are observed, its call has sent that many requests and is
    still retrying. *)
Theorem retry_on_429 (server : nat -> CallOutcome) (onLine : bool)
    (url : string) (s : AppState) :
  always429 server ->
  (∃ s' trace,
      Api.callWithErrorHandling server url 0 s
      = (Js.Throw (Js.newError "Rate limit exceeded"), s')
      ∧ effects s' = (effects s ++ trace)%list
      ∧ requestCount trace = S Api.MAX_RETRIES
      ∧ length (pacing trace) = Api.MAX_RETRIES)
  ∧ ∀ attempts, ∃ s' trace,
      ApiLegacy.callWithErrorHandling attempts server onLine url 0 s
      = (ApiLegacy.StillRetrying, s')
      ∧ effects s' = (effects s ++ trace)%list
      ∧ requestCount trace = attempts.
Proof.
  intros Hserver. split.
  - apply (retry_bounded server Hserver url Api.MAX_RETRIES 0 s).
    reflexivity.
  - intros attempts.
    apply (legacy_retry_unbounded server Hserver url onLine attempts 0 s).
Qed.

Lemma retry_on_429_witness :
  let server := λ _ : nat, CallReturns (tooManyRequests 5) in
  (∃ s' trace,
      Api.callWithErrorHandling server
        "https://api.powerbi.com/v1.0/myorg/groups" 0 signedIn
      = (Js.Throw (Js.newError "Rate limit exceeded"), s')
      ∧ effects s' = (effects signedIn ++ trace)%list
      ∧ requestCount trace = S Api.MAX_RETRIES
      ∧ length (pacing trace) = Api.MAX_RETRIES)
  ∧ ∀ attempts, ∃ s' trace,
      ApiLegacy.callWithErrorHandling attempts server true
        "https://api.powerbi.com/v1.0/myorg/groups" 0 signedIn
      = (ApiLegacy.StillRetrying, s')
      ∧ effects s' = (effects signedIn ++ trace)%list
      ∧ requestCount trace = attempts.
Proof.
  apply (retry_on_429 (λ _ : nat, CallReturns (tooManyRequests 5)) true
           "https://api.powerbi.com/v1.0/myorg/groups" signedIn).
  intros n. exists (tooManyRequests 5). split; reflexivity.
Defined.

(** ** Properties of the bulk operation engine *)

Section BulkFacts.

Context {Item Payload : Type}.
Variable config : BulkConfig Item Payload.
Hypothesis Hquiet : quietCallbacks config.

Implicit Types (t : Tally) (batch payloads : list (Item * Payload)).

Lemma pacing_emit_batch (n : nat) (s : AppState) :
  pacing (effects (emit (Batch n) s))
  = (pacing (effects s) ++ [Batch n])%list.
Proof. rewrite effects_emit, pacing_app. reflexivity. Qed.

Lemma pacing_emit_sleep (ms : Z) (s : AppState) :
  pacing (effects (emit (Sleep ms) s))
  = (pacing (effects s) ++ [Sleep ms])%list.
Proof. rewrite effects_emit, pacing_app. reflexivity. Qed.

Lemma length_batch payloads (i : nat) :
  length (take CONFIG.BATCH_SIZE (drop i payloads))
  = Nat.min CONFIG.BATCH_SIZE (length payloads - i).
Proof. rewrite length_take, length_drop. reflexivity. Qed.

(** All payloads truthy: one payload per item. *)
Lemma length_buildPayloads (build : Item -> option Payload)
    (l : list Item) :
  (∀ item, item ∈ l -> is_Some (build item)) ->
  length (buildPayloads build l) = length l.
Proof.
  unfold buildPayloads. induction l as [|item l IH]; intros Hall.
  - reflexivity.
  - destruct (Hall item) as [payload Hp]; [apply list_elem_of_here|].
    cbn. rewrite Hp. cbn. f_equal. apply IH.
    intros item' Hin. apply Hall. apply list_elem_of_further. exact Hin.
Qed.

Lemma callWithCounts_spec
    (callback : option (nat -> nat -> AppState -> AppState)) t :
  (∀ f, callback = Some f -> ∀ n m, quiet (f n m)) ->
  t_success (callWithCounts callback t) = t_success t
  ∧ t_failure (callWithCounts callback t) = t_failure t
  ∧ pacing (effects (t_state (callWithCounts callback t)))
    = pacing (effects (t_state t)).
Proof.
  intros Hq. unfold callWithCounts. destruct callback as [f|]; cbn.
  - repeat split. apply (Hq f eq_refl).
  - repeat split.
Qed.

Lemma pacing_showFeedback (partialType : string) t :
  pacing (effects (showFeedback config partialType t))
  = pacing (effects (t_state t)).
Proof.
  unfold showFeedback. repeat case_bool_decide; apply pacing_showAlert.
Qed.

(** *** The engine with the watchdog *)

Lemma recordResult_spec (item : Item) (result : Settled) t :
  let t' := Api.recordResult config item result t in
  (t_success t' + t_failure t' = S (t_success t + t_failure t))%nat
  ∧ pacing (effects (t_state t')) = pacing (effects (t_state t)).
Proof.
  destruct Hquiet as (HonSuccess & _ & _).
  unfold Api.recordResult.
  destruct result as [[value|]|reason]; cbn.
  - destruct (ok value); cbn.
    + split; [lia|].
      destruct (onSuccess config) as [f|] eqn:Hf; [|reflexivity].
      apply (HonSuccess f eq_refl).
    + split; [lia|reflexivity].
  - split; [lia|reflexivity].
  - split; [lia|reflexivity].
Qed.

Lemma forEachResult_spec batch (pos : nat) t :
  let t' := Api.forEachResult config batch pos t in
  (t_success t' + t_failure t'
   = t_success t + t_failure t + length batch)%nat
  ∧ pacing (effects (t_state t')) = pacing (effects (t_state t)).
Proof.
  revert pos t. induction batch as [|[item payload] batch IH];
    intros pos t; cbn.
  - split; [lia|reflexivity].
  - destruct (IH (S pos)
                (Api.recordResult config item
                   (makeCall config pos payload) t)) as [Hcount Hpace].
    destruct (recordResult_spec item (makeCall config pos payload) t)
      as [Hcount1 Hpace1].
    cbn zeta in *. rewrite Hcount, Hpace, Hpace1. split; [lia|reflexivity].
Qed.

Lemma pacing_showProgress (total i : nat) (s : AppState) :
  pacing (effects (Api.showProgress total i s)) = pacing (effects s).
Proof.
  unfold Api.showProgress. case_decide; [apply pacing_showAlert|].
  reflexivity.
Qed.

(** The loop from position [i]: every remaining payload is counted
    once, and the batches and delays follow [schedule]. *)
Lemma batchLoop_spec payloads (i : nat) t :
  let t' := Api.batchLoop config payloads i t in
  (t_success t' + t_failure t'
   = t_success t + t_failure t + (length payloads - i))%nat
  ∧ pacing (effects (t_state t'))
    = (pacing (effects (t_state t)) ++ schedule (length payloads) i)%list.
Proof.
  remember (length payloads - i)%nat as m eqn:Hm.
  revert i t Hm. induction m as [m IH] using lt_wf_ind. intros i t Hm.
  rewrite Api.batchLoop_equation_1, schedule_equation_1.
  destruct (decide (i < length payloads)%nat) as [Hlt|Hge];
    cbn -[Nat.min take drop].
  - match goal with
    | |- context [Api.batchLoop config payloads _ ?t1] =>
        destruct (IH (length payloads - (i + CONFIG.BATCH_SIZE))%nat
                    ltac:(unfold CONFIG.BATCH_SIZE; lia)
                    (i + CONFIG.BATCH_SIZE)%nat t1 eq_refl)
          as [Hcount Hpace]
    end.
    cbn zeta in Hcount, Hpace. rewrite Hcount, Hpace. clear Hcount Hpace.
    match goal with
    | |- context [Api.forEachResult config ?b ?p ?t0] =>
        destruct (forEachResult_spec b p t0) as [Hcount Hpace]
    end.
    cbn zeta in Hcount, Hpace. cbn [t_success t_failure t_state] in *.
    rewrite pacing_emit_batch, pacing_showProgress in Hpace.
    rewrite !length_batch in Hcount, Hpace |- *.
    destruct (decide (i + CONFIG.BATCH_SIZE < length payloads)%nat);
      cbn [t_success t_failure t_state];
      rewrite ?pacing_emit_sleep, Hpace, <- ?app_assoc;
      (split; [unfold CONFIG.BATCH_SIZE in *; lia | reflexivity]).
  - split; [lia|]. rewrite app_nil_r. reflexivity.
Qed.

(** The [try] body counts every payload and follows the schedule. *)
Lemma tryBody_spec (s : AppState) :
  let payloads :=
    buildPayloads (buildPayload config) (itemArray (items config)) in
  let '(result, s') := Api.tryBody config s in
  (successCount result + failureCount result = length payloads)%nat
  ∧ pacing (effects s')
    = (pacing (effects s) ++ schedule (length payloads) 0)%list.
Proof.
  destruct Hquiet as (_ & HupdateCache & HonComplete).
  cbn zeta. unfold Api.tryBody. cbn zeta.
  set (payloads := buildPayloads _ _).
  destruct (batchLoop_spec payloads 0 (mkTally 0 0 [] s))
    as [Hcount Hpace].
  cbn zeta in Hcount, Hpace. cbn [t_success t_failure t_state] in *.
  set (t1 := Api.batchLoop config payloads 0 (mkTally 0 0 [] s)) in *.
  destruct (callWithCounts_spec (updateCache config) t1 HupdateCache)
    as (Hs2 & Hf2 & Hp2).
  set (t2 := callWithCounts (updateCache config) t1) in *.
  set (t3 := mkTally (t_success t2) (t_failure t2) (t_errors t2)
               (showFeedback config "warning" t2)).
  destruct (callWithCounts_spec (onComplete config) t3 HonComplete)
    as (Hs4 & Hf4 & Hp4).
  cbn [successCount failureCount]. rewrite Hs4, Hf4, Hp4.
  unfold t3. cbn [t_success t_failure t_state].
  rewrite pacing_showFeedback, Hp2, Hpace, Hs2, Hf2.
  split; [lia|reflexivity].
Qed.

(** *** The first engine, when no call fulfils with a missing value *)

Hypothesis Hvalues :
  ∀ pos payload, makeCall config pos payload ≠ Fulfilled None.

Lemma legacy_forEachResult_spec batch (pos : nat) t :
  ∃ t', ApiLegacy.forEachResult config batch pos t = (None, t')
        ∧ (t_success t' + t_failure t'
           = t_success t + t_failure t + length batch)%nat
        ∧ pacing (effects (t_state t')) = pacing (effects (t_state t)).
Proof.
  destruct Hquiet as (HonSuccess & _ & _).
  revert pos t. induction batch as [|[item payload] batch IH];
    intros pos t; cbn.
  - exists t. repeat split. lia.
  - pose proof (Hvalues pos payload) as Hv.
    unfold ApiLegacy.recordResult.
    destruct (makeCall config pos payload) as [[value|]|reason];
      [| contradiction |].
    + destruct (ok value).
      * match goal with
        | |- context [ApiLegacy.forEachResult config batch (S pos) ?t1] =>
            destruct (IH (S pos) t1) as (t' & Hrun & Hcount & Hpace)
        end.
        exists t'. split; [exact Hrun|].
        cbn [t_success t_failure t_state] in *. split; [lia|].
        rewrite Hpace.
        destruct (onSuccess config) as [f|] eqn:Hf; [|reflexivity].
        apply (HonSuccess f eq_refl).
      * match goal with
        | |- context [ApiLegacy.forEachResult config batch (S pos) ?t1] =>
            destruct (IH (S pos) t1) as (t' & Hrun & Hcount & Hpace)
        end.
        exists t'. split; [exact Hrun|].
        cbn [t_success t_failure t_state] in *. split; [lia|exact Hpace].
    + match goal with
      | |- context [ApiLegacy.forEachResult config batch (S pos) ?t1] =>
          destruct (IH (S pos) t1) as (t' & Hrun & Hcount & Hpace)
      end.
      exists t'. split; [exact Hrun|].
      cbn [t_success t_failure t_state] in *. split; [lia|exact Hpace].
Qed.

Lemma legacy_batchLoop_spec payloads (i : nat) t :
  ∃ t', ApiLegacy.batchLoop config payloads i t = (None, t')
        ∧ (t_success t' + t_failure t'
           = t_success t + t_failure t + (length payloads - i))%nat
        ∧ pacing (effects (t_state t'))
          = (pacing (effects (t_state t))
             ++ schedule (length payloads) i)%list.
Proof.
  remember (length payloads - i)%nat as m eqn:Hm.
  revert i t Hm. induction m as [m IH] using lt_wf_ind. intros i t Hm.
  rewrite ApiLegacy.batchLoop_equation_1, schedule_equation_1.
  destruct (decide (i < length payloads)%nat) as [Hlt|Hge];
    cbn -[Nat.min take drop].
  - match goal with
    | |- context [ApiLegacy.forEachResult config ?b ?p ?t0] =>
        destruct (legacy_forEachResult_spec b p t0)
          as (t1 & Hrun1 & Hcount1 & Hpace1)
    end.
    rewrite Hrun1. cbn [t_success t_failure t_state] in *.
    rewrite pacing_emit_batch in Hpace1.
    rewrite length_batch in Hcount1, Hpace1.
    match goal with
    | |- context [ApiLegacy.batchLoop config payloads _ ?t2] =>
        destruct (IH (length payloads - (i + CONFIG.BATCH_SIZE))%nat
                    ltac:(unfold CONFIG.BATCH_SIZE; lia)
                    (i + CONFIG.BATCH_SIZE)%nat t2 eq_refl)
          as (t' & Hrun & Hcount & Hpace)
    end.
    exists t'. split; [exact Hrun|].
    rewrite Hcount, Hpace. clear Hrun Hcount Hpace.
    destruct (decide (i + CONFIG.BATCH_SIZE < length payloads)%nat);
      cbn [t_success t_failure t_state];
      rewrite ?pacing_emit_sleep, Hpace1, <- ?app_assoc;
      (split; [unfold CONFIG.BATCH_SIZE in *; lia | reflexivity]).
  - exists t. split; [reflexivity|]. split; [lia|].
    rewrite app_nil_r. reflexivity.
Qed.

End BulkFacts.

(** C2: a run over 37 items, all with truthy payloads, that passes the
    entry checks executes exactly the batches 15, 15 and 7 with one
    inter-batch delay after the first and after the second batch and
    none after the third, and returns counts that add up to 37, however
    the per-item calls settle.  The same holds for the first API module
    (js/api.js) as long as no call fulfils with a missing value. *)
Theorem bulk_37_items_three_batches {Item Payload : Type}
    (config : BulkConfig Item Payload) (confirm : string -> bool) (now : Z)
    (s : AppState) :
  length (itemArray (items config)) = 37%nat ->
  (∀ item, item ∈ itemArray (items config) ->
           is_Some (buildPayload config item)) ->
  accepted config confirm s ->
  quietCallbacks config ->
  (let '(result, run) := Api.executeBulkOperation config confirm now s in
   pacing (effects (Api.app run))
   = (pacing (effects s)
      ++ [Batch 15; Sleep CONFIG.RATE_LIMIT_DELAY;
          Batch 15; Sleep CONFIG.RATE_LIMIT_DELAY; Batch 7])%list
   ∧ (successCount result + failureCount result = 37)%nat)
  ∧ ((∀ pos payload, makeCall config pos payload ≠ Fulfilled None) ->
     ∃ result s',
       ApiLegacy.executeBulkOperation config confirm s
       = (Js.Return (Some result), s')
       ∧ pacing (effects s')
         = (pacing (effects s)
            ++ [Batch 15; Sleep CONFIG.RATE_LIMIT_DELAY;
                Batch 15; Sleep CONFIG.RATE_LIMIT_DELAY; Batch 7])%list
       ∧ (successCount result + failureCount result = 37)%nat).
Proof.
  intros Hlen Hall (Hperm & Hconfirm & Hidle) Hquiet.
  assert (Hpayloads :
            length (buildPayloads (buildPayload config)
                      (itemArray (items config))) = 37%nat)
    by (rewrite length_buildPayloads by exact Hall; exact Hlen).
  assert (Hschedule :
            schedule 37 0
            = [Batch 15; Sleep CONFIG.RATE_LIMIT_DELAY;
               Batch 15; Sleep CONFIG.RATE_LIMIT_DELAY; Batch 7])
    by reflexivity.
  assert (Hpermitted :
            match permissionCheck config with
            | Some check => negb (check s)
            | None => false
            end = false).
  { destruct (permissionCheck config) as [check|]; [|reflexivity].
    rewrite (Hperm check eq_refl). reflexivity. }
  assert (Hconfirmed :
            Js.truthy (confirmMessage config)
            && negb (confirm (default "" (confirmMessage config))) = false).
  { destruct (Js.truthy (confirmMessage config)); [|reflexivity].
    rewrite (Hconfirm eq_refl). reflexivity. }
  split.
  - unfold Api.executeBulkOperation.
    rewrite Hpermitted, Hconfirmed, Hidle.
    rewrite bool_decide_eq_false_2.
    2:{ unfold Api.itemCount, itemsSize, itemsLength.
        destruct (items config); cbn in Hlen; rewrite Hlen; discriminate. }
    pose proof (tryBody_spec config Hquiet
                  (Api.app (Api.beginOperation now s))) as Hbody.
    cbn zeta in Hbody.
    destruct (Api.tryBody config (Api.app (Api.beginOperation now s)))
      as [result s'].
    destruct Hbody as [Hcount Hpace].
    rewrite Hpayloads in Hcount, Hpace. rewrite Hschedule in Hpace.
    split; [exact Hpace | exact Hcount].
  - intros Hvalues. unfold ApiLegacy.executeBulkOperation.
    rewrite Hpermitted, Hconfirmed, Hidle.
    rewrite andb_false_intro1.
    2:{ apply bool_decide_eq_false_2. unfold itemsSize.
        destruct (items config); cbn in Hlen; [rewrite Hlen|]; discriminate. }
    destruct (legacy_batchLoop_spec config Hquiet Hvalues
                (buildPayloads (buildPayload config)
                   (itemArray (items config)))
                0 (mkTally 0 0 [] (set_operationInProgress true s)))
      as (t & Hrun & Hcount & Hpace).
    rewrite Hrun. eexists _, _. split; [reflexivity|].
    cbn [t_success t_failure t_state] in Hcount, Hpace.
    rewrite Hpayloads in Hcount, Hpace. rewrite Hschedule in Hpace.
    destruct Hquiet as (_ & HupdateCache & _).
    destruct (callWithCounts_spec (updateCache config) t HupdateCache)
      as (Hs2 & Hf2 & Hp2).
    cbn [successCount failureCount]. rewrite Hs2, Hf2.
    split; [|lia].
    change (effects (set_operationInProgress false ?x)) with (effects x).
    rewrite pacing_showFeedback, Hp2. exact Hpace.
Qed.

Lemma bulk_37_items_three_batches_witness :
  (let '(result, run) :=
     Api.executeBulkOperation allFail37 (λ _, true) 1000 initialState in
   pacing (effects (Api.app run))
   = (pacing (effects initialState)
      ++ [Batch 15; Sleep CONFIG.RATE_LIMIT_DELAY;
          Batch 15; Sleep CONFIG.RATE_LIMIT_DELAY; Batch 7])%list
   ∧ (successCount result + failureCount result = 37)%nat)
  ∧ ((∀ pos payload, makeCall allFail37 pos payload ≠ Fulfilled None) ->
     ∃ result s',
       ApiLegacy.executeBulkOperation allFail37 (λ _, true) initialState
       = (Js.Return (Some result), s')
       ∧ pacing (effects s')
         = (pacing (effects initialState)
            ++ [Batch 15; Sleep CONFIG.RATE_LIMIT_DELAY;
                Batch 15; Sleep CONFIG.RATE_LIMIT_DELAY; Batch 7])%list
       ∧ (successCount result + failureCount result = 37)%nat).
Proof.
  apply (bulk_37_items_three_batches allFail37 (λ _, true) 1000
           initialState).
  - reflexivity.
  - intros item _. cbn. eauto.
  - split; [intros check H; discriminate H|].
    split; [intros H; discriminate H | reflexivity].
  - split; [intros f H; discriminate H|].
    split; intros f H; discriminate H.
Defined.

(** ** Further properties: fatal-error boundary, diagnostics and guard *)



Section DiagnosticsFacts.

Lemma includes_view_issue (view : string) :
  Js.includes "Invalid current view"
    ("Invalid current view: " ++ view) = true.
Proof. reflexivity. Qed.

Lemma critical_issues (s : AppState) :
  filter critical (Diagnostics.checkStateConsistency s)
  = if bool_decide (currentView s ∈ ["workspace"; "user"; "admin"])
    then [] else ["Invalid current view: " ++ currentView s].
Proof.
  unfold Diagnostics.checkStateConsistency. rewrite !filter_app.
  assert (Hfixed : ∀ (b : bool) (issue : string),
             (Js.includes "AppState is undefined" issue
              || Js.includes "Invalid current view" issue) = false ->
             filter critical (if b then [issue] else []) = []).
  { intros b issue Hno. destruct b; [|reflexivity].
    rewrite filter_cons_False; [reflexivity|].
    apply orb_false_iff in Hno as [H1 H2].
    unfold critical. rewrite H1, H2. intros [H|H]; discriminate H. }
  rewrite (Hfixed _ "Token expiry set but no access token" eq_refl).
  assert (Hws : filter critical
                  match currentWorkspaceId s with
                  | Some id =>
                      if Js.truthy (Some id)
                         && negb (bool_decide (allWorkspaces s = []))
                         && negb (bool_decide (id ∈ allWorkspaces s))
                      then ["Selected workspace not in workspace list"]
                      else []
                  | None => []
                  end = []).
  { destruct (currentWorkspaceId s) as [id|]; [|reflexivity].
    apply (Hfixed _ "Selected workspace not in workspace list" eq_refl). }
  rewrite Hws.
  rewrite (Hfixed _ "Admin view active but user is not admin" eq_refl).
  rewrite (Hfixed _ "Operation in progress without authentication" eq_refl).
  clear Hws Hfixed. cbn [app]. rewrite app_nil_r.
  destruct (bool_decide (currentView s ∈ ["workspace"; "user"; "admin"]));
    [reflexivity|].
  rewrite filter_cons_True; [reflexivity|].
  right. apply includes_view_issue.
Qed.

End DiagnosticsFacts.

Lemma assertValidState_cases (s : AppState) :
  Diagnostics.assertValidState s
  = if isFrozen s then (false, s)
    else if bool_decide (currentView s ∈ ["workspace"; "user"; "admin"])
    then (true, s)
    else (false,
          FatalError.trigger
            "The application entered an invalid state and cannot continue."
            s).
Proof.
  unfold Diagnostics.assertValidState.
  destruct (isFrozen s); [reflexivity|].
  change (filter _ (Diagnostics.checkStateConsistency s))
    with (filter critical (Diagnostics.checkStateConsistency s)).
  rewrite critical_issues.
  destruct (decide (currentView s ∈ ["workspace"; "user"; "admin"]))
    as [Hview|Hview].
  - rewrite !(bool_decide_eq_true_2 _ Hview).
    rewrite (bool_decide_eq_true_2 ([] = [])) by reflexivity.
    rewrite andb_false_r. reflexivity.
  - rewrite !(bool_decide_eq_false_2 _ Hview).
    rewrite (bool_decide_eq_false_2 ([_] = [])) by discriminate.
    rewrite bool_decide_eq_false_2; [reflexivity|].
    intros Hnone.
    assert (Hin : ("Invalid current view: " ++ currentView s)%string
                  ∈ Diagnostics.checkStateConsistency s).
    { unfold Diagnostics.checkStateConsistency.
      rewrite (bool_decide_eq_false_2 _ Hview).
      rewrite !elem_of_app. right. right. left.
      apply list_elem_of_here. }
    rewrite Hnone in Hin. apply elem_of_nil in Hin. exact Hin.
Qed.

(** X2: [Diagnostics.assertValidState] rejects exactly two situations:
    the application is already frozen, or the current view is not one of
    workspace, user and admin, in which case the fatal-error boundary is
    tripped.  Every other inconsistency (token expiry without token,
    selected workspace missing from the list, admin view without admin
    status, operation without authentication) is let through with the
    state untouched. *)
Theorem assertValidState_escalates_only_on_view (s : AppState) :
  Diagnostics.assertValidState s
  = if isFrozen s then (false, s)
    else if bool_decide (currentView s ∈ ["workspace"; "user"; "admin"])
    then (true, s)
    else (false,
          FatalError.trigger
            "The application entered an invalid state and cannot continue."
            s).
Proof. apply assertValidState_cases. Qed.

(** X3: [ActionGuard.guard] never lets a fatal error out.  Whenever a
    guarded call throws, the error is the one the wrapped action threw on
    the state the guard was entered with, and its message matches none of
    the fatal patterns. *)
Theorem guard_throws_only_nonfatal {A : Type} (actionName : string)
    (action : ActionGuard.Action A) (options : ActionGuard.Options)
    (s s' : AppState) (e : Js.Error) :
  ActionGuard.guard actionName action options s = (Js.Throw e, s') ->
  ActionGuard._isFatalError e = false ∧ action s = (Js.Throw e, s').
Proof.
  unfold ActionGuard.guard.
  rewrite assertValidState_cases.
  destruct (isFrozen s); [discriminate|].
  destruct (operationInProgress s); [discriminate|].
  destruct (ActionGuard.requireAuth options && negb (Js.truthy (accessToken s)));
    [discriminate|].
  destruct (ActionGuard.requireWorkspace options
            && negb (Js.truthy (currentWorkspaceId s))); [discriminate|].
  destruct (ActionGuard.requireAdmin options && negb (isPowerBIAdmin s));
    [discriminate|].
  case_bool_decide; cbn [negb]; [|discriminate].
  destruct (action s) as [[v|e'] s2]; [discriminate|].
  destruct (ActionGuard._isFatalError e') eqn:Hfatal; [discriminate|].
  intros [= <- <-]. split; [exact Hfatal | reflexivity].
Qed.

Lemma guard_throws_only_nonfatal_witness :
  ActionGuard._isFatalError (Js.newError "Permission denied") = false
  ∧ deniedAction signedIn
    = (Js.Throw (Js.newError "Permission denied"), signedIn).
Proof.
  apply (guard_throws_only_nonfatal "removeUser" deniedAction
           ActionGuard.defaultOptions signedIn signedIn
           (Js.newError "Permission denied")).
  reflexivity.
Defined.



(** ** Further properties: error classifier *)

Section ClassifierFacts.

Import ErrorHandler.

(** Every object [mapStatus] returns keeps the two invariants below. *)
Lemma mapStatus_invariants (err : ErrArg) (st : Z) (r : MappedError) :
  mapStatus err st = Some r ->
  retryable r
  = bool_decide (action r = Some "retry" ∨ action r = Some "wait")
  ∧ type r ≠ AUTH_INVALID ∧ type r ≠ FATAL.
Proof.
  unfold mapStatus.
  repeat match goal with
         | |- context [if ?b then _ else _] => destruct b
         end;
    intros [= <-]; repeat split; discriminate.
Qed.

Lemma mapMessage_invariants (err : ErrArg) :
  retryable (mapMessage err)
  = bool_decide (action (mapMessage err) = Some "retry"
                 ∨ action (mapMessage err) = Some "wait")
  ∧ type (mapMessage err) ≠ AUTH_INVALID
  ∧ type (mapMessage err) ≠ FATAL.
Proof.
  unfold mapMessage.
  destruct err as [|str|o]; cbn;
    repeat match goal with
           | |- context [match ?x with Some _ => _ | None => _ end] =>
               destruct x
           | |- context [if ?b then _ else _] => destruct b
           end;
    repeat split; discriminate.
Qed.

Lemma mapError_invariants (onLine : bool) (err : ErrArg) :
  retryable (mapError onLine err)
  = bool_decide (action (mapError onLine err) = Some "retry"
                 ∨ action (mapError onLine err) = Some "wait")
  ∧ type (mapError onLine err) ≠ AUTH_INVALID
  ∧ type (mapError onLine err) ≠ FATAL.
Proof.
  unfold mapError.
  destruct (bool_decide (nameOf err = Some "AbortError"));
    [repeat split; discriminate|].
  destruct (bool_decide (nameOf err = Some "TypeError") && _);
    [repeat split; discriminate|].
  destruct (negb onLine); [repeat split; discriminate|].
  destruct (statusOf err) as [st|]; [|apply mapMessage_invariants].
  destruct (Js.truthyZ st); [|apply mapMessage_invariants].
  destruct (mapStatus err st) as [r|] eqn:Hr;
    [|apply mapMessage_invariants].
  apply (mapStatus_invariants err st r Hr).
Qed.

End ClassifierFacts.


(** X6: [mapError] never classifies anything as [auth_invalid] or
    [fatal]: these two members of [ErrorType] are produced by no branch
    of the classifier. *)
Theorem mapError_never_auth_invalid_or_fatal (onLine : bool)
    (err : ErrorHandler.ErrArg) :
  ErrorHandler.type (ErrorHandler.mapError onLine err)
  ≠ ErrorHandler.AUTH_INVALID
  ∧ ErrorHandler.type (ErrorHandler.mapError onLine err)
    ≠ ErrorHandler.FATAL.
Proof. apply mapError_invariants. Qed.

(** X7: the offline check comes before the status switch.  While
    [navigator.onLine] is false, any argument without a [name] (a
    response, a plain object, a string) is classified as a retryable
    network error, whatever its status: a 401 or 403 received while
    offline is not reported as an authentication or permission error. *)
Theorem mapError_offline_wins (err : ErrorHandler.ErrArg) :
  ErrorHandler.nameOf err = None ->
  ErrorHandler.mapError false err
  = ErrorHandler.mkMapped ErrorHandler.NETWORK
      "You appear to be offline. Please check your connection."
      true (Some "retry").
Proof.
  intros Hname. unfold ErrorHandler.mapError. rewrite Hname. reflexivity.
Qed.

Lemma mapError_offline_wins_witness :
  ErrorHandler.mapError false
    (ErrorHandler.ErrObj
       (ErrorHandler.mkErrObject None None (Some 401) None None))
  = ErrorHandler.mkMapped ErrorHandler.NETWORK
      "You appear to be offline. Please check your connection."
      true (Some "retry").
Proof.
  apply (mapError_offline_wins
           (ErrorHandler.ErrObj
              (ErrorHandler.mkErrObject None None (Some 401) None None))).
  reflexivity.
Defined.

(** ** Further properties: token validity *)

(** X8: [checkTokenValidity] answers [valid] exactly when there is an
    access token and either no expiry is recorded or the expiry lies in
    the future with at least [minMinutes] full minutes left, that is at
    least [60000 * minMinutes] milliseconds. *)
Theorem checkTokenValidity_valid_iff (minMinutes now : Z) (s : AppState) :
  Permissions.valid (Permissions.checkTokenValidity minMinutes now s) = true
  ↔ Js.truthy (accessToken s) = true
    ∧ (Js.truthyNum (tokenExpiry s) = false
       ∨ ∃ expiry, tokenExpiry s = Some expiry
                   ∧ now < expiry
                   ∧ 60000 * minMinutes ≤ expiry - now).
Proof.
  unfold Permissions.checkTokenValidity.
  destruct (Js.truthy (accessToken s)); cbn [negb].
  2:{ cbn. split; [discriminate | intros [H _]; discriminate H]. }
  destruct (tokenExpiry s) as [expiry|] eqn:Hexp; cbn [Js.truthyNum].
  2:{ cbn. split; [intros _; split; [reflexivity | left; reflexivity]
                  | reflexivity]. }
  destruct (Js.truthyZ expiry) eqn:Hnz; cbn [negb default].
  2:{ cbn. split; [intros _; split; [reflexivity | left; reflexivity]
                  | reflexivity]. }
  assert (Hdiv : ∀ x, x / 60000 < minMinutes ↔ x < 60000 * minMinutes).
  { intros x.
    pose proof (Z.div_mod x 60000 ltac:(lia)) as Hquot.
    pose proof (Z.mod_pos_bound x 60000 ltac:(lia)) as Hrem.
    split; intros H; lia. }
  cbn -[Z.div Z.leb Z.ltb Z.sub pretty].
  destruct (expiry - now <=? 0) eqn:Hle;
    [apply Z.leb_le in Hle | apply Z.leb_gt in Hle; rename Hle into Hgt];
    cbn -[Z.div Z.leb Z.ltb Z.sub pretty].
  - split; [discriminate|].
    intros (_ & [H | (e & [= <-] & Hnow & _)]); [discriminate H | lia].
  - destruct ((expiry - now) / 60000 <? minMinutes) eqn:Hlt;
      [apply Z.ltb_lt in Hlt | apply Z.ltb_ge in Hlt; rename Hlt into Hge];
      cbn -[Z.div Z.sub pretty].
    + split; [discriminate|].
      intros (_ & [H | (e & [= <-] & _ & Hmin)]); [discriminate H|].
      apply Hdiv in Hlt. lia.
    + split; [|reflexivity]. intros _. split; [reflexivity|]. right.
      exists expiry. repeat split; [lia|].
      destruct (Z.lt_ge_cases (expiry - now) (60000 * minMinutes))
        as [Hbad|Hok]; [|exact Hok].
      apply Hdiv in Hbad. lia.
Qed.

(** X9: the [minutesRemaining] that [checkTokenValidity] reports is
    never negative, whatever the clock and the recorded expiry are. *)
Theorem checkTokenValidity_minutes_nonnegative (minMinutes now : Z)
    (s : AppState) :
  0 ≤ Permissions.minutesRemaining
        (Permissions.checkTokenValidity minMinutes now s).
Proof.
  unfold Permissions.checkTokenValidity.
  destruct (negb (Js.truthy (accessToken s))); [cbn; lia|].
  destruct (negb (Js.truthyNum (tokenExpiry s))); [cbn; lia|].
  cbv zeta.
  destruct (default 0 (tokenExpiry s) - now <=? 0) eqn:Hle; [cbn; lia|].
  apply Z.leb_gt in Hle.
  assert (0 ≤ (default 0 (tokenExpiry s) - now) / 60000)
    by (apply Z.div_pos; lia).
  destruct (Z.ltb _ minMinutes); cbn -[Z.div Z.sub pretty]; assumption.
Qed.

(** ** Further properties: HTML escaping *)

Section EscapeFacts.

Lemma chars_app (a b : string) :
  String.list_ascii_of_string (a ++ b)
  = (String.list_ascii_of_string a ++ String.list_ascii_of_string b)%list.
Proof.
  induction a as [|c a IH]; [reflexivity|].
  change (String.list_ascii_of_string (String c (a ++ b))
          = (c :: String.list_ascii_of_string a ++ String.list_ascii_of_string b)%list).
  cbn [String.list_ascii_of_string]. rewrite IH. reflexivity.
Qed.

(** The image of a character: one of the five entities, or the
    character itself when it is not special. *)
Lemma escapeChar_cases (c : ascii) :
  (c = "&"%char ∧ Utils.escapeChar c = "&amp;")
  ∨ (c = "<"%char ∧ Utils.escapeChar c = "&lt;")
  ∨ (c = ">"%char ∧ Utils.escapeChar c = "&gt;")
  ∨ (c = "034"%char ∧ Utils.escapeChar c = "&quot;")
  ∨ (c = "'"%char ∧ Utils.escapeChar c = "&#039;")
  ∨ (isSpecial c = false ∧ Utils.escapeChar c = String c EmptyString).
Proof.
  unfold Utils.escapeChar, isSpecial.
  destruct (Ascii.eqb_spec c "&"); [subst; auto|].
  destruct (Ascii.eqb_spec c "<"); [subst; auto 6|].
  destruct (Ascii.eqb_spec c ">"); [subst; auto 6|].
  destruct (Ascii.eqb_spec c "034"); [subst; auto 6|].
  destruct (Ascii.eqb_spec c "'"); [subst; auto 7|].
  auto 8.
Qed.

Lemma special_not_markup (c : ascii) :
  isSpecial c = false -> isMarkup c = false.
Proof.
  unfold isSpecial, isMarkup.
  destruct (Ascii.eqb c "&"); [discriminate|]. intros H. exact H.
Qed.

Lemma escapeChar_safe (c : ascii) :
  Forall (λ d, isMarkup d = false)
    (String.list_ascii_of_string (Utils.escapeChar c)).
Proof.
  destruct (escapeChar_cases c)
    as [[_ ->]|[[_ ->]|[[_ ->]|[[_ ->]|[[_ ->]|[Hc ->]]]]]];
    try (repeat constructor).
  apply special_not_markup. exact Hc.
Qed.

(** Escaping never shortens, and lengthens a text that starts with a
    special character. *)
Lemma escapeHtml_length (text : string) :
  (String.length text ≤ String.length (Utils.escapeHtml text))%nat.
Proof.
  induction text as [|c text IH]; [reflexivity|].
  cbn [Utils.escapeHtml]. rewrite string_length_app.
  destruct (escapeChar_cases c)
    as [[_ ->]|[[_ ->]|[[_ ->]|[[_ ->]|[[_ ->]|[_ ->]]]]]];
    cbn [String.length]; lia.
Qed.

End EscapeFacts.

(** X10: the output of [escapeHtml] contains no less-than sign, no
    greater-than sign and no single or double quote, whatever the input:
    escaped text cannot open or close a tag or an attribute value. *)
Theorem escapeHtml_no_markup (text : string) :
  Forall (λ c, isMarkup c = false)
    (String.list_ascii_of_string (Utils.escapeHtml text)).
Proof.
  induction text as [|c text IH]; [constructor|].
  cbn [Utils.escapeHtml]. rewrite chars_app.
  apply Forall_app. split; [apply escapeChar_safe | exact IH].
Qed.

(** X11: [escapeHtml] loses no information: two texts with the same
    escaped form are the same text. *)
Theorem escapeHtml_injective (a b : string) :
  Utils.escapeHtml a = Utils.escapeHtml b -> a = b.
Proof.
  revert b. induction a as [|c a IH]; intros [|d b] H.
  - reflexivity.
  - cbn [Utils.escapeHtml] in H.
    destruct (escapeChar_cases d)
      as [[_ Hd]|[[_ Hd]|[[_ Hd]|[[_ Hd]|[[_ Hd]|[_ Hd]]]]]];
      rewrite Hd in H; cbn in H; discriminate H.
  - cbn [Utils.escapeHtml] in H.
    destruct (escapeChar_cases c)
      as [[_ Hc]|[[_ Hc]|[[_ Hc]|[[_ Hc]|[[_ Hc]|[_ Hc]]]]]];
      rewrite Hc in H; cbn in H; discriminate H.
  - cbn [Utils.escapeHtml] in H.
    destruct (escapeChar_cases c)
      as [[-> Hc]|[[-> Hc]|[[-> Hc]|[[-> Hc]|[[-> Hc]|[Hc' Hc]]]]]];
      destruct (escapeChar_cases d)
        as [[-> Hd]|[[-> Hd]|[[-> Hd]|[[-> Hd]|[[-> Hd]|[Hd' Hd]]]]]];
      rewrite ?Hc, ?Hd in H; cbn in H; try discriminate H;
      inversion H; subst;
      try (vm_compute in Hc'; discriminate Hc');
      try (vm_compute in Hd'; discriminate Hd');
      f_equal; apply IH; assumption.
Qed.

Lemma escapeHtml_injective_witness : "<b>Tom & Jerry</b>" = "<b>Tom & Jerry</b>".
Proof.
  apply (escapeHtml_injective "<b>Tom & Jerry</b>" "<b>Tom & Jerry</b>").
  reflexivity.
Defined.

(** X12: [escapeHtml] returns its argument unchanged exactly when the
    argument contains none of the five special characters. *)
Theorem escapeHtml_identity_iff (text : string) :
  Utils.escapeHtml text = text
  ↔ Forall (λ c, isSpecial c = false) (String.list_ascii_of_string text).
Proof.
  induction text as [|c text IH]; [split; [constructor | reflexivity]|].
  cbn [Utils.escapeHtml String.list_ascii_of_string]. rewrite Forall_cons.
  destruct (escapeChar_cases c)
    as [[-> Hc]|[[-> Hc]|[[-> Hc]|[[-> Hc]|[[-> Hc]|[Hc' Hc]]]]]];
    rewrite Hc.
  1-5: split;
    [ intros H; apply (f_equal String.length) in H;
      rewrite string_length_app in H; cbn [String.length] in H;
      pose proof (escapeHtml_length text); lia
    | intros [Hs _]; vm_compute in Hs; discriminate Hs ].
  split.
  - intros H. cbn in H. injection H as H. split; [exact Hc'|].
    apply IH. exact H.
  - intros [_ H]. cbn. f_equal. apply IH. exact H.
Qed.

(** ** Further properties: sessions, reconciliation and background sync *)

Section SessionFacts.

Implicit Types (s : AppState) (ws : string) (R : Cache.Remote).

Lemma requests_app (l1 l2 : list Effect) :
  requests (l1 ++ l2) = (requests l1 ++ requests l2)%list.
Proof. apply filter_app. Qed.

Lemma requests_noRequest (log : list Effect) :
  noRequest log -> requests log = [].
Proof.
  unfold requests. induction 1 as [|e log He _ IH]; [reflexivity|].
  rewrite filter_cons, IH.
  destruct e; try reflexivity. destruct (He url eq_refl).
Qed.

(** What both [signOut] functions leave of the fields of a session. *)
Lemma signOut_fields s :
  let out := (AuthLegacy.signOut s, Auth.signOut s) in
  (accessToken (fst out) = None ∧ accessToken (snd out) = None)
  ∧ (workspaceUserMap (fst out) = ∅ ∧ workspaceUserMap (snd out) = ∅)
  ∧ (knownUsers (fst out) = ∅ ∧ knownUsers (snd out) = ∅)
  ∧ (workspaceCacheTTL (fst out) = workspaceCacheTTL s
     ∧ workspaceCacheTTL (snd out) = workspaceCacheTTL s)
  ∧ (dirtyWorkspaces (fst out) = dirtyWorkspaces s
     ∧ dirtyWorkspaces (snd out) = dirtyWorkspaces s).
Proof. repeat split. Qed.

(** With an expired session [apiCall] signs out and throws, whatever the
    remote side would have answered. *)
Lemma apiCall_expired api R (n : nat) (url : string) s :
  sessionExpired (Cache.callTime R n) s ->
  ∃ e s', Cache.apiCall api R n url s = (Js.Throw e, s')
          ∧ accessToken s' = None
          ∧ workspaceUserMap s' = ∅
          ∧ knownUsers s' = ∅
          ∧ workspaceCacheTTL s' = workspaceCacheTTL s.
Proof.
  intros (Htoken & Hexpiry & Hlate).
  assert (Hlt : Z.ltb (default 0 (tokenExpiry s)) (Cache.callTime R n)
                = true) by (apply Z.ltb_lt; exact Hlate).
  assert (Hsoon : Z.ltb (default 0 (tokenExpiry s) - 60000)
                    (Cache.callTime R n) = true)
    by (apply Z.ltb_lt; lia).
  destruct api; unfold Cache.apiCall, ApiLegacy.call, Api.call; cbn zeta;
    rewrite Htoken, Hexpiry, ?Hsoon, Hlt; cbn [negb andb];
    eexists _, _; repeat split.
Qed.

(** With a valid session [apiCall] passes on what [fetch] returns, or
    throws when [fetch] rejects, and leaves the cache alone. *)
Lemma apiCall_valid api R (n : nat) (url : string) s :
  sessionValid (Cache.callTime R n) s ->
  ∃ s', snd (Cache.apiCall api R n url s) = s'
        ∧ match Cache.fetch R n url with
          | Js.Return r => fst (Cache.apiCall api R n url s) = Js.Return r
          | Js.Throw _ => ∃ e, fst (Cache.apiCall api R n url s) = Js.Throw e
          end
        ∧ workspaceUserMap s' = workspaceUserMap s
        ∧ workspaceCacheTTL s' = workspaceCacheTTL s
        ∧ knownUsers s' = knownUsers s
        ∧ currentWorkspaceId s' = currentWorkspaceId s
        ∧ allUsers s' = allUsers s.
Proof.
  intros [Htoken Hvalid]. eexists. split; [reflexivity|].
  destruct api; unfold Cache.apiCall, ApiLegacy.call, Api.call; cbn zeta;
    rewrite Htoken; cbn [negb].
  - rewrite Hvalid. destruct (Cache.fetch R n url);
      repeat split; eauto.
  - destruct (Js.truthyNum (tokenExpiry s)) eqn:Hexpiry;
      cbn [andb] in Hvalid |- *.
    + rewrite Hvalid.
      destruct (Z.ltb (default 0 (tokenExpiry s) - 60000)
                  (Cache.callTime R n));
        cbn [andb]; destruct (Cache.fetch R n url);
        try destruct (ErrorHandler.retryable _);
        repeat split; eauto.
    + destruct (Cache.fetch R n url);
        try destruct (ErrorHandler.retryable _);
        repeat split; eauto.
Qed.

(** The requests of the loop over [l], in order. *)
Lemma refreshEach_requests_in_order api R (l : list string) s :
  requests (effects (Cache.refreshEach api R l s))
  = (requests (effects s)
     ++ map (λ w, Request (Cache.membershipUrl w)) l)%list.
Proof.
  revert s. induction l as [|w l IH]; intros s; cbn [Cache.refreshEach map].
  - rewrite app_nil_r. reflexivity.
  - rewrite IH.
    destruct (refreshSingleWorkspace_frame api R w s)
      as (extra & -> & Hextra & _).
    change (Request (Cache.membershipUrl w) :: extra)
      with ([Request (Cache.membershipUrl w)] ++ extra)%list.
    rewrite !requests_app, (requests_noRequest extra Hextra), app_nil_r,
      <- app_assoc.
    reflexivity.
Qed.

End SessionFacts.

(** X13: the requests of a flush are the membership requests of the
    dirty workspaces, one each, in the order in which the workspaces were
    marked; no request is made for any other workspace, whichever API
    module is loaded and whatever the requests do. *)
Theorem flush_requests_each_dirty_workspace (api : Cache.ApiModule)
    (R : Cache.Remote) (s : AppState) :
  requests (effects (Cache.refreshDirtyWorkspaces api R s))
  = (requests (effects s)
     ++ map (λ w, Request (Cache.membershipUrl w)) (dirtyWorkspaces s))%list.
Proof.
  unfold Cache.refreshDirtyWorkspaces. case_bool_decide as Hempty.
  - rewrite Hempty. cbn. rewrite app_nil_r. reflexivity.
  - rewrite refreshEach_requests_in_order. reflexivity.
Qed.

(** X14: reconciliation wins over optimistic state.  After an optimistic
    add, a refresh of the workspace made with a valid session and
    answered with a list replaces the cached list by exactly the fetched
    list, restarts the deadline from the time of the answer, and, when
    the workspace is the current one, replaces the displayed list as
    well. *)
Theorem refresh_replaces_optimistic_state (api : Cache.ApiModule)
    (R : Cache.Remote) (ws : string) (user : UserInput) (role : Js.str)
    (now : Z) (users : list User) (s : AppState) :
  sessionValid (Cache.callTime R (length (effects s))) s ->
  Cache.fetch R (length (effects s)) (Cache.membershipUrl ws)
  = Js.Return (Cache.RespOk (Some users)) ->
  let refreshed :=
    Cache.refreshSingleWorkspace api R ws
      (Cache.optimisticAddUser ws user role now s) in
  workspaceUserMap refreshed !! ws = Some users
  ∧ workspaceCacheTTL refreshed !! ws
    = Some (Cache.dateNow R (length (effects s)) + CONFIG.CACHE_TTL)
  ∧ allUsers refreshed
    = if bool_decide (currentWorkspaceId s = Some ws) then users
      else allUsers s.
Proof.
  intros Hvalid Hfetch refreshed. subst refreshed.
  unfold Cache.refreshSingleWorkspace. cbn zeta.
  change (effects (Cache.optimisticAddUser ws user role now s))
    with (effects s).
  set (s0 := emit _ (Cache.optimisticAddUser ws user role now s)).
  destruct (apiCall_valid api R (length (effects s))
              (Cache.membershipUrl ws) s0 Hvalid)
    as (s1 & Hs1 & Hfst & _ & _ & _ & Hcurrent & Hall).
  rewrite Hfetch in Hfst.
  destruct (Cache.apiCall api R _ _ s0) as [c s1'].
  cbn [fst snd] in Hfst, Hs1. subst c s1'. cbn [default].
  change (currentWorkspaceId (set_knownUsers _ _))
    with (currentWorkspaceId s1).
  rewrite Hcurrent.
  change (currentWorkspaceId s0) with (currentWorkspaceId s).
  case_bool_decide; cbn; rewrite !lookup_insert_eq; repeat split.
  exact Hall.
Qed.

Lemma refresh_replaces_optimistic_state_witness :
  let R := Cache.mkRemote (λ _ _, Js.Return (Cache.RespOk (Some [alice])))
             (λ _, 7000) (λ _, true) (λ _, 7000) in
  let refreshed :=
    Cache.refreshSingleWorkspace Cache.WatchdogApi R "W1"
      (Cache.optimisticAddUser "W1"
         (mkUserInput (Some "bob@contoso.com") None None None)
         (Some "Member") 5000 signedIn) in
  workspaceUserMap refreshed !! "W1" = Some [alice]
  ∧ workspaceCacheTTL refreshed !! "W1" = Some (7000 + CONFIG.CACHE_TTL)
  ∧ allUsers refreshed
    = if bool_decide (currentWorkspaceId signedIn = Some "W1") then [alice]
      else allUsers signedIn.
Proof.
  apply (refresh_replaces_optimistic_state Cache.WatchdogApi
           (Cache.mkRemote (λ _ _, Js.Return (Cache.RespOk (Some [alice])))
              (λ _, 7000) (λ _, true) (λ _, 7000))
           "W1" (mkUserInput (Some "bob@contoso.com") None None None)
           (Some "Member") 5000 [alice] signedIn).
  - split; reflexivity.
  - reflexivity.
Defined.

(** X15: a background-sync tick either does nothing or refreshes the
    current workspace with a single request; it refreshes only when no
    role change is pending, cache building is not paused, no operation is
    in progress, the current workspace is not dirty and its cache entry
    is expired. *)
Theorem backgroundSync_interlocks (api : Cache.ApiModule) (R : Cache.Remote)
    (pendingRoleChanges : nat) (cacheBuildingPaused : bool) (now : Z)
    (s : AppState) :
  let synced :=
    Cache.backgroundSync api R pendingRoleChanges cacheBuildingPaused now s
  in
  synced = s
  ∨ ∃ ws, currentWorkspaceId s = Some ws
          ∧ pendingRoleChanges = O ∧ cacheBuildingPaused = false
          ∧ operationInProgress s = false
          ∧ (ws ∉ dirtyWorkspaces s)
          ∧ Cache.isCacheExpired ws now s = true
          ∧ requests (effects synced)
            = (requests (effects s)
               ++ [Request (Cache.membershipUrl ws)])%list.
Proof.
  cbn zeta. unfold Cache.backgroundSync.
  case_bool_decide as Hpending; [left; reflexivity|].
  destruct (currentWorkspaceId s) as [ws|] eqn:Hws;
    [|left; destruct (cacheBuildingPaused || operationInProgress s);
      reflexivity].
  case_bool_decide as Hdirty; [left; reflexivity|].
  destruct cacheBuildingPaused; [left; reflexivity|].
  destruct (operationInProgress s); [left; reflexivity|]. cbn [orb].
  destruct (negb (Js.truthy (Some ws))); [left; reflexivity|].
  destruct (Cache.isCacheExpired ws now s) eqn:Hexpired;
    [|left; reflexivity].
  right. exists ws. repeat split; try assumption; try lia.
  apply (refreshEach_requests_in_order api R [ws] s).
Qed.

(** X16: a refresh that fails with a valid session leaves the membership
    cache as it was: when [API.call] lets the request through and the
    fetch is rejected, or the response is not ok, or its body is not
    JSON, the cached lists, the deadlines and the known users are
    unchanged. *)
Theorem failed_refresh_keeps_cache (api : Cache.ApiModule)
    (R : Cache.Remote) (ws : string) (s : AppState) :
  sessionValid (Cache.callTime R (length (effects s))) s ->
  fetchFailed (Cache.fetch R (length (effects s)) (Cache.membershipUrl ws)) ->
  let refreshed := Cache.refreshSingleWorkspace api R ws s in
  workspaceUserMap refreshed = workspaceUserMap s
  ∧ workspaceCacheTTL refreshed = workspaceCacheTTL s
  ∧ knownUsers refreshed = knownUsers s.
Proof.
  intros Hvalid Hfailed refreshed. subst refreshed.
  unfold Cache.refreshSingleWorkspace. cbn zeta.
  set (s0 := emit _ s).
  destruct (apiCall_valid api R (length (effects s))
              (Cache.membershipUrl ws) s0 Hvalid)
    as (s1 & Hs1 & Hfst & Hmap & Httl & Hknown & _).
  destruct (Cache.apiCall api R _ _ s0) as [c s1'].
  cbn [fst snd] in Hfst, Hs1. subst s1'.
  destruct (Cache.fetch R _ _) as [[status| |value]|e0];
    [subst c .. | destruct Hfst as [e ->]];
    try contradiction; repeat split; assumption.
Qed.

Lemma failed_refresh_keeps_cache_witness :
  let refreshed :=
    Cache.refreshSingleWorkspace Cache.WatchdogApi remoteDown "W1" dirtyW1 in
  workspaceUserMap refreshed = workspaceUserMap dirtyW1
  ∧ workspaceCacheTTL refreshed = workspaceCacheTTL dirtyW1
  ∧ knownUsers refreshed = knownUsers dirtyW1.
Proof.
  apply (failed_refresh_keeps_cache Cache.WatchdogApi remoteDown "W1"
           dirtyW1).
  - split; reflexivity.
  - exact I.
Defined.

(** X17: a refresh attempted with an expired session signs the user
    out instead of fetching: whatever the remote side would answer, the
    token and every cached list are gone afterwards, so no read of the
    cache is a hit; the deadlines and the dirty set are not reset. *)
Theorem expired_session_refresh_signs_out (api : Cache.ApiModule)
    (R : Cache.Remote) (ws : string) (s : AppState) :
  sessionExpired (Cache.callTime R (length (effects s))) s ->
  let refreshed := Cache.refreshSingleWorkspace api R ws s in
  accessToken refreshed = None
  ∧ workspaceUserMap refreshed = ∅
  ∧ (∀ ws' now, Cache.cacheHit ws' now refreshed = false)
  ∧ workspaceCacheTTL refreshed = workspaceCacheTTL s
  ∧ dirtyWorkspaces refreshed = dirtyWorkspaces s.
Proof.
  intros Hexpired refreshed.
  assert (Hdirty : dirtyWorkspaces refreshed = dirtyWorkspaces s).
  { subst refreshed.
    destruct (refreshSingleWorkspace_frame api R ws s) as (_ & _ & _ & H).
    exact H. }
  subst refreshed. revert Hdirty.
  unfold Cache.refreshSingleWorkspace. cbn zeta.
  set (s0 := emit _ s).
  destruct (apiCall_expired api R (length (effects s))
              (Cache.membershipUrl ws) s0 Hexpired)
    as (e & s1 & -> & Htoken & Hmap & _ & Httl).
  intros Hdirty. repeat split; try assumption.
  intros ws' now. unfold Cache.cacheHit. rewrite Hmap, lookup_empty.
  rewrite bool_decide_eq_false_2; [reflexivity|].
  intros [x Hx]. discriminate Hx.
Qed.

Lemma expired_session_refresh_signs_out_witness :
  let R := Cache.mkRemote (λ _ _, Js.Return (Cache.RespOk (Some [alice])))
             (λ _, 3600001) (λ _, true) (λ _, 3600002) in
  let refreshed :=
    Cache.refreshSingleWorkspace Cache.JsApi R "W1" dirtyW1 in
  accessToken refreshed = None
  ∧ workspaceUserMap refreshed = ∅
  ∧ (∀ ws' now, Cache.cacheHit ws' now refreshed = false)
  ∧ workspaceCacheTTL refreshed = workspaceCacheTTL dirtyW1
  ∧ dirtyWorkspaces refreshed = dirtyWorkspaces dirtyW1.
Proof.
  apply (expired_session_refresh_signs_out Cache.JsApi
           (Cache.mkRemote (λ _ _, Js.Return (Cache.RespOk (Some [alice])))
              (λ _, 3600001) (λ _, true) (λ _, 3600002))
           "W1" dirtyW1).
  split; [reflexivity | split; [reflexivity | cbn; lia]].
Defined.

(** X18: [API.call] of either module hands back a response exactly when
    the session is valid at the time of the call and [fetch] returned
    that response: without a token, or with an expired one, it throws
    whatever the remote side would answer, and a rejected [fetch] never
    becomes a response. *)
Theorem call_returns_iff_valid_session {A : Type} (online : bool)
    (now : Z) (fetched : Js.Completion A) (s : AppState) (response : A) :
  (fst (ApiLegacy.call now fetched s) = Js.Return response
   ↔ sessionValid now s ∧ fetched = Js.Return response)
  ∧ (fst (Api.call online now fetched s) = Js.Return response
     ↔ sessionValid now s ∧ fetched = Js.Return response).
Proof.
  unfold sessionValid, ApiLegacy.call, Api.call. cbn zeta.
  destruct (Js.truthy (accessToken s)); cbn [negb fst].
  2:{ split; (split; [discriminate | intros [[H _] _]; discriminate H]). }
  set (expired := Js.truthyNum (tokenExpiry s)
                  && Z.ltb (default 0 (tokenExpiry s)) now).
  assert (Hexpired :
            Js.truthyNum (tokenExpiry s)
            && Z.ltb (default 0 (tokenExpiry s) - 60000) now
            && Z.ltb (default 0 (tokenExpiry s)) now = expired).
  { subst expired. destruct (Js.truthyNum (tokenExpiry s)); cbn [andb];
      [|reflexivity].
    destruct (Z.ltb_spec (default 0 (tokenExpiry s)) now) as [Hlate|Hok];
      [|apply andb_false_r].
    rewrite (proj2 (Z.ltb_lt _ _)) by lia. reflexivity. }
  rewrite Hexpired. destruct expired; cbn [fst].
  - split; (split; [discriminate | intros [[_ H] _]; discriminate H]).
  - split.
    + split; [intros ->; repeat split | intros [_ ->]; reflexivity].
    + destruct (Js.truthyNum (tokenExpiry s)
                && Z.ltb (default 0 (tokenExpiry s) - 60000) now);
        destruct fetched as [r|e]; cbn [fst];
        (split;
         [ intros H; (discriminate H || (rewrite H; repeat split))
         | intros [_ H]; (discriminate H || exact H) ]).
Qed.

(** ** Further properties: cache helpers and optimistic writes *)

Section HelperFacts.

Implicit Types (users : list User) (id : string).

Lemma spliceFirst_Some id users users' :
  Cache.spliceFirst id users = Some users' ->
  length users = S (length users')
  ∧ ∃ before u after,
      users = (before ++ u :: after)%list ∧ users' = (before ++ after)%list
      ∧ identifier u = Some id
      ∧ Forall (λ v, identifier v ≠ Some id) before.
Proof.
  revert users'. induction users as [|u users IH]; intros users' H;
    [discriminate H|].
  cbn in H. case_bool_decide as Hid.
  - injection H as <-. split; [reflexivity|].
    exists [], u, users. repeat split; [exact Hid | constructor].
  - destruct (Cache.spliceFirst id users) as [rest|]; [|discriminate H].
    injection H as <-. destruct (IH rest eq_refl)
      as (Hlen & before & v & after & -> & -> & Hv & Hbefore).
    split; [cbn; rewrite Hlen; reflexivity|].
    exists (u :: before), v, after. repeat split; [exact Hv|].
    constructor; assumption.
Qed.

Lemma spliceFirst_None id users :
  Cache.spliceFirst id users = None
  ↔ Forall (λ v, identifier v ≠ Some id) users.
Proof.
  induction users as [|u users IH]; [split; [constructor | reflexivity]|].
  cbn. rewrite Forall_cons. case_bool_decide as Hid.
  - split; [discriminate | intros [Hne _]; contradiction].
  - destruct (Cache.spliceFirst id users) as [rest|]; cbn.
    + split; [discriminate|]. intros [_ H]. apply IH in H. discriminate H.
    + split; [|reflexivity]. intros _. split; [exact Hid|].
      apply IH. reflexivity.
Qed.

Lemma filter_none_matching id users :
  Forall (λ v, identifier v ≠ Some id) users ->
  filter (λ u, identifier u ≠ Some id) users = users.
Proof.
  induction 1 as [|u users Hu _ IH]; [reflexivity|].
  rewrite filter_cons_True by exact Hu. rewrite IH. reflexivity.
Qed.

End HelperFacts.

(** X19: [removeUserFromCache] reports whether a record with the
    identifier was cached.  If so, it removes the first such record and
    only that one, keeping the order of the others; if not, or if the
    workspace has no entry, it returns false and changes nothing.  The
    deadline of the entry is never touched. *)
Theorem removeUserFromCache_removes_first (ws id : string) (s : AppState) :
  let '(found, s') := Cache.removeUserFromCache ws id s in
  workspaceCacheTTL s' = workspaceCacheTTL s
  ∧ match workspaceUserMap s !! ws with
    | None => found = false ∧ s' = s
    | Some users =>
        if found then
          ∃ before u after,
            users = (before ++ u :: after)%list
            ∧ identifier u = Some id
            ∧ Forall (λ v, identifier v ≠ Some id) before
            ∧ workspaceUserMap s' !! ws = Some (before ++ after)%list
        else Forall (λ v, identifier v ≠ Some id) users ∧ s' = s
    end.
Proof.
  unfold Cache.removeUserFromCache.
  destruct (workspaceUserMap s !! ws) as [users|] eqn:Hget;
    [|repeat split].
  destruct (Cache.spliceFirst id users) as [users'|] eqn:Hsplice.
  - split; [reflexivity|].
    destruct (spliceFirst_Some id users users' Hsplice)
      as (_ & before & u & after & -> & -> & Hu & Hbefore).
    exists before, u, after. repeat split; try assumption.
    cbn. apply lookup_insert_eq.
  - split; [reflexivity|]. split; [|reflexivity].
    apply spliceFirst_None. exact Hsplice.
Qed.

(** X20: the cache helpers [updateUserInCache], [removeUserFromCache]
    and [addUserToCache] work on existing entries only: none of them
    changes a deadline, and none creates an entry for a workspace that
    has none (unlike the optimistic writes). *)
Theorem cache_helpers_keep_deadlines_and_entries (ws id : string)
    (updates : Cache.UserUpdates) (user : User) (s : AppState) :
  let updated := snd (Cache.updateUserInCache ws id updates s) in
  let removed := snd (Cache.removeUserFromCache ws id s) in
  let added := Cache.addUserToCache ws user s in
  (workspaceCacheTTL updated = workspaceCacheTTL s
   ∧ dom (workspaceUserMap updated) = dom (workspaceUserMap s))
  ∧ (workspaceCacheTTL removed = workspaceCacheTTL s
     ∧ dom (workspaceUserMap removed) = dom (workspaceUserMap s))
  ∧ (workspaceCacheTTL added = workspaceCacheTTL s
     ∧ dom (workspaceUserMap added) = dom (workspaceUserMap s)).
Proof.
  cbn zeta.
  unfold Cache.updateUserInCache, Cache.removeUserFromCache,
    Cache.addUserToCache.
  destruct (workspaceUserMap s !! ws) as [users|] eqn:Hget;
    [|repeat split].
  assert (Hdom : ∀ users',
             dom (<[ws := users']> (workspaceUserMap s))
             = dom (workspaceUserMap s)).
  { intros users'. rewrite dom_insert_L.
    apply subseteq_union_1_L, singleton_subseteq_l.
    apply elem_of_dom_2 in Hget. exact Hget. }
  destruct (Cache.assignFirst id updates users);
    destruct (Cache.spliceFirst id users); cbn;
    repeat split; try reflexivity; apply Hdom.
Qed.

(** X21: an optimistic add followed by an optimistic remove of the same
    identifier gives back the cached list as it was, provided no cached
    record had that identifier before.  The entry added to the known
    users is not taken back. *)
Theorem optimistic_add_then_remove (ws id : string) (user : UserInput)
    (role : Js.str) (now1 now2 : Z) (s : AppState) :
  Js.or (in_identifier user) (in_email user) = Some id ->
  Forall (λ u, identifier u ≠ Some id) (Cache.cachedUsers ws s) ->
  let s' :=
    Cache.optimisticRemoveUser ws id now2
      (Cache.optimisticAddUser ws user role now1 s) in
  workspaceUserMap s' !! ws = Some (Cache.cachedUsers ws s)
  ∧ knownUsers s' !! Some id = Some (Cache.newUser user role).
Proof.
  intros Hid Hfresh s'. subst s'.
  set (added := Cache.optimisticAddUser ws user role now1 s).
  assert (Hcached : Cache.cachedUsers ws added
                    = (Cache.cachedUsers ws s
                       ++ [Cache.newUser user role])%list).
  { unfold Cache.cachedUsers at 1, added, Cache.optimisticAddUser.
    cbn [workspaceUserMap set_knownUsers].
    rewrite setCacheWithTTL_users, lookup_insert_eq. reflexivity. }
  unfold Cache.optimisticRemoveUser. rewrite Hcached.
  rewrite setCacheWithTTL_users, lookup_insert_eq.
  rewrite filter_app, filter_none_matching by exact Hfresh.
  rewrite filter_cons_False, filter_nil, app_nil_r
    by (intros Hne; apply Hne; exact Hid).
  split; [reflexivity|].
  change (knownUsers (Cache.setCacheWithTTL _ _ _ added))
    with (<[identifier (Cache.newUser user role) :=
              Cache.newUser user role]> (knownUsers s)).
  change (identifier (Cache.newUser user role))
    with (Js.or (in_identifier user) (in_email user)).
  rewrite Hid. apply lookup_insert_eq.
Qed.

Lemma optimistic_add_then_remove_witness :
  let user := mkUserInput None (Some "Bob") (Some "bob@contoso.com") None in
  let s' :=
    Cache.optimisticRemoveUser "W1" "bob@contoso.com" 6000
      (Cache.optimisticAddUser "W1" user (Some "Member") 5000 cachedW1) in
  workspaceUserMap s' !! "W1" = Some (Cache.cachedUsers "W1" cachedW1)
  ∧ knownUsers s' !! Some "bob@contoso.com"
    = Some (Cache.newUser user (Some "Member")).
Proof.
  apply (optimistic_add_then_remove "W1" "bob@contoso.com"
           (mkUserInput None (Some "Bob") (Some "bob@contoso.com") None)
           (Some "Member") 5000 6000 cachedW1).
  - reflexivity.
  - vm_compute. repeat constructor. discriminate.
Defined.

Section ChangeRoleFacts.

Implicit Types (users : list User) (id : string).

Lemma changeFirst_Some id (role : Js.str) users users' :
  Cache.changeFirst id role users = Some users' ->
  ∃ before u after,
    users = (before ++ u :: after)%list
    ∧ users' = (before
                ++ mkUser (identifier u) (displayName u) (emailAddress u)
                     role (principalType u) :: after)%list
    ∧ identifier u = Some id
    ∧ Forall (λ v, identifier v ≠ Some id) before.
Proof.
  revert users'. induction users as [|u users IH]; intros users' H;
    [discriminate H|].
  cbn in H. case_bool_decide as Hid.
  - injection H as <-. exists [], u, users.
    repeat split; [exact Hid | constructor].
  - destruct (Cache.changeFirst id role users) as [rest|];
      [|discriminate H].
    injection H as <-.
    destruct (IH rest eq_refl) as (before & v & after & -> & -> & Hv & Hb).
    exists (u :: before), v, after. repeat split; [exact Hv|].
    constructor; assumption.
Qed.

Lemma changeFirst_None id (role : Js.str) users :
  Cache.changeFirst id role users = None ->
  Forall (λ v, identifier v ≠ Some id) users.
Proof.
  induction users as [|u users IH]; [constructor|].
  cbn. case_bool_decide as Hid; [discriminate|].
  destruct (Cache.changeFirst id role users); [discriminate|].
  intros _. constructor; [exact Hid | apply IH; reflexivity].
Qed.

End ChangeRoleFacts.

(** X22: [optimisticChangeRole] changes one field of one record.  If a
    cached record has the identifier, the first such record gets the new
    role and every other record, the order and the length of the list
    stay as they were; if none has it, the whole state is unchanged. *)
Theorem optimisticChangeRole_changes_first_only (ws id : string)
    (role : Js.str) (now : Z) (s : AppState) :
  let s' := Cache.optimisticChangeRole ws id role now s in
  (Forall (λ v, identifier v ≠ Some id) (Cache.cachedUsers ws s) ∧ s' = s)
  ∨ ∃ before u after,
      Cache.cachedUsers ws s = (before ++ u :: after)%list
      ∧ identifier u = Some id
      ∧ Forall (λ v, identifier v ≠ Some id) before
      ∧ workspaceUserMap s' !! ws
        = Some (before
                ++ mkUser (identifier u) (displayName u) (emailAddress u)
                     role (principalType u) :: after)%list.
Proof.
  cbn zeta. unfold Cache.optimisticChangeRole.
  destruct (Cache.changeFirst id role (Cache.cachedUsers ws s))
    as [users'|] eqn:Hchange.
  - right.
    destruct (changeFirst_Some id role _ users' Hchange)
      as (before & u & after & Hold & -> & Hu & Hbefore).
    exists before, u, after. repeat split; try assumption.
    cbn. apply lookup_insert_eq.
  - left. split; [|reflexivity].
    apply (changeFirst_None id role). exact Hchange.
Qed.

(** ** Further properties: retries of [callWithErrorHandling] *)

Section RetryBoundFacts.

Variable server : nat -> CallOutcome.
Variable url : string.

Lemma requestCount_cons (e : Effect) (l : list Effect) :
  requestCount (e :: l)
  = ((if isRequest e then 1 else 0) + requestCount l)%nat.
Proof.
  unfold requestCount. rewrite filter_cons.
  destruct (isRequest e); reflexivity.
Qed.

Lemma requestCount_nil : requestCount [] = O.
Proof. reflexivity. Qed.

(** A branch of the call that ends it: the effects are appended to the
    log and hold exactly one request. *)
Ltac one_request :=
  eexists;
  split;
  [ cbn [snd effects emit showAlert set_effects set_isPowerBIAdmin];
    rewrite <- ?app_assoc; reflexivity
  | cbn [app]; rewrite ?requestCount_cons, ?requestCount_nil;
    cbn [isRequest]; lia ].

(** From retry count [retryCount] on, the call sends at least one
    request and at most one per remaining retry plus one. *)
Lemma call_requests_bounded (m retryCount : nat) (s : AppState) :
  (Api.MAX_RETRIES - retryCount = m)%nat ->
  ∃ trace,
    effects (snd (Api.callWithErrorHandling server url retryCount s))
    = (effects s ++ trace)%list
    ∧ (1 ≤ requestCount trace ≤ S m)%nat.
Proof.
  revert retryCount s. induction m as [|m IH]; intros retryCount s Hm;
    rewrite Api.callWithErrorHandling_equation_1;
    (destruct (server retryCount) as [e|r]; cbn; [one_request|]);
    destruct (Api.statusCase (status r)); cbn;
    destruct (decide (retryCount < Api.MAX_RETRIES)%nat);
    try (exfalso; lia);
    try one_request;
    try (destruct (isPowerBIAdmin s && Js.includes "/admin/" url);
         one_request);
    try (destruct (negb (ok r)); one_request).
  all: match goal with
       | |- context [Api.callWithErrorHandling server url _ ?s1] =>
           destruct (IH (retryCount + 1)%nat s1 ltac:(lia))
             as (trace & Heff & Hcount)
       end;
    rewrite Heff;
    eexists ([Request url; Alert _ _; Sleep _] ++ trace)%list;
    (split;
     [ cbn [effects emit showAlert set_effects];
       rewrite <- ?app_assoc; reflexivity
     | rewrite requestCount_app, ?requestCount_cons, ?requestCount_nil;
       cbn [isRequest]; lia ]).
Qed.

End RetryBoundFacts.

(** X23: whatever the server answers, [callWithErrorHandling] of the
    module with the retry counter comes to an end after at least one and
    at most [MAX_RETRIES + 1 = 4] requests. *)
Theorem callWithErrorHandling_at_most_four_requests
    (server : nat -> CallOutcome) (url : string) (s : AppState) :
  ∃ trace,
    effects (snd (Api.callWithErrorHandling server url 0 s))
    = (effects s ++ trace)%list
    ∧ (1 ≤ requestCount trace ≤ S Api.MAX_RETRIES)%nat.
Proof.
  apply (call_requests_bounded server url Api.MAX_RETRIES 0 s).
  reflexivity.
Qed.

Section BackoffFacts.

Variable server : nat -> CallOutcome.
Variable url : string.

Lemma statusCase_5xx (st : Z) :
  st = 500 ∨ st = 502 ∨ st = 503 ∨ st = 504 ->
  Api.statusCase st = Case5xx.
Proof. intros [->|[->|[->| ->]]]; reflexivity. Qed.

(** With retries left, a server error leads to the next attempt after
    a delay of [2 ^ retryCount] seconds. *)
Lemma server_error_step (retryCount : nat) (s : AppState) (r : Response) :
  (retryCount < Api.MAX_RETRIES)%nat ->
  server retryCount = CallReturns r ->
  Api.statusCase (status r) = Case5xx ->
  Api.callWithErrorHandling server url retryCount s
  = Api.callWithErrorHandling server url (retryCount + 1)
      (emit (Sleep (2 ^ Z.of_nat retryCount * 1000))
         (showAlert
            ("Server error. Retrying in "
               ++ pretty (2 ^ Z.of_nat retryCount) ++ "s...")
            "warning" (emit (Request url) s))).
Proof.
  intros Hlt Hs Hst. rewrite Api.callWithErrorHandling_equation_1.
  rewrite Hs. cbn. rewrite Hst. cbn.
  destruct (decide (retryCount < Api.MAX_RETRIES)%nat); [|lia].
  reflexivity.
Qed.

(** Without retries left, a server error ends the call. *)
Lemma server_error_exhausted (retryCount : nat) (s : AppState)
    (r : Response) :
  (Api.MAX_RETRIES ≤ retryCount)%nat ->
  server retryCount = CallReturns r ->
  Api.statusCase (status r) = Case5xx ->
  Api.callWithErrorHandling server url retryCount s
  = (Js.Throw (Js.newError ("Server error: " ++ pretty (status r))),
     showAlert "Power BI service unavailable. Please try again later."
       "error" (emit (Request url) s)).
Proof.
  intros Hge Hs Hst. rewrite Api.callWithErrorHandling_equation_1.
  rewrite Hs. cbn. rewrite Hst. cbn.
  destruct (decide (retryCount < Api.MAX_RETRIES)%nat); [lia|].
  reflexivity.
Qed.

Lemma retryDelay_default (r : Response) (retryCount : nat) :
  Js.truthyNum (retryAfter r) = false ->
  Api.retryDelay r retryCount = 5 * 2 ^ Z.of_nat retryCount.
Proof.
  intros Hnone. unfold Api.retryDelay, Js.orNum. rewrite Hnone.
  reflexivity.
Qed.

End BackoffFacts.

(** X24: against a server that keeps answering with a server error (500,
    502, 503 or 504), the call retries three times with delays of 1, 2
    and 4 seconds and then fails with "Server error: " followed by the
    status of the fourth answer; it sends exactly four requests. *)
Theorem server_error_backoff (server : nat -> CallOutcome) (url : string)
    (s : AppState) :
  always5xx server ->
  ∃ r s' trace,
    server 3%nat = CallReturns r
    ∧ Api.callWithErrorHandling server url 0 s
      = (Js.Throw (Js.newError ("Server error: " ++ pretty (status r))), s')
    ∧ effects s' = (effects s ++ trace)%list
    ∧ requestCount trace = 4%nat
    ∧ pacing trace = [Sleep 1000; Sleep 2000; Sleep 4000].
Proof.
  intros Hserver.
  destruct (Hserver 0%nat) as (r0 & Hs0 & Hst0).
  destruct (Hserver 1%nat) as (r1 & Hs1 & Hst1).
  destruct (Hserver 2%nat) as (r2 & Hs2 & Hst2).
  destruct (Hserver 3%nat) as (r3 & Hs3 & Hst3).
  apply statusCase_5xx in Hst0, Hst1, Hst2, Hst3.
  exists r3.
  rewrite (server_error_step server url 0 s r0)
    by (assumption || (unfold Api.MAX_RETRIES; lia)).
  rewrite (server_error_step server url 1 _ r1)
    by (assumption || (unfold Api.MAX_RETRIES; lia)).
  rewrite (server_error_step server url 2 _ r2)
    by (assumption || (unfold Api.MAX_RETRIES; lia)).
  rewrite (server_error_exhausted server url 3 _ r3)
    by (assumption || (unfold Api.MAX_RETRIES; lia)).
  eexists _, _. split; [exact Hs3|]. split; [reflexivity|].
  split; [|split].
  - cbn [effects emit showAlert set_effects].
    rewrite <- !app_assoc. reflexivity.
  - reflexivity.
  - reflexivity.
Qed.

Lemma server_error_backoff_witness :
  let server := λ _ : nat, CallReturns (mkResponse 503 "" None None "") in
  ∃ r s' trace,
    server 3%nat = CallReturns r
    ∧ Api.callWithErrorHandling server
        "https://api.powerbi.com/v1.0/myorg/groups" 0 initialState
      = (Js.Throw (Js.newError ("Server error: " ++ pretty (status r))), s')
    ∧ effects s' = (effects initialState ++ trace)%list
    ∧ requestCount trace = 4%nat
    ∧ pacing trace = [Sleep 1000; Sleep 2000; Sleep 4000].
Proof.
  apply (server_error_backoff
           (λ _ : nat, CallReturns (mkResponse 503 "" None None ""))
           "https://api.powerbi.com/v1.0/myorg/groups" initialState).
  intros n. eexists. split; [reflexivity|]. cbn. auto.
Defined.

(** X25: against a server that keeps answering 429 without a usable
    [Retry-After] header (absent, not a number, or zero), the delays
    before the three retries double: 5, 10 and 20 seconds. *)
Theorem rate_limit_default_backoff (server : nat -> CallOutcome)
    (url : string) (s : AppState) :
  always429 server -> noRetryAfter server ->
  ∃ s' trace,
    Api.callWithErrorHandling server url 0 s
    = (Js.Throw (Js.newError "Rate limit exceeded"), s')
    ∧ effects s' = (effects s ++ trace)%list
    ∧ pacing trace = [Sleep 5000; Sleep 10000; Sleep 20000].
Proof.
  intros Hserver Hnone.
  destruct (Hserver 0%nat) as (r0 & Hs0 & Hst0).
  destruct (Hserver 1%nat) as (r1 & Hs1 & Hst1).
  destruct (Hserver 2%nat) as (r2 & Hs2 & Hst2).
  destruct (Hserver 3%nat) as (r3 & Hs3 & Hst3).
  rewrite (retry_step server url 0 s r0)
    by (assumption || (unfold Api.MAX_RETRIES; lia)).
  rewrite (retry_step server url 1 _ r1)
    by (assumption || (unfold Api.MAX_RETRIES; lia)).
  rewrite (retry_step server url 2 _ r2)
    by (assumption || (unfold Api.MAX_RETRIES; lia)).
  rewrite (retry_exhausted server url 3 _ r3)
    by (assumption || (unfold Api.MAX_RETRIES; lia)).
  rewrite (retryDelay_default r0 0 (Hnone _ _ Hs0)).
  rewrite (retryDelay_default r1 1 (Hnone _ _ Hs1)).
  rewrite (retryDelay_default r2 2 (Hnone _ _ Hs2)).
  eexists _, _. split; [reflexivity|]. split.
  - cbn [effects emit showAlert set_effects].
    rewrite <- !app_assoc. reflexivity.
  - reflexivity.
Qed.

Lemma rate_limit_default_backoff_witness :
  let server :=
    λ _ : nat, CallReturns (mkResponse 429 "" None None "") in
  ∃ s' trace,
    Api.callWithErrorHandling server
      "https://api.powerbi.com/v1.0/myorg/groups" 0 initialState
    = (Js.Throw (Js.newError "Rate limit exceeded"), s')
    ∧ effects s' = (effects initialState ++ trace)%list
    ∧ pacing trace = [Sleep 5000; Sleep 10000; Sleep 20000].
Proof.
  apply (rate_limit_default_backoff
           (λ _ : nat, CallReturns (mkResponse 429 "" None None ""))
           "https://api.powerbi.com/v1.0/myorg/groups" initialState).
  - intros n. eexists. split; reflexivity.
  - intros n r [= <-]. reflexivity.
Defined.

Section LegacyRetryFacts.

Variable server : nat -> CallOutcome.
Variable onLine : bool.
Variable url : string.

Lemma legacy_statusCase_429 (st : Z) :
  ApiLegacy.statusCase st = Case429 -> st = 429.
Proof.
  unfold ApiLegacy.statusCase.
  destruct (Z.eqb_spec st 401); [discriminate|].
  destruct (Z.eqb_spec st 403); [discriminate|].
  destruct (Z.eqb_spec st 429); [intros _; assumption|].
  repeat match goal with
         | |- context [if ?b then _ else _] => destruct b
         end; discriminate.
Qed.

(** The effects of the [catch] block are alerts. *)
Lemma onCatch_effects (e : Js.Error) (s : AppState) :
  ∃ alerts, effects (ApiLegacy.onCatch onLine e s)
            = (effects s ++ alerts)%list
            ∧ requestCount alerts = O.
Proof.
  unfold ApiLegacy.onCatch.
  repeat match goal with
         | |- context [if ?b then _ else _] => destruct b
         end;
    try (exists []; rewrite app_nil_r; split; reflexivity);
    eexists [Alert _ _]; split; reflexivity.
Qed.

(** An attempt that is not answered with 429 settles the call with one
    request. *)
Lemma legacy_attempt_settles (fuel attempt : nat) (s : AppState) :
  not429 (server attempt) ->
  ∃ c s' trace,
    ApiLegacy.callWithErrorHandling (S fuel) server onLine url attempt s
    = (ApiLegacy.Finished c, s')
    ∧ effects s' = (effects s ++ trace)%list
    ∧ requestCount trace = 1%nat.
Proof.
  intros Hnot. cbn [ApiLegacy.callWithErrorHandling].
  assert (Hcatch : ∀ e s1 pre,
             effects s1 = (effects s ++ Request url :: pre)%list ->
             requestCount pre = O ->
             ∃ c s' trace,
               (ApiLegacy.Finished (Js.Throw e), ApiLegacy.onCatch onLine e s1)
               = (ApiLegacy.Finished c, s')
               ∧ effects s' = (effects s ++ trace)%list
               ∧ requestCount trace = 1%nat).
  { intros e s1 pre Hs1 Hpre.
    destruct (onCatch_effects e s1) as (alerts & Heff & Halerts).
    eexists _, _, (Request url :: pre ++ alerts)%list.
    split; [reflexivity|]. split.
    - rewrite Heff, Hs1, <- app_assoc. reflexivity.
    - rewrite requestCount_cons, requestCount_app, Hpre, Halerts.
      reflexivity. }
  destruct (server attempt) as [e|r] eqn:Hs.
  - apply (Hcatch e _ []); reflexivity.
  - cbn in Hnot.
    destruct (ApiLegacy.statusCase (status r)) eqn:Hcase.
    + eapply (Hcatch _ _ [Alert _ _; SignOut; Alert _ _]);
        [cbn; rewrite <- !app_assoc |]; reflexivity.
    + destruct (isPowerBIAdmin (emit (Request url) s)
                && Js.includes "/admin/" url).
      * eapply (Hcatch _ _ [Alert _ _; SwitchView _]);
          [cbn; rewrite <- !app_assoc |]; reflexivity.
      * apply (Hcatch _ _ []); reflexivity.
    + destruct (negb (ok r)).
      * apply (Hcatch _ _ []); reflexivity.
      * eexists _, _, [Request url]. repeat split.
    + destruct (negb (ok r)).
      * apply (Hcatch _ _ []); reflexivity.
      * eexists _, _, [Request url]. repeat split.
    + apply legacy_statusCase_429 in Hcase. contradiction.
    + eapply (Hcatch _ _ [Alert _ _]);
        [cbn; rewrite <- !app_assoc |]; reflexivity.
    + eexists _, _, [Request url]. repeat split.
    + destruct (negb (ok r)).
      * apply (Hcatch _ _ []); reflexivity.
      * eexists _, _, [Request url]. repeat split.
Qed.

(** After [k] answers 429, the first other answer settles the call. *)
Lemma legacy_settles_after (k fuel attempt : nat) (s : AppState) :
  (∀ n, (attempt ≤ n < attempt + k)%nat ->
        ∃ r, server n = CallReturns r ∧ status r = 429) ->
  not429 (server (attempt + k)) ->
  (k < fuel)%nat ->
  ∃ c s' trace,
    ApiLegacy.callWithErrorHandling fuel server onLine url attempt s
    = (ApiLegacy.Finished c, s')
    ∧ effects s' = (effects s ++ trace)%list
    ∧ requestCount trace = S k.
Proof.
  revert fuel attempt s. induction k as [|k IH];
    intros fuel attempt s Hlimited Hother Hfuel.
  - destruct fuel as [|fuel]; [lia|].
    rewrite Nat.add_0_r in Hother.
    apply legacy_attempt_settles. exact Hother.
  - destruct fuel as [|fuel]; [lia|].
    destruct (Hlimited attempt ltac:(lia)) as (r & Hs & Hst).
    cbn [ApiLegacy.callWithErrorHandling]. rewrite Hs.
    unfold ApiLegacy.statusCase. rewrite Hst. cbn [Z.eqb Pos.eqb].
    match goal with
    | |- context [ApiLegacy.callWithErrorHandling fuel _ _ _ _ ?s1] =>
        destruct (IH fuel (S attempt) s1) as (c & s' & trace & Hrun & Heff
                                              & Hcount)
    end.
    + intros n Hn. apply Hlimited. lia.
    + replace (S attempt + k)%nat with (attempt + S k)%nat by lia.
      exact Hother.
    + lia.
    + exists c, s'.
      eexists ([Request url; Alert _ _; Sleep _] ++ trace)%list.
      split; [exact Hrun|]. split.
      * rewrite Heff. cbn [effects emit showAlert set_effects].
        rewrite <- !app_assoc. reflexivity.
      * rewrite requestCount_app, Hcount. reflexivity.
Qed.

End LegacyRetryFacts.

(** X26: the first API module (js/api.js) keeps retrying only while the
    answers are 429: if the first [k] attempts are answered with 429 and
    the next one with anything else (another status, or a thrown error),
    the call settles at that attempt, after exactly [k + 1] requests. *)
Theorem legacy_retry_settles_at_first_other_answer
    (server : nat -> CallOutcome) (onLine : bool) (url : string)
    (k attempts : nat) (s : AppState) :
  (∀ n, (n < k)%nat -> ∃ r, server n = CallReturns r ∧ status r = 429) ->
  not429 (server k) ->
  (k < attempts)%nat ->
  ∃ c s' trace,
    ApiLegacy.callWithErrorHandling attempts server onLine url 0 s
    = (ApiLegacy.Finished c, s')
    ∧ effects s' = (effects s ++ trace)%list
    ∧ requestCount trace = S k.
Proof.
  intros Hlimited Hother Hfuel.
  apply (legacy_settles_after server onLine url k attempts 0 s).
  - intros n Hn. apply Hlimited. lia.
  - exact Hother.
  - exact Hfuel.
Qed.

Lemma legacy_retry_settles_at_first_other_answer_witness :
  let server := λ n : nat,
    if (n <? 2)%nat then CallReturns (tooManyRequests 1)
    else CallReturns (mkResponse 200 "OK" None None "") in
  ∃ c s' trace,
    ApiLegacy.callWithErrorHandling 5 server true
      "https://api.powerbi.com/v1.0/myorg/groups" 0 initialState
    = (ApiLegacy.Finished c, s')
    ∧ effects s' = (effects initialState ++ trace)%list
    ∧ requestCount trace = 3%nat.
Proof.
  apply (legacy_retry_settles_at_first_other_answer
           (λ n : nat,
              if (n <? 2)%nat then CallReturns (tooManyRequests 1)
              else CallReturns (mkResponse 200 "OK" None None ""))
           true "https://api.powerbi.com/v1.0/myorg/groups" 2 5
           initialState).
  - intros n Hn. exists (tooManyRequests 1).
    destruct n as [|[|n]]; [split; reflexivity .. | lia].
  - cbn. discriminate.
  - lia.
Defined.

(** ** Further properties: the bulk operation engine in general *)

Section BulkTallyFacts.

Context {Item Payload : Type}.
Variable config : BulkConfig Item Payload.

Implicit Types (t : Tally) (batch payloads : list (Item * Payload)).

Lemma tallied_recordResult (item : Item) (result : Settled) t :
  tallied 1 t (Api.recordResult config item result t).
Proof.
  unfold tallied, Api.recordResult.
  destruct result as [[value|]|reason]; [destruct (ok value)| |];
    cbn [t_success t_failure t_errors]; rewrite ?length_app;
    cbn [length]; lia.
Qed.

Lemma tallied_forEachResult batch (pos : nat) t :
  tallied (length batch) t (Api.forEachResult config batch pos t).
Proof.
  revert pos t. induction batch as [|[item payload] batch IH];
    intros pos t; cbn [Api.forEachResult length].
  - unfold tallied. lia.
  - pose proof (IH (S pos)
                  (Api.recordResult config item
                     (makeCall config pos payload) t)) as [H1 H2].
    pose proof (tallied_recordResult item (makeCall config pos payload) t)
      as [H3 H4].
    unfold tallied. lia.
Qed.

Lemma tallied_batchLoop payloads (i : nat) t :
  tallied (length payloads - i) t (Api.batchLoop config payloads i t).
Proof.
  remember (length payloads - i)%nat as m eqn:Hm.
  revert i t Hm. induction m as [m IH] using lt_wf_ind. intros i t Hm.
  rewrite Api.batchLoop_equation_1.
  destruct (decide (i < length payloads)%nat) as [Hlt|Hge];
    cbn -[Nat.min take drop].
  - match goal with
    | |- context [Api.batchLoop config payloads _ ?t1] =>
        pose proof (IH (length payloads - (i + CONFIG.BATCH_SIZE))%nat
                      ltac:(unfold CONFIG.BATCH_SIZE; lia)
                      (i + CONFIG.BATCH_SIZE)%nat t1 eq_refl) as [H1 H2]
    end.
    match type of H1 with
    | context [Api.forEachResult config ?b ?p ?t0] =>
        pose proof (tallied_forEachResult b p t0) as [H3 H4];
        pose proof (length_batch payloads i) as Hlen
    end.
    cbn [t_success t_failure t_errors] in H3, H4.
    destruct (decide (i + CONFIG.BATCH_SIZE < length payloads)%nat);
      cbn [t_success t_failure t_errors] in H1, H2;
      unfold tallied; unfold CONFIG.BATCH_SIZE in *; lia.
  - unfold tallied. lia.
Qed.

(** One pair per item with a truthy payload. *)
Lemma length_buildPayloads_filter (build : Item -> option Payload)
    (l : list Item) :
  length (buildPayloads build l)
  = length (filter (λ item, is_Some (build item)) l).
Proof.
  unfold buildPayloads. induction l as [|item l IH]; [reflexivity|].
  rewrite filter_cons. cbn.
  destruct (build item) as [payload|] eqn:Hb; cbn.
  - rewrite decide_True by eauto. cbn. f_equal. exact IH.
  - rewrite decide_False by (intros [x Hx]; discriminate Hx). exact IH.
Qed.

End BulkTallyFacts.

Section BulkRunFacts.

Context {Item Payload : Type}.
Variable config : BulkConfig Item Payload.
Variable confirm : string -> bool.

Lemma itemCount_length :
  Api.itemCount config = length (itemArray (items config)).
Proof.
  unfold Api.itemCount, itemsSize, itemsLength, itemArray.
  destruct (items config) as [l|l]; [destruct l|]; reflexivity.
Qed.

(** The entry checks of an accepted run all pass. *)
Lemma accepted_checks (s : AppState) :
  accepted config confirm s ->
  match permissionCheck config with
  | Some check => negb (check s)
  | None => false
  end = false
  ∧ Js.truthy (confirmMessage config)
    && negb (confirm (default "" (confirmMessage config))) = false
  ∧ operationInProgress s = false.
Proof.
  intros (Hperm & Hconfirm & Hidle). repeat split.
  - destruct (permissionCheck config) as [check|]; [|reflexivity].
    rewrite (Hperm check eq_refl). reflexivity.
  - destruct (Js.truthy (confirmMessage config)); [|reflexivity].
    rewrite (Hconfirm eq_refl). reflexivity.
  - exact Hidle.
Qed.

(** An accepted run over a non-empty collection is the [try] body
    between the start of the operation and the [finally] block. *)
Lemma executeBulkOperation_accepted (now : Z) (s : AppState) :
  accepted config confirm s ->
  itemArray (items config) ≠ [] ->
  Api.executeBulkOperation config confirm now s
  = (fst (Api.tryBody config (Api.app (Api.beginOperation now s))),
     Api.finallyBlock
       (Api.mkRun (snd (Api.tryBody config
                          (Api.app (Api.beginOperation now s))))
          (Api.watchdogTimer (Api.beginOperation now s)))).
Proof.
  intros Hacc Hitems.
  destruct (accepted_checks s Hacc) as (Hperm & Hconfirm & Hidle).
  unfold Api.executeBulkOperation.
  rewrite Hperm, Hconfirm, Hidle, itemCount_length.
  rewrite bool_decide_eq_false_2
    by (destruct (itemArray (items config)); [contradiction|discriminate]).
  destruct (Api.tryBody config (Api.app (Api.beginOperation now s))).
  reflexivity.
Qed.

Lemma callWithCounts_totals
    (callback : option (nat -> nat -> AppState -> AppState)) (t : Tally) :
  t_success (callWithCounts callback t) = t_success t
  ∧ t_failure (callWithCounts callback t) = t_failure t
  ∧ t_errors (callWithCounts callback t) = t_errors t.
Proof. destruct callback; repeat split. Qed.

(** The object the [try] body returns holds the totals of the loop. *)
Lemma tryBody_totals (s : AppState) :
  let payloads :=
    buildPayloads (buildPayload config) (itemArray (items config)) in
  let result := fst (Api.tryBody config s) in
  (successCount result + failureCount result = length payloads)%nat
  ∧ length (errors result) = failureCount result.
Proof.
  cbn zeta. unfold Api.tryBody. cbn zeta. cbn [fst].
  set (payloads := buildPayloads _ _).
  destruct (tallied_batchLoop config payloads 0 (mkTally 0 0 [] s))
    as [Hcount Herrors].
  set (t1 := Api.batchLoop config payloads 0 (mkTally 0 0 [] s)) in *.
  destruct (callWithCounts_totals (updateCache config) t1)
    as (Hs2 & Hf2 & He2).
  set (t2 := callWithCounts (updateCache config) t1) in *.
  set (t3 := mkTally (t_success t2) (t_failure t2) (t_errors t2)
               (showFeedback config "warning" t2)).
  destruct (callWithCounts_totals (onComplete config) t3)
    as (Hs4 & Hf4 & He4).
  cbn [successCount failureCount errors]. rewrite Hs4, Hf4, He4.
  unfold t3. cbn [t_success t_failure t_errors] in *.
  rewrite Hs2, Hf2, He2. cbn [length] in Herrors. split; lia.
Qed.

End BulkRunFacts.

Section ScheduleFacts.






End ScheduleFacts.

(** X27: an accepted bulk run counts every payload exactly once, as a
    success or as a failure, whatever collection it is given: the two
    counts add up to the number of items whose payload is truthy (items
    with a falsy payload are skipped, not failed), there is one error
    message per failure, and when the run returns the operation flag is
    down and the watchdog timer is cleared. *)
Theorem bulk_run_counts_every_payload {Item Payload : Type}
    (config : BulkConfig Item Payload) (confirm : string -> bool) (now : Z)
    (s : AppState) :
  accepted config confirm s ->
  let '(result, run) := Api.executeBulkOperation config confirm now s in
  (successCount result + failureCount result
   = length (filter (λ item, is_Some (buildPayload config item))
               (itemArray (items config))))%nat
  ∧ length (errors result) = failureCount result
  ∧ operationInProgress (Api.app run) = false
  ∧ Api.watchdogTimer run = None.
Proof.
  intros Hacc.
  destruct (itemArray (items config)) as [|item rest] eqn:Hitems.
  - destruct (accepted_checks config confirm s Hacc)
      as (Hperm & _ & Hidle).
    unfold Api.executeBulkOperation.
    rewrite Hperm, itemCount_length, Hitems. cbn. repeat split.
    exact Hidle.
  - rewrite executeBulkOperation_accepted
      by (assumption || (rewrite Hitems; discriminate)).
    destruct (tryBody_totals config (Api.app (Api.beginOperation now s)))
      as [Hcount Herrors].
    rewrite length_buildPayloads_filter, Hitems in Hcount.
    repeat split; assumption.
Qed.

Lemma bulk_run_counts_every_payload_witness :
  let '(result, run) :=
    Api.executeBulkOperation allFail37 (λ _, true) 1000 initialState in
  (successCount result + failureCount result
   = length (filter (λ item, is_Some (buildPayload allFail37 item))
               (itemArray (items allFail37))))%nat
  ∧ length (errors result) = failureCount result
  ∧ operationInProgress (Api.app run) = false
  ∧ Api.watchdogTimer run = None.
Proof.
  apply (bulk_run_counts_every_payload allFail37 (λ _, true) 1000
           initialState).
  split; [intros check H; discriminate H|].
  split; [intros H; discriminate H | reflexivity].
Defined.

(** X28: the two API modules treat an empty collection differently.
    The module with the watchdog returns zero counts at once and touches
    nothing.  In js/api.js the test for an empty collection compares
    both [items.size] and [items.length] with 0 and so never holds: the
    run is started, [updateCache(0, 0)] is called, and the success
    message for 0 items is shown. *)
Theorem empty_collection_in_both_modules {Item Payload : Type}
    (config : BulkConfig Item Payload) (confirm : string -> bool) (now : Z)
    (s : AppState) :
  accepted config confirm s ->
  itemArray (items config) = [] ->
  Api.executeBulkOperation config confirm now s
  = (mkBulkResult 0 0 [], Api.mkRun s None)
  ∧ ApiLegacy.executeBulkOperation config confirm s
    = (Js.Return (Some (mkBulkResult 0 0 [])),
       set_operationInProgress false
         (showAlert (Js.replace "{count}" "0" (successMessage config))
            "success"
            (t_state
               (callWithCounts (updateCache config)
                  (mkTally 0 0 [] (set_operationInProgress true s)))))).
Proof.
  intros Hacc Hitems.
  destruct (accepted_checks config confirm s Hacc)
    as (Hperm & Hconfirm & Hidle).
  split.
  - unfold Api.executeBulkOperation.
    rewrite Hperm, itemCount_length, Hitems. reflexivity.
  - unfold ApiLegacy.executeBulkOperation.
    rewrite Hperm, Hconfirm, Hidle, Hitems.
    replace (bool_decide (itemsSize (items config) = Some 0%nat)
             && bool_decide (itemsLength (items config) = Some 0%nat))
      with false
      by (destruct (items config);
          [symmetry; apply andb_false_intro2 | ]; reflexivity).
    change (buildPayloads (buildPayload config) [])
      with (@nil (Item * Payload)).
    rewrite ApiLegacy.batchLoop_equation_1. cbn [length].
    destruct (decide (0 < 0)%nat) as [Hlt|Hge]; [lia|].
    cbn [ApiLegacy.batchLoop_unfold_clause_1].
    destruct (callWithCounts_totals (updateCache config)
                (mkTally 0 0 [] (set_operationInProgress true s)))
      as (Hs & Hf & He).
    cbn [t_success t_failure t_errors] in Hs, Hf, He.
    unfold showFeedback. rewrite Hs, Hf, He. reflexivity.
Qed.

Lemma empty_collection_in_both_modules_witness :
  let config : BulkConfig nat nat :=
    mkBulkConfig nat nat (ItemArray []) None None (λ item, Some item)
      (λ _ _, Rejected None) None None "Removed {count} user(s)" "Failed"
      "Removed {success}, {failure} failed" None in
  Api.executeBulkOperation config (λ _, true) 1000 initialState
  = (mkBulkResult 0 0 [], Api.mkRun initialState None)
  ∧ ApiLegacy.executeBulkOperation config (λ _, true) initialState
    = (Js.Return (Some (mkBulkResult 0 0 [])),
       set_operationInProgress false
         (showAlert (Js.replace "{count}" "0" (successMessage config))
            "success"
            (t_state
               (callWithCounts (updateCache config)
                  (mkTally 0 0 []
                     (set_operationInProgress true initialState)))))).
Proof.
  apply (empty_collection_in_both_modules
           (mkBulkConfig nat nat (ItemArray []) None None (λ item, Some item)
              (λ _ _, Rejected None) None None "Removed {count} user(s)"
              "Failed" "Removed {success}, {failure} failed" None)
           (λ _, true) 1000 initialState).
  - split; [intros check H; discriminate H|].
    split; [intros H; discriminate H | reflexivity].
  - reflexivity.
Defined.


